(** * Retirement projection engine of the financial-advisory backend

    A shallow embedding of the calculation core of
    [backend/app/api/services/retirement_functions.py] and
    [backend/app/api/services/utils_calculation_functions.py], followed by
    the properties that the specification states about it.

    Numbers.  The Python code computes with [decimal.Decimal] (28
    significant digits) and with binary [float].  Both are embedded as exact
    rationals [Q]: every conversion [Decimal(str(x))] and [float(d)] is the
    identity, and no operation rounds.  The properties below are therefore
    properties of the calculation as written, up to the rounding of the two
    number types.  Numeric results are compared with [==] (equality of
    rationals), control flow and shapes with [=].

    Rounding matters to control flow in two places, both marked at the
    definition concerned.  A [Decimal] sum [1 + rate] is [1] for a positive
    rate below [10^-27], which makes a divisor of the second what-if
    implementation zero in the code and not in the embedding; the
    properties that assert a return of that function carry
    [return_rate_not_absorbed].  A [float] product [target_ratio * 1.2] can
    fall just below its exact value, which moves a ratio lying exactly on
    that limit from "On Track" to "Above Target" in the code; no property
    below depends on the side of that limit.

    Exceptions.  A Python function that may raise returns a [result]; each
    operation that can raise in the code (a [Decimal] division, [0 ** 0], a
    [float] division, the use of an unbound local) raises in the
    embedding. *)

From Stdlib Require Import ZArith QArith Qround Qpower Lqa Lia List String Bool.
Import ListNotations.

Open Scope Q_scope.

(** ** Python runtime: exceptions and the arithmetic that can raise *)

Module Py.

Inductive exn : Type :=
| UnboundLocalError (name : string)
| DivisionByZero            (* decimal.DivisionByZero: x / 0 with x <> 0 *)
| InvalidOperation          (* decimal.InvalidOperation: 0 / 0 and 0 ** 0 *)
| ZeroDivisionError         (* float division by zero *)
| HTTPException (status_code : Z) (cause : exn).

Inductive result (A : Type) : Type :=
| Ok (a : A)
| Raise (e : exn).

Arguments Ok {A} a.
Arguments Raise {A} e.

Definition bind {A B : Type} (c : result A) (k : A -> result B) : result B :=
  match c with
  | Ok a => k a
  | Raise e => Raise e
  end.

(** [try: body except Exception as e: raise handler(e)] *)
Definition try_except {A : Type} (body : result A) (handler : exn -> exn)
  : result A :=
  match body with
  | Ok a => Ok a
  | Raise e => Raise (handler e)
  end.

(** A local variable that is assigned only inside a loop body. *)
Definition read_local {A : Type} (name : string) (v : option A) : result A :=
  match v with
  | Some a => Ok a
  | None => Raise (UnboundLocalError name)
  end.

(** [Decimal / Decimal] under the default context (traps enabled). *)
Definition dec_div (a b : Q) : result Q :=
  if Qeq_dec b 0 then
    if Qeq_dec a 0 then Raise InvalidOperation else Raise DivisionByZero
  else Ok (a / b).

(** [Decimal ** n] for an integral exponent.  [0 ** 0] raises; the code
    never raises zero to a negative power (the exponent is a number of
    years counted up from zero, or the base exceeds one). *)
Definition dec_pow (a : Q) (n : Z) : result Q :=
  if Qeq_dec a 0 then
    if (n =? 0)%Z then Raise InvalidOperation else Ok (a ^ n)
  else Ok (a ^ n).

(** [float / float]. *)
Definition float_div (a b : Q) : result Q :=
  if Qeq_dec b 0 then Raise ZeroDivisionError else Ok (a / b).

(** [min(a, b)] and [max(a, b)]: the first argument wins a tie. *)
Definition min (a b : Q) : Q := if Qlt_le_dec b a then b else a.
Definition max (a b : Q) : Q := if Qlt_le_dec a b then b else a.

(** Comparisons of numbers as Python truth values. *)
Definition gt (a b : Q) : bool := if Qlt_le_dec b a then true else false.
Definition ge (a b : Q) : bool := if Qlt_le_dec a b then false else true.
Definition lt (a b : Q) : bool := if Qlt_le_dec a b then true else false.
Definition le (a b : Q) : bool := if Qlt_le_dec b a then false else true.

(** [range(n)]: empty when [n <= 0]. *)
Definition range (n : Z) : list Z := map Z.of_nat (seq 0 (Z.to_nat n)).

(** [round(x)] to the nearest integer, ties to the even one, and
    [round(x, ndigits)]. *)
Definition round_half_even (x : Q) : Z :=
  let f := Qfloor x in
  let d := x - inject_Z f in
  if Qlt_le_dec d (1 # 2) then f
  else if Qlt_le_dec (1 # 2) d then (f + 1)%Z
  else if Z.even f then f else (f + 1)%Z.

Definition round (x : Q) (ndigits : Z) : Q :=
  inject_Z (round_half_even (x * 10 ^ ndigits)) / 10 ^ ndigits.

(** Truth value of a number: [if x] is [x != 0]. *)
Definition truthy (x : Q) : bool := if Qeq_dec x 0 then false else true.

(** [d.get(key) or 0] for a numeric field that may be missing or [None]. *)
Definition or_zero (v : option Q) : Q :=
  match v with
  | Some x => x
  | None => 0
  end.

End Py.

Import Py.

Notation "x <- c ;; k" := (Py.bind c (fun x => k))
  (at level 61, c at next level, right associativity).

(** ** Process-wide settings ([config.py]) *)

Record Settings : Type := {
  ANNUAL_INFLATION_RATE : Q;
  EXPECTED_ANNUAL_INVESTMENT_RETURN : Q;
  RETIREMENT_LIFESTYLE_FACTOR : Q;
  LIFE_EXPECTANCY : Z;
  WITHDRAWAL_RATE : Q;
  RETIREMENT_INCOME_OAS : Q;
  RETIREMENT_INCOME_CPP : Q
}.

(** The defaults of [class Settings]. *)
Definition default_settings : Settings := {|
  ANNUAL_INFLATION_RATE := 3;
  EXPECTED_ANNUAL_INVESTMENT_RETURN := 7;
  RETIREMENT_LIFESTYLE_FACTOR := 0.7;
  LIFE_EXPECTANCY := 90;
  WITHDRAWAL_RATE := 0.04;
  RETIREMENT_INCOME_OAS := 8400;
  RETIREMENT_INCOME_CPP := 15043
|}.

(** ** Tax model: [calculate_after_tax_income]

    The function is defined twice with the same text, in
    [retirement_functions.py] and in [utils_calculation_functions.py]. *)

(** A bracket [(lower, upper, rate)]; [None] is [float('inf')]. *)
Definition bracket : Type := (Q * option Q * Q)%type.

(** [min(annual_income - lower, upper - lower)] with [upper] possibly
    infinite. *)
Definition taxable_slice (annual_income lower : Q) (upper : option Q) : Q :=
  match upper with
  | Some u => Py.min (annual_income - lower) (u - lower)
  | None => annual_income - lower
  end.

(** The [for lower, upper, rate in tax_brackets] loop, with its [break]. *)
Fixpoint tax_loop (annual_income : Q) (brackets : list bracket)
    (tax_payable : Q) : Q :=
  match brackets with
  | [] => tax_payable
  | (lower, upper, rate) :: rest =>
      if Qlt_le_dec lower annual_income then
        let taxable_amount := taxable_slice annual_income lower upper in
        tax_loop annual_income rest (tax_payable + taxable_amount * rate)
      else tax_payable
  end.

(** ** Request and response records ([models.py]) *)

(** The nested dictionary [user_data] read by the plan calculation:
    ["profile"]["age"], the ["financial"] amounts and the ["retirement"]
    balances.  [desired_retirement_lifestyle] is [None] when the key is
    absent, [Some None] when it holds [None], and [Some (Some l)] when it
    holds the string [l]. *)
Module UserData.
Record t : Type := {
  age : Z;
  monthly_income : Q;
  monthly_expenses : Q;
  monthly_savings : Q;
  cash_holdings : Q;
  investment_holdings : Q;
  rrsp_savings : Q;
  tfsa_savings : Q;
  desired_retirement_lifestyle : option (option string)
}.
End UserData.

Module RetirementPlanResponse.
Record t : Type := {
  retirement_age : Z;
  current_age : Z;
  years_until_retirement : Z;
  years_in_retirement : Z;
  monthly_income : Q;
  monthly_expenses : Q;
  current_savings : Q;
  monthly_contribution : Q;
  projected_savings : Q;
  required_savings : Q;
  savings_gap : Q;
  retirement_income : Q;
  retirement_expenses : Q;
  government_benefits : Q;
  savings_income : Q
}.
End RetirementPlanResponse.

Module RetirementWhatIfRequest.
Record t : Type := {
  current_age : Z;
  retirement_age : Z;
  life_expectancy : Z;
  current_savings : Q;
  monthly_contribution : Q;
  expected_return_rate : Q;
  inflation_rate : Q;
  desired_retirement_income : Q;
  include_cpp_oas : bool
}.
End RetirementWhatIfRequest.

(** One entry [{"year": y, "amount": a}] of [savings_by_year]. *)
Record YearAmount : Type := { year : Z; amount : Q }.

(** [{"savings_income": s, "government_benefits": g}]. *)
Record IncomeBreakdown : Type := {
  breakdown_savings_income : Q;
  breakdown_government_benefits : Q
}.

Module RetirementWhatIfResponse.
Record t : Type := {
  retirement_age : Z;
  total_savings_at_retirement : Q;
  monthly_retirement_income : Q;
  savings_gap : Q;
  monthly_contribution_needed : Q;
  years_until_retirement : Z;
  retirement_duration : Z;
  savings_by_year : list YearAmount;
  monthly_income_breakdown : IncomeBreakdown
}.
End RetirementWhatIfResponse.

(** ** [retirement_functions.py] *)

Module RetirementFunctions.

(** [future_value] and [calculate_future_savings] are each defined twice in
    the module, first on [Decimal] and at the end of the file on [float];
    the second definition is the one bound when the plan is calculated.
    Both read the same on exact numbers. *)
Definition future_value (current_amount real_growth_rate : Q) (years : Z)
  : Q :=
  if (years <=? 0)%Z then current_amount
  else current_amount * ((1 + real_growth_rate) ^ years).

Definition calculate_future_savings
    (current_savings annual_savings real_growth_rate : Q) (years : Z) : Q :=
  fold_left
    (fun projected _ => (projected * (1 + real_growth_rate)) + annual_savings)
    (Py.range years) current_savings.

Definition tax_brackets : list bracket :=
  [ (0, Some 55867, 0.15);
    (55867, Some 111733, 0.205);
    (111733, Some 173205, 0.26);
    (173205, Some 246752, 0.29);
    (246752, None, 0.33) ].

Definition calculate_after_tax_income (monthly_income : Q) : Q :=
  let annual_income := monthly_income * 12 in
  let tax_payable := tax_loop annual_income tax_brackets 0 in
  let after_tax_annual := annual_income - tax_payable in
  after_tax_annual / 12.

(** *** [calculate_current_retirement_plan] *)

Definition lifestyle_map : list (string * Q) :=
  [ ("frugal"%string, 0.6); ("moderate"%string, 0.7);
    ("comfortable"%string, 0.8); ("lavish"%string, 0.9) ].

(** [d.get(key, default)] on a dictionary written as a list of items. *)
Fixpoint dict_get (d : list (string * Q)) (key : string) (default : Q) : Q :=
  match d with
  | [] => default
  | (k, v) :: rest => if String.eqb k key then v else dict_get rest key default
  end.

(** The values read from the settings and from [user_data] before the
    search (lines 204-237). *)
Record PlanInputs : Type := {
  inflation_rate : Q;
  expected_return : Q;
  withdrawal_rate : Q;
  life_expectancy : Z;
  cpp_income : Q;
  oas_income : Q;
  monthly_income : Q;
  monthly_expenses : Q;
  after_tax_monthly_savings : Q;
  annual_savings : Q;
  current_cash : Q;
  current_investments : Q;
  current_age : Z;
  lifestyle_factor : Q
}.

Definition plan_inputs (settings : Settings) (user_data : UserData.t)
  : PlanInputs :=
  let default_lifestyle_factor := RETIREMENT_LIFESTYLE_FACTOR settings in
  let monthly_savings := UserData.monthly_savings user_data in
  let after_tax_monthly_savings := calculate_after_tax_income monthly_savings in
  let desired_lifestyle :=
    match UserData.desired_retirement_lifestyle user_data with
    | Some l => l
    | None => Some "moderate"%string
    end in
  {| inflation_rate := ANNUAL_INFLATION_RATE settings / 100;
     expected_return := EXPECTED_ANNUAL_INVESTMENT_RETURN settings / 100;
     withdrawal_rate := WITHDRAWAL_RATE settings;
     life_expectancy := LIFE_EXPECTANCY settings;
     cpp_income := RETIREMENT_INCOME_CPP settings;
     oas_income := RETIREMENT_INCOME_OAS settings;
     monthly_income := UserData.monthly_income user_data;
     monthly_expenses := UserData.monthly_expenses user_data;
     after_tax_monthly_savings := after_tax_monthly_savings;
     annual_savings := after_tax_monthly_savings * 12;
     current_cash := UserData.cash_holdings user_data;
     current_investments :=
       UserData.rrsp_savings user_data + UserData.tfsa_savings user_data
       + UserData.investment_holdings user_data;
     current_age := UserData.age user_data;
     lifestyle_factor :=
       match desired_lifestyle with
       | Some l => dict_get lifestyle_map l default_lifestyle_factor
       | None => default_lifestyle_factor
       end |}.

(** What one pass of the loop body computes for a candidate age
    (lines 249-268). *)
Record Candidate : Type := {
  total_projected_assets : Q;
  total_government_benefits : Q;
  required_savings : Q
}.

Definition evaluate_candidate (i : PlanInputs) (years_until_retirement : Z)
  : result Candidate :=
  let projected_cash :=
    future_value (current_cash i) (inflation_rate i) years_until_retirement in
  let projected_investments :=
    calculate_future_savings (current_investments i) (annual_savings i)
      (expected_return i) years_until_retirement in
  let total_projected_assets := projected_cash + projected_investments in
  let future_cpp_income :=
    future_value (cpp_income i) (inflation_rate i) years_until_retirement in
  let future_oas_income :=
    future_value (oas_income i) (inflation_rate i) years_until_retirement in
  let total_government_benefits := future_cpp_income + future_oas_income in
  growth <- dec_pow (1 + inflation_rate i) years_until_retirement ;;
  let annual_expenses_future := (monthly_expenses i * 12) * growth in
  let annual_retirement_income_needed :=
    annual_expenses_future * lifestyle_factor i in
  required_savings <-
    dec_div annual_retirement_income_needed (withdrawal_rate i) ;;
  Ok {| total_projected_assets := total_projected_assets;
        total_government_benefits := total_government_benefits;
        required_savings := required_savings |}.

(** The local variables of the search.  [years_until_retirement] and
    [total_government_benefits] are first assigned inside the loop body,
    so they are unbound ([None]) until a pass has run. *)
Record SearchState : Type := {
  st_retirement_age : Z;
  st_found_retirement_age : bool;
  st_feasible_projected_savings : Q;
  st_feasible_required_savings : Q;
  st_years_until_retirement : option Z;
  st_total_government_benefits : option Q
}.

(** [while retirement_age <= 90: ...] (lines 244-276).  Each pass that
    stays in the loop adds one to [retirement_age], so the loop makes at
    most [91 - current_age] passes; [passes_left] is that bound, and the
    loop test has become false when it reaches zero. *)
Fixpoint search (i : PlanInputs) (passes_left : nat) (st : SearchState)
  : result SearchState :=
  match passes_left with
  | O => Ok st
  | S passes_left' =>
      if (st_retirement_age st <=? 90)%Z then
        let years_until_retirement :=
          (st_retirement_age st - current_age i)%Z in
        if (years_until_retirement <? 0)%Z then
          Ok {| st_retirement_age := st_retirement_age st;
                st_found_retirement_age := st_found_retirement_age st;
                st_feasible_projected_savings := st_feasible_projected_savings st;
                st_feasible_required_savings := st_feasible_required_savings st;
                st_years_until_retirement := Some years_until_retirement;
                st_total_government_benefits := st_total_government_benefits st |}
        else
          c <- evaluate_candidate i years_until_retirement ;;
          if Py.ge (total_projected_assets c) (required_savings c) then
            Ok {| st_retirement_age := st_retirement_age st;
                  st_found_retirement_age := true;
                  st_feasible_projected_savings := total_projected_assets c;
                  st_feasible_required_savings := required_savings c;
                  st_years_until_retirement := Some years_until_retirement;
                  st_total_government_benefits :=
                    Some (total_government_benefits c) |}
          else
            search i passes_left'
              {| st_retirement_age := (st_retirement_age st + 1)%Z;
                 st_found_retirement_age := st_found_retirement_age st;
                 st_feasible_projected_savings :=
                   st_feasible_projected_savings st;
                 st_feasible_required_savings :=
                   st_feasible_required_savings st;
                 st_years_until_retirement := Some years_until_retirement;
                 st_total_government_benefits :=
                   Some (total_government_benefits c) |}
      else Ok st
  end.

Definition initial_state (i : PlanInputs) : SearchState :=
  {| st_retirement_age := current_age i;
     st_found_retirement_age := false;
     st_feasible_projected_savings := current_cash i + current_investments i;
     st_feasible_required_savings := 0;
     st_years_until_retirement := None;
     st_total_government_benefits := None |}.

Definition calculate_current_retirement_plan
    (settings : Settings) (user_data : UserData.t)
  : result RetirementPlanResponse.t :=
  let i := plan_inputs settings user_data in
  st <- search i (Z.to_nat (91 - current_age i)) (initial_state i) ;;
  let retirement_age :=
    if negb (st_found_retirement_age st) then 90%Z else st_retirement_age st in
  let years_until_retirement :=
    if negb (st_found_retirement_age st)
    then Some (retirement_age - current_age i)%Z
    else st_years_until_retirement st in
  let years_in_retirement := Z.max 0 (life_expectancy i - retirement_age) in
  annual_government_income <-
    read_local "total_government_benefits" (st_total_government_benefits st) ;;
  let annual_savings_income :=
    st_feasible_projected_savings st * withdrawal_rate i in
  let total_annual_retirement_income :=
    annual_government_income + annual_savings_income in
  let monthly_retirement_income := total_annual_retirement_income / 12 in
  let monthly_government_income := annual_government_income / 12 in
  let monthly_savings_income := annual_savings_income / 12 in
  years_until_retirement <-
    read_local "years_until_retirement" years_until_retirement ;;
  growth <- dec_pow (1 + inflation_rate i) years_until_retirement ;;
  Ok {| RetirementPlanResponse.retirement_age := retirement_age;
        RetirementPlanResponse.current_age := current_age i;
        RetirementPlanResponse.years_until_retirement := years_until_retirement;
        RetirementPlanResponse.years_in_retirement := years_in_retirement;
        RetirementPlanResponse.monthly_income := monthly_income i;
        RetirementPlanResponse.monthly_expenses := monthly_expenses i;
        RetirementPlanResponse.current_savings :=
          current_cash i + current_investments i;
        RetirementPlanResponse.monthly_contribution :=
          after_tax_monthly_savings i;
        RetirementPlanResponse.projected_savings :=
          st_feasible_projected_savings st;
        RetirementPlanResponse.required_savings :=
          st_feasible_required_savings st;
        RetirementPlanResponse.savings_gap :=
          Py.max 0 (st_feasible_required_savings st
                    - st_feasible_projected_savings st);
        RetirementPlanResponse.retirement_income := monthly_retirement_income;
        RetirementPlanResponse.retirement_expenses := monthly_expenses i * growth;
        RetirementPlanResponse.government_benefits := monthly_government_income;
        RetirementPlanResponse.savings_income := monthly_savings_income |}.

(** *** [calculate_retirement_what_if] (the function behind the what-if
    endpoint) *)

(** One pass of [for year in range(years_until_retirement)]
    (lines 432-441): record the balance, then grow it. *)
Definition project_year (current_year : Z) (real_return_rate annual_contribution : Q)
    (acc : Q * list YearAmount) (year : Z) : Q * list YearAmount :=
  let '(projected_savings, savings_by_year) := acc in
  let savings_by_year :=
    savings_by_year
      ++ [ {| year := (current_year + year)%Z; amount := projected_savings |} ] in
  let interest := projected_savings * real_return_rate in
  (projected_savings + interest + annual_contribution, savings_by_year).

(** Lines 393-398: a raw rate above one is read as a percentage. *)
Definition processed_rates (scenario : RetirementWhatIfRequest.t) : Q * Q :=
  let expected_return_rate_raw :=
    RetirementWhatIfRequest.expected_return_rate scenario in
  let inflation_rate_raw :=
    RetirementWhatIfRequest.inflation_rate scenario in
  let expected_return_rate :=
    if Py.gt expected_return_rate_raw 1
    then expected_return_rate_raw / 100 else expected_return_rate_raw in
  let inflation_rate :=
    if Py.gt inflation_rate_raw 1
    then inflation_rate_raw / 100 else inflation_rate_raw in
  (expected_return_rate, inflation_rate).

(** Lines 403-450: the real return rate and the year-by-year projection,
    whose last entry is the retirement year. *)
Record Projection : Type := {
  real_return_rate : Q;
  projected_savings : Q;
  savings_by_year : list YearAmount
}.

Definition project_savings (expected_return_rate inflation_rate : Q)
    (scenario : RetirementWhatIfRequest.t) : result Projection :=
  let years_until_retirement :=
    (RetirementWhatIfRequest.retirement_age scenario
     - RetirementWhatIfRequest.current_age scenario)%Z in
  let current_savings := RetirementWhatIfRequest.current_savings scenario in
  let monthly_contribution :=
    RetirementWhatIfRequest.monthly_contribution scenario in
  let annual_contribution := monthly_contribution * 12 in
  ratio <- dec_div (1 + expected_return_rate) (1 + inflation_rate) ;;
  let real_return_rate := ratio - 1 in
  let current_year := 2023%Z in
  let '(projected_savings, savings_by_year) :=
    fold_left (project_year current_year real_return_rate annual_contribution)
      (Py.range years_until_retirement) (current_savings, []) in
  let savings_by_year :=
    savings_by_year
      ++ [ {| year := (current_year + years_until_retirement)%Z;
              amount := projected_savings |} ] in
  Ok {| real_return_rate := real_return_rate;
        projected_savings := projected_savings;
        savings_by_year := savings_by_year |}.

(** Lines 456-471: monthly income from the savings at the fixed
    withdrawal rate, and the flat government benefits. *)
Definition withdrawal_rate_4pct : Q := 0.04.

Definition retirement_income (projected_savings : Q)
    (scenario : RetirementWhatIfRequest.t) : IncomeBreakdown :=
  let withdrawal_rate := withdrawal_rate_4pct in
  let savings_monthly_income := (projected_savings * withdrawal_rate) / 12 in
  let govt_monthly_income :=
    if RetirementWhatIfRequest.include_cpp_oas scenario then
      let cpp_monthly := 1200 in
      let oas_monthly := 615 in
      cpp_monthly + oas_monthly
    else 0 in
  {| breakdown_savings_income := savings_monthly_income;
     breakdown_government_benefits := govt_monthly_income |}.

(** Lines 403-523, with the two processed rates as arguments. *)
Definition what_if_with_rates (expected_return_rate inflation_rate : Q)
    (scenario : RetirementWhatIfRequest.t)
  : result RetirementWhatIfResponse.t :=
  let years_until_retirement :=
    (RetirementWhatIfRequest.retirement_age scenario
     - RetirementWhatIfRequest.current_age scenario)%Z in
  let retirement_duration :=
    (RetirementWhatIfRequest.life_expectancy scenario
     - RetirementWhatIfRequest.retirement_age scenario)%Z in
  let monthly_contribution :=
    RetirementWhatIfRequest.monthly_contribution scenario in
  p <- project_savings expected_return_rate inflation_rate scenario ;;
  let real_return_rate := real_return_rate p in
  let projected_savings := projected_savings p in
  let withdrawal_rate := withdrawal_rate_4pct in
  let income := retirement_income projected_savings scenario in
  let savings_monthly_income := breakdown_savings_income income in
  let govt_monthly_income := breakdown_government_benefits income in
  let total_monthly_income := savings_monthly_income + govt_monthly_income in
  let desired_monthly_income :=
    RetirementWhatIfRequest.desired_retirement_income scenario / 12 in
  let savings_gap := desired_monthly_income - total_monthly_income in
  monthly_contribution_needed <-
    (if Py.gt savings_gap 0 then
       if Py.gt real_return_rate 0 then
         factor <-
           dec_div (((1 + real_return_rate) ^ years_until_retirement) - 1)
             real_return_rate ;;
         let additional_savings_needed := savings_gap * 12 / withdrawal_rate in
         dec_div additional_savings_needed (12 * factor)
       else
         let additional_savings_needed := savings_gap * 12 / withdrawal_rate in
         dec_div additional_savings_needed
           (12 * inject_Z years_until_retirement)
     else Ok 0) ;;
  let total_monthly_needed := monthly_contribution + monthly_contribution_needed in
  Ok {| RetirementWhatIfResponse.retirement_age :=
          RetirementWhatIfRequest.retirement_age scenario;
        RetirementWhatIfResponse.total_savings_at_retirement := projected_savings;
        RetirementWhatIfResponse.monthly_retirement_income := total_monthly_income;
        RetirementWhatIfResponse.savings_gap := savings_gap;
        RetirementWhatIfResponse.monthly_contribution_needed :=
          total_monthly_needed;
        RetirementWhatIfResponse.years_until_retirement := years_until_retirement;
        RetirementWhatIfResponse.retirement_duration := retirement_duration;
        RetirementWhatIfResponse.savings_by_year := savings_by_year p;
        RetirementWhatIfResponse.monthly_income_breakdown := income |}.

(** The whole function: any exception of the body becomes
    [HTTPException(status_code=400)] (lines 528-534). *)
Definition calculate_retirement_what_if (scenario : RetirementWhatIfRequest.t)
  : result RetirementWhatIfResponse.t :=
  try_except
    (let '(expected_return_rate, inflation_rate) := processed_rates scenario in
     what_if_with_rates expected_return_rate inflation_rate scenario)
    (HTTPException 400).

(** *** [analyze_retirement_health]

    The two balances read from [profile_data]; [None] is a missing key or
    a [None] value.  The titles, targets and messages of the checklist are
    left out; the [except] branch is not reached on numbers. *)
Record HealthProfile : Type := {
  hp_rrsp_savings : option Q;
  hp_tfsa_savings : option Q
}.

(** [profile_data.get(field_key)]. *)
Definition health_get (profile_data : HealthProfile) (field_key : string)
  : option Q :=
  if String.eqb field_key "rrsp_savings" then hp_rrsp_savings profile_data
  else if String.eqb field_key "tfsa_savings" then hp_tfsa_savings profile_data
  else None.

(** The returned dictionary: [checklist] maps an item to its status;
    [total_retirement_savings] is present only in a complete analysis. *)
Record HealthAnalysis : Type := {
  ha_status : string;
  ha_missing_fields : list string;
  ha_checklist : list (string * string);
  ha_progress : Q;
  ha_total_retirement_savings : option Q
}.

Definition required_fields : list (string * string) :=
  [ ("rrsp_savings"%string, "RRSP balance"%string);
    ("tfsa_savings"%string, "TFSA balance"%string) ].

Definition analyze_retirement_health (profile_data : HealthProfile)
  : HealthAnalysis :=
  let missing_fields :=
    map snd
      (filter
         (fun field =>
            match health_get profile_data (fst field) with
            | None => true
            | Some _ => false
            end)
         required_fields) in
  match missing_fields with
  | _ :: _ =>
      {| ha_status := "incomplete";
         ha_missing_fields := missing_fields;
         ha_checklist := [];
         ha_progress := 0;
         ha_total_retirement_savings := None |}
  | [] =>
      let rrsp_savings := Py.or_zero (health_get profile_data "rrsp_savings") in
      let tfsa_savings := Py.or_zero (health_get profile_data "tfsa_savings") in
      let checklist :=
        [ ("rrsp_setup"%string,
           if Py.gt rrsp_savings 0 then "completed"%string
           else "pending"%string);
          ("tfsa_setup"%string,
           if Py.gt tfsa_savings 0 then "completed"%string
           else "pending"%string) ] in
      let completed_items :=
        List.length
          (filter (fun item => String.eqb (snd item) "completed") checklist) in
      let progress :=
        (inject_Z (Z.of_nat completed_items)
         / inject_Z (Z.of_nat (List.length checklist))) * 100 in
      {| ha_status := "complete";
         ha_missing_fields := [];
         ha_checklist := checklist;
         ha_progress := progress;
         ha_total_retirement_savings := Some (rrsp_savings + tfsa_savings) |}
  end.

End RetirementFunctions.

(** ** [utils_calculation_functions.py] *)

Module UtilsCalculationFunctions.

Definition tax_brackets : list bracket :=
  [ (0, Some 55867, 0.15);
    (55867, Some 111733, 0.205);
    (111733, Some 173205, 0.26);
    (173205, Some 246752, 0.29);
    (246752, None, 0.33) ].

Definition calculate_after_tax_income (monthly_income : Q) : Q :=
  let annual_income := monthly_income * 12 in
  let tax_payable := tax_loop annual_income tax_brackets 0 in
  let after_tax_annual := annual_income - tax_payable in
  after_tax_annual / 12.

(** *** [calculate_retirement_what_if], the second implementation.  It
    returns a dictionary with the keys of [RetirementWhatIfResponse] and
    has no [try].

    The divisor [(1 + expected_return_rate) ** years - 1] (line 362) is
    exact here.  In the code it is computed with 28 significant digits: for
    [0 < expected_return_rate < 10^-27] the sum can be [1], the divisor
    zero, and the division raises where this definition returns. *)

(** One pass of [for year in range(years_until_retirement + 1)]
    (lines 339-345). *)
Definition project_year (current_age : Z)
    (expected_return_rate monthly_contribution : Q)
    (acc : Q * list YearAmount) (year : Z) : Q * list YearAmount :=
  let '(projected_savings, savings_by_year) := acc in
  let savings_by_year :=
    savings_by_year
      ++ [ {| year := (current_age + year)%Z; amount := projected_savings |} ] in
  let annual_contribution := monthly_contribution * 12 in
  (projected_savings * (1 + expected_return_rate) + annual_contribution,
   savings_by_year).

Definition calculate_retirement_what_if (scenario : RetirementWhatIfRequest.t)
  : result RetirementWhatIfResponse.t :=
  let years_until_retirement :=
    (RetirementWhatIfRequest.retirement_age scenario
     - RetirementWhatIfRequest.current_age scenario)%Z in
  let retirement_duration :=
    (RetirementWhatIfRequest.life_expectancy scenario
     - RetirementWhatIfRequest.retirement_age scenario)%Z in
  let current_savings := RetirementWhatIfRequest.current_savings scenario in
  let monthly_contribution :=
    RetirementWhatIfRequest.monthly_contribution scenario in
  let expected_return_rate :=
    RetirementWhatIfRequest.expected_return_rate scenario in
  let inflation_rate := RetirementWhatIfRequest.inflation_rate scenario in
  let '(projected_savings, savings_by_year) :=
    fold_left
      (project_year (RetirementWhatIfRequest.current_age scenario)
         expected_return_rate monthly_contribution)
      (Py.range (years_until_retirement + 1)) (current_savings, []) in
  let total_savings_at_retirement := projected_savings in
  let cpp_oas_monthly := 0 in
  let safe_withdrawal_rate := 0.04 - inflation_rate in
  let monthly_savings_income :=
    (total_savings_at_retirement * safe_withdrawal_rate) / 12 in
  let total_monthly_income := monthly_savings_income + cpp_oas_monthly in
  let monthly_income_gap :=
    RetirementWhatIfRequest.desired_retirement_income scenario
    - total_monthly_income in
  additional_savings_needed <-
    dec_div (monthly_income_gap * 12) safe_withdrawal_rate ;;
  monthly_contribution_needed <-
    (if (years_until_retirement >? 0)%Z then
       if Py.gt expected_return_rate 0 then
         q <- dec_div additional_savings_needed
                ((1 + expected_return_rate) ^ years_until_retirement - 1) ;;
         Ok ((q * expected_return_rate) / 12)
       else
         dec_div additional_savings_needed
           (inject_Z (years_until_retirement * 12))
     else Ok 0) ;;
  Ok {| RetirementWhatIfResponse.retirement_age :=
          RetirementWhatIfRequest.retirement_age scenario;
        RetirementWhatIfResponse.total_savings_at_retirement :=
          total_savings_at_retirement;
        RetirementWhatIfResponse.monthly_retirement_income := total_monthly_income;
        RetirementWhatIfResponse.savings_gap := additional_savings_needed;
        RetirementWhatIfResponse.monthly_contribution_needed :=
          monthly_contribution + monthly_contribution_needed;
        RetirementWhatIfResponse.years_until_retirement := years_until_retirement;
        RetirementWhatIfResponse.retirement_duration := retirement_duration;
        RetirementWhatIfResponse.savings_by_year := savings_by_year;
        RetirementWhatIfResponse.monthly_income_breakdown :=
          {| breakdown_savings_income := monthly_savings_income;
             breakdown_government_benefits := cpp_oas_monthly |} |}.

(** *** [calculate_financial_metrics]

    The part of the function that computes the ratios and their status:
    every division of the function is here.  The guidance messages, the
    benchmark strings and the three investment metrics (a sum of
    products, a keyword test and a count of names) are left out; they
    contain no division and feed none of the ratios. *)

(** The keys of [profile_data] that the ratios read; [None] is a missing
    key or a [None] value. *)
Record ProfileData : Type := {
  pd_monthly_income : option Q;
  pd_monthly_expenses : option Q;
  pd_cash_balance : option Q;
  pd_investments : option Q;
  pd_debt : option Q;
  pd_age : option Z;
  pd_rrsp_savings : option Q;
  pd_tfsa_savings : option Q;
  pd_other_retirement_accounts : option Q
}.

Record Metrics : Type := {
  net_worth : Q;
  net_worth_status : string;
  monthly_cash_flow : option Q;
  debt_to_income_ratio : option Q;
  debt_status : string;
  emergency_fund_ratio : option Q;
  emergency_fund_status : string;
  savings_rate : option Q;
  savings_status : string;
  monthly_savings : option Q;
  retirement_savings_ratio : option Q;
  retirement_status : string;
  retirement_readiness_score : option Q;
  years_until_retirement : option Z
}.

(** Lines 445-478. *)
Definition assess_net_worth (annual_income : Q) (age : option Z)
    (net_worth_ratio : Q) : string :=
  match age with
  | Some age =>
      if Py.gt annual_income 0 then
        if (age <=? 35)%Z then
          if Py.lt net_worth_ratio 0.5 then "Below Target"
          else if Py.le net_worth_ratio 1.5 then "On Track"
          else "Above Target"
        else if (age <=? 50)%Z then
          if Py.lt net_worth_ratio 2 then "Below Target"
          else if Py.le net_worth_ratio 5 then "On Track"
          else "Above Target"
        else
          if Py.lt net_worth_ratio 6 then "Below Target"
          else if Py.le net_worth_ratio 10 then "On Track"
          else "Above Target"
      else "Not Available"
  | None => "Not Available"
  end%string.

(** Lines 491-503. *)
Definition assess_debt (debt_to_income_ratio : option Q) : string :=
  match debt_to_income_ratio with
  | Some r =>
      if Py.gt r 36 then "Below Target"
      else if Py.ge r 20 then "On Track"
      else "Above Target"
  | None => "Not Available"
  end%string.

(** Lines 512-524. *)
Definition assess_emergency_fund (emergency_fund_ratio : option Q) : string :=
  match emergency_fund_ratio with
  | Some r =>
      if Py.lt r 3 then "Below Target"
      else if Py.le r 6 then "On Track"
      else "Above Target"
  | None => "Not Available"
  end%string.

(** Lines 532-544. *)
Definition assess_savings (savings_rate : option Q) : string :=
  match savings_rate with
  | Some r =>
      if Py.lt r 10 then "Below Target"
      else if Py.lt r 20 then "On Track"
      else "Above Target"
  | None => "Not Available"
  end%string.

(** Lines 586-610.  The limit [target_ratio * 1.2] is exact here; the
    code's [float] product is [3.5999999999999996] for the target 3 and
    [7.199999999999999] for the target 6, so a ratio of exactly 3.6 or 7.2
    is "On Track" here and "Above Target" in the code. *)
Definition assess_retirement (retirement_savings_ratio : option Q)
    (age : option Z) : string :=
  match retirement_savings_ratio, age with
  | Some r, Some age =>
      let target_ratio :=
        if (age <? 30)%Z then 1
        else if (age <? 40)%Z then 3
        else if (age <? 50)%Z then 6
        else if (age <? 60)%Z then 8
        else 10 in
      if Py.lt r target_ratio then "Below Target"
      else if Py.le r (target_ratio * 1.2) then "On Track"
      else "Above Target"
  | _, _ => "Not Available"
  end%string.

(** [if age]: the age is present and not zero. *)
Definition age_truthy (age : option Z) : option Z :=
  match age with
  | Some a => if (a =? 0)%Z then None else Some a
  | None => None
  end.

Definition calculate_financial_metrics (profile_data : ProfileData)
  : result Metrics :=
  let monthly_income := Py.or_zero (pd_monthly_income profile_data) in
  let monthly_expenses := Py.or_zero (pd_monthly_expenses profile_data) in
  let cash_holdings := Py.or_zero (pd_cash_balance profile_data) in
  let investment_holdings_value := Py.or_zero (pd_investments profile_data) in
  let current_debt := Py.or_zero (pd_debt profile_data) in
  let age := pd_age profile_data in
  let rrsp_savings := Py.or_zero (pd_rrsp_savings profile_data) in
  let tfsa_savings := Py.or_zero (pd_tfsa_savings profile_data) in
  let other_retirement :=
    Py.or_zero (pd_other_retirement_accounts profile_data) in
  let annual_income :=
    if Py.truthy monthly_income then monthly_income * 12 else 0 in
  let total_assets :=
    cash_holdings + investment_holdings_value + rrsp_savings + tfsa_savings
    + other_retirement in
  let net_worth := total_assets - current_debt in
  net_worth_ratio <-
    (if Py.truthy annual_income then float_div net_worth annual_income
     else Ok 0) ;;
  let net_worth_status := assess_net_worth annual_income age net_worth_ratio in
  let monthly_cash_flow :=
    if Py.truthy monthly_income && Py.truthy monthly_expenses
    then Some (monthly_income - monthly_expenses) else None in
  monthly_debt_payment <-
    (if Py.gt current_debt 0
     then float_div (current_debt * 0.05 / 12)
            (1 - (1 + 0.05 / 12) ^ (-60))
     else Ok 0) ;;
  debt_to_income_ratio <-
    (if Py.truthy monthly_income then
       q <- float_div monthly_debt_payment monthly_income ;;
       Ok (Some (Py.round (q * 100) 1))
     else Ok None) ;;
  let debt_status := assess_debt debt_to_income_ratio in
  emergency_fund_ratio <-
    (if Py.truthy monthly_expenses then
       q <- float_div cash_holdings monthly_expenses ;;
       Ok (Some (Py.round q 1))
     else Ok None) ;;
  let ef_status := assess_emergency_fund emergency_fund_ratio in
  let monthly_savings :=
    if Py.truthy monthly_income && Py.truthy monthly_expenses
    then Some (monthly_income - monthly_expenses) else None in
  savings_rate <-
    match monthly_savings with
    | Some ms =>
        if Py.truthy ms && Py.truthy monthly_income then
          q <- float_div ms monthly_income ;;
          Ok (Some (Py.round (q * 100) 1))
        else Ok None
    | None => Ok None
    end ;;
  let savings_status := assess_savings savings_rate in
  let total_retirement_savings :=
    rrsp_savings + tfsa_savings + other_retirement in
  retirement_savings_ratio <-
    (if Py.truthy monthly_income then
       q <- float_div total_retirement_savings (monthly_income * 12) ;;
       Ok (Some (Py.round q 1))
     else Ok None) ;;
  let retirement_status := assess_retirement retirement_savings_ratio age in
  retirement_readiness_score <-
    match age_truthy age, retirement_savings_ratio with
    | Some age, Some r =>
        let target_ratio :=
          if (age <? 30)%Z then 1
          else if (age <? 40)%Z then 3
          else if (age <? 50)%Z then 6
          else 8 in
        q <- float_div r target_ratio ;;
        let ratio_score := Py.min q 1 * 10 in
        Ok (Some (Py.round ratio_score 1))
    | _, _ => Ok None
    end ;;
  let DEFAULT_RETIREMENT_AGE := 65%Z in
  let years_until_retirement :=
    match age_truthy age with
    | Some age => Some (DEFAULT_RETIREMENT_AGE - age)%Z
    | None => None
    end in
  Ok {| net_worth := Py.round net_worth 2;
        net_worth_status := net_worth_status;
        monthly_cash_flow := option_map (fun x => Py.round x 2) monthly_cash_flow;
        debt_to_income_ratio := debt_to_income_ratio;
        debt_status := debt_status;
        emergency_fund_ratio := emergency_fund_ratio;
        emergency_fund_status := ef_status;
        savings_rate := savings_rate;
        savings_status := savings_status;
        monthly_savings := option_map (fun x => Py.round x 2) monthly_savings;
        retirement_savings_ratio := retirement_savings_ratio;
        retirement_status := retirement_status;
        retirement_readiness_score := retirement_readiness_score;
        years_until_retirement := years_until_retirement |}.

(** *** The other calculators of the module *)

Definition future_value_dec (current_amount real_growth_rate : Q) (years : Z)
  : Q :=
  if (years <=? 0)%Z then current_amount
  else current_amount * (1 + real_growth_rate) ^ years.

Definition calculate_future_savings_dec
    (current_savings annual_savings real_growth_rate : Q) (years : Z) : Q :=
  fold_left
    (fun projected _ => (projected * (1 + real_growth_rate)) + annual_savings)
    (Py.range years) current_savings.

Definition calculate_future_savings_float
    (current_savings annual_savings real_growth_rate : Q) (years : Z) : Q :=
  fold_left
    (fun projected _ => projected * (1 + real_growth_rate) + annual_savings)
    (Py.range years) current_savings.

(** [calculate_success_probability]; the result is a percentage. *)
Definition risk_adjustments : list (string * Q) :=
  [ ("conservative"%string, 0.1); ("moderate"%string, 0);
    ("aggressive"%string, -0.1) ].

Fixpoint risk_get (d : list (string * Q)) (key : string) (default : Q) : Q :=
  match d with
  | [] => default
  | (k, v) :: rest => if String.eqb k key then v else risk_get rest key default
  end.

Definition calculate_success_probability
    (projected_savings monthly_income : Q) (risk_level : string)
    (years_to_retirement : Z) : Q :=
  let base_probability := 0.7 in
  let savings_factor := Py.min (projected_savings / 1000000) 1 * 0.2 in
  let time_factor := Py.min (inject_Z years_to_retirement / 30) 1 * 0.1 in
  let final_probability :=
    base_probability + risk_get risk_adjustments risk_level 0
    + savings_factor + time_factor in
  Py.min (Py.max final_probability 0) 1 * 100.

(** [calculate_retirement_age].  The loop
    [while projected_savings < target and years_to_retirement < 50] makes at
    most 50 passes; [passes_left] is that bound. *)
Fixpoint accumulate_until_target (annual_savings expected_return target : Q)
    (passes_left : nat) (projected_savings : Q) (years_to_retirement : Z)
  : Q * Z :=
  match passes_left with
  | O => (projected_savings, years_to_retirement)
  | S passes_left' =>
      if Py.lt projected_savings target && (years_to_retirement <? 50)%Z then
        accumulate_until_target annual_savings expected_return target
          passes_left'
          (projected_savings * (1 + expected_return) + annual_savings)
          (years_to_retirement + 1)%Z
      else (projected_savings, years_to_retirement)
  end.

Definition calculate_retirement_age (current_age : Z)
    (current_savings monthly_income monthly_expenses expected_return : Q) : Z :=
  let annual_savings := (monthly_income - monthly_expenses) * 12 in
  let target_retirement_savings := monthly_expenses * 12 * 25 in
  let '(projected_savings, years_to_retirement) :=
    accumulate_until_target annual_savings expected_return
      target_retirement_savings 50 current_savings 0 in
  let retirement_age := (current_age + years_to_retirement)%Z in
  Z.min retirement_age 90.

(** [calculate_retirement_income]; the returned dictionary. *)
Record RetirementIncome : Type := {
  ri_projected_savings : Q;
  ri_monthly_income : Q;
  ri_required_savings : Q;
  ri_savings_gap : Q
}.

Definition calculate_retirement_income
    (current_savings monthly_contribution : Q) (years_until_retirement : Z)
    (expected_return : Q) : RetirementIncome :=
  let annual_contribution := monthly_contribution * 12 in
  let projected_savings :=
    fold_left
      (fun projected_savings _ =>
         projected_savings * (1 + expected_return) + annual_contribution)
      (Py.range years_until_retirement) current_savings in
  let monthly_income := (projected_savings * 0.04) / 12 in
  let target_monthly_income := monthly_contribution * 2 in
  let required_savings := target_monthly_income * 12 * 25 in
  {| ri_projected_savings := projected_savings;
     ri_monthly_income := monthly_income;
     ri_required_savings := required_savings;
     ri_savings_gap := Py.max 0 (required_savings - projected_savings) |}.

(** *** The diversity score of [calculate_financial_metrics]
    (lines 565-574)

    A holding as read by these lines: [holding_name] is the empty string
    when the key is missing.  [lower] stands for [str.lower]. *)
Record Holding : Type := {
  holding_name : string
}.

(** [len(set(...))] of the lowered names. *)
Definition unique_holdings (lower : string -> string)
    (investment_holdings : list Holding) : Z :=
  Z.of_nat
    (List.length
       (nodup string_dec
          (map (fun holding => lower (holding_name holding))
             investment_holdings))).

Definition investment_diversity_score (lower : string -> string)
    (investment_holdings : list Holding) : option Z :=
  match investment_holdings with
  | [] => None
  | _ :: _ =>
      let unique_holdings := unique_holdings lower investment_holdings in
      if (unique_holdings >=? 10)%Z then Some 10%Z
      else if (unique_holdings >? 0)%Z then Some (Z.min unique_holdings 10)
      else None
  end.

End UtilsCalculationFunctions.

(** ** [retirement_routes.py]: the plan endpoint *)

Module RetirementRoutes.

(** The keys of [profile_data] read at lines 268-285; [None] is a missing
    key, read with its default.  A key holding [None] is not modelled. *)
Record ProfileData : Type := {
  pd_age : option Z;
  pd_monthly_income : option Q;
  pd_monthly_expenses : option Q;
  pd_cash_balance : option Q;
  pd_investments : option Q;
  pd_rrsp_savings : option Q;
  pd_tfsa_savings : option Q;
  pd_desired_retirement_lifestyle : option string
}.




End RetirementRoutes.

(** ** Vocabulary of the properties *)

(** Settings under which the plan calculation meets no [0 ** 0] and no
    division by zero: inflation is not -100 %, the withdrawal rate is not
    zero.  The defaults satisfy it. *)
Definition sane_settings (settings : Settings) : Prop :=
  ~ 1 + ANNUAL_INFLATION_RATE settings / 100 == 0
  /\ ~ WITHDRAWAL_RATE settings == 0.

(** The scenarios on which the second what-if implementation and its
    embedding agree about the divisor [(1 + rate) ** years - 1]: the
    division is not reached (no year to go, or a rate that is not
    positive), or the rate is at least [10^-27], so that the 28 digits of
    [Decimal] keep [1 + rate] above [1]. *)
Definition return_rate_not_absorbed (scenario : RetirementWhatIfRequest.t)
  : Prop :=
  (RetirementWhatIfRequest.retirement_age scenario
   - RetirementWhatIfRequest.current_age scenario <= 0)%Z
  \/ RetirementWhatIfRequest.expected_return_rate scenario <= 0
  \/ 1 / 10 ^ 27 <= RetirementWhatIfRequest.expected_return_rate scenario.

(** The test of line 270 at a candidate age. *)
Definition feasible (i : RetirementFunctions.PlanInputs) (candidate_age : Z)
  : bool :=
  match RetirementFunctions.evaluate_candidate i
          (candidate_age - RetirementFunctions.current_age i) with
  | Ok c =>
      Py.ge (RetirementFunctions.total_projected_assets c)
        (RetirementFunctions.required_savings c)
  | Raise _ => false
  end.


(** The same scenario with another raw rate. *)
Definition with_expected_return_rate (r : Q) (sc : RetirementWhatIfRequest.t)
  : RetirementWhatIfRequest.t :=
  {| RetirementWhatIfRequest.current_age := RetirementWhatIfRequest.current_age sc;
     RetirementWhatIfRequest.retirement_age :=
       RetirementWhatIfRequest.retirement_age sc;
     RetirementWhatIfRequest.life_expectancy :=
       RetirementWhatIfRequest.life_expectancy sc;
     RetirementWhatIfRequest.current_savings :=
       RetirementWhatIfRequest.current_savings sc;
     RetirementWhatIfRequest.monthly_contribution :=
       RetirementWhatIfRequest.monthly_contribution sc;
     RetirementWhatIfRequest.expected_return_rate := r;
     RetirementWhatIfRequest.inflation_rate :=
       RetirementWhatIfRequest.inflation_rate sc;
     RetirementWhatIfRequest.desired_retirement_income :=
       RetirementWhatIfRequest.desired_retirement_income sc;
     RetirementWhatIfRequest.include_cpp_oas :=
       RetirementWhatIfRequest.include_cpp_oas sc |}.

Definition with_inflation_rate (r : Q) (sc : RetirementWhatIfRequest.t)
  : RetirementWhatIfRequest.t :=
  {| RetirementWhatIfRequest.current_age := RetirementWhatIfRequest.current_age sc;
     RetirementWhatIfRequest.retirement_age :=
       RetirementWhatIfRequest.retirement_age sc;
     RetirementWhatIfRequest.life_expectancy :=
       RetirementWhatIfRequest.life_expectancy sc;
     RetirementWhatIfRequest.current_savings :=
       RetirementWhatIfRequest.current_savings sc;
     RetirementWhatIfRequest.monthly_contribution :=
       RetirementWhatIfRequest.monthly_contribution sc;
     RetirementWhatIfRequest.expected_return_rate :=
       RetirementWhatIfRequest.expected_return_rate sc;
     RetirementWhatIfRequest.inflation_rate := r;
     RetirementWhatIfRequest.desired_retirement_income :=
       RetirementWhatIfRequest.desired_retirement_income sc;
     RetirementWhatIfRequest.include_cpp_oas :=
       RetirementWhatIfRequest.include_cpp_oas sc |}.

(** After-tax annual income, bracket by bracket. *)
Definition after_tax_annual (a : Q) : Q :=
  a - tax_loop a RetirementFunctions.tax_brackets 0.

(** The same profile with another desired lifestyle. *)
Definition with_lifestyle (l : option (option string)) (u : UserData.t)
  : UserData.t :=
  {| UserData.age := UserData.age u;
     UserData.monthly_income := UserData.monthly_income u;
     UserData.monthly_expenses := UserData.monthly_expenses u;
     UserData.monthly_savings := UserData.monthly_savings u;
     UserData.cash_holdings := UserData.cash_holdings u;
     UserData.investment_holdings := UserData.investment_holdings u;
     UserData.rrsp_savings := UserData.rrsp_savings u;
     UserData.tfsa_savings := UserData.tfsa_savings u;
     UserData.desired_retirement_lifestyle := l |}.

(** The same profile with other holdings. *)
Definition with_assets (cash investments rrsp tfsa : Q) (u : UserData.t)
  : UserData.t :=
  {| UserData.age := UserData.age u;
     UserData.monthly_income := UserData.monthly_income u;
     UserData.monthly_expenses := UserData.monthly_expenses u;
     UserData.monthly_savings := UserData.monthly_savings u;
     UserData.cash_holdings := cash;
     UserData.investment_holdings := investments;
     UserData.rrsp_savings := rrsp;
     UserData.tfsa_savings := tfsa;
     UserData.desired_retirement_lifestyle :=
       UserData.desired_retirement_lifestyle u |}.

(** ** Example inputs *)

(** The profile of the end-to-end example of the specification: age 30,
    income 6000, expenses 4000, cash 10000, investments 20000, RRSP 5000,
    TFSA 5000, moderate lifestyle; it saves 2000 a month. *)
Definition example_profile : UserData.t :=
  {| UserData.age := 30;
     UserData.monthly_income := 6000;
     UserData.monthly_expenses := 4000;
     UserData.monthly_savings := 2000;
     UserData.cash_holdings := 10000;
     UserData.investment_holdings := 20000;
     UserData.rrsp_savings := 5000;
     UserData.tfsa_savings := 5000;
     UserData.desired_retirement_lifestyle := Some (Some "moderate"%string) |}.

(** A profile that spends what it earns and owns nothing. *)
Definition profile_without_savings (age : Z) : UserData.t :=
  {| UserData.age := age;
     UserData.monthly_income := 4000;
     UserData.monthly_expenses := 4000;
     UserData.monthly_savings := 0;
     UserData.cash_holdings := 0;
     UserData.investment_holdings := 0;
     UserData.rrsp_savings := 0;
     UserData.tfsa_savings := 0;
     UserData.desired_retirement_lifestyle := None |}.

(** The what-if example of the specification: from age 40 to 65 with
    100000 saved, 500 a month, 6 % return, 2 % inflation, 60000 a year
    desired, no government benefits. *)
Definition example_scenario : RetirementWhatIfRequest.t :=
  {| RetirementWhatIfRequest.current_age := 40;
     RetirementWhatIfRequest.retirement_age := 65;
     RetirementWhatIfRequest.life_expectancy := 90;
     RetirementWhatIfRequest.current_savings := 100000;
     RetirementWhatIfRequest.monthly_contribution := 500;
     RetirementWhatIfRequest.expected_return_rate := 0.06;
     RetirementWhatIfRequest.inflation_rate := 0.02;
     RetirementWhatIfRequest.desired_retirement_income := 60000;
     RetirementWhatIfRequest.include_cpp_oas := false |}.

(** The same person retiring at once at 65, and with the given savings. *)
Definition scenario_retiring_now (savings : Q) : RetirementWhatIfRequest.t :=
  {| RetirementWhatIfRequest.current_age := 65;
     RetirementWhatIfRequest.retirement_age := 65;
     RetirementWhatIfRequest.life_expectancy := 90;
     RetirementWhatIfRequest.current_savings := savings;
     RetirementWhatIfRequest.monthly_contribution := 500;
     RetirementWhatIfRequest.expected_return_rate := 0.06;
     RetirementWhatIfRequest.inflation_rate := 0.02;
     RetirementWhatIfRequest.desired_retirement_income := 60000;
     RetirementWhatIfRequest.include_cpp_oas := false |}.

(** One year before retirement with three million saved. *)
Definition scenario_with_surplus : RetirementWhatIfRequest.t :=
  {| RetirementWhatIfRequest.current_age := 64;
     RetirementWhatIfRequest.retirement_age := 65;
     RetirementWhatIfRequest.life_expectancy := 90;
     RetirementWhatIfRequest.current_savings := 3000000;
     RetirementWhatIfRequest.monthly_contribution := 500;
     RetirementWhatIfRequest.expected_return_rate := 0.06;
     RetirementWhatIfRequest.inflation_rate := 0.02;
     RetirementWhatIfRequest.desired_retirement_income := 60000;
     RetirementWhatIfRequest.include_cpp_oas := true |}.

(** A profile with an income and no expenses, as read by the metrics. *)
Definition profile_without_expenses : UtilsCalculationFunctions.ProfileData :=
  {| UtilsCalculationFunctions.pd_monthly_income := Some 6000;
     UtilsCalculationFunctions.pd_monthly_expenses := Some 0;
     UtilsCalculationFunctions.pd_cash_balance := Some 10000;
     UtilsCalculationFunctions.pd_investments := Some 20000;
     UtilsCalculationFunctions.pd_debt := Some 5000;
     UtilsCalculationFunctions.pd_age := Some 30%Z;
     UtilsCalculationFunctions.pd_rrsp_savings := Some 5000;
     UtilsCalculationFunctions.pd_tfsa_savings := None;
     UtilsCalculationFunctions.pd_other_retirement_accounts := None |}.


(** The ages [lo], [lo + 1], ..., [lo + n - 1]. *)
Definition ages_from (lo : Z) (n : nat) : list Z :=
  map (fun k => (lo + Z.of_nat k)%Z) (seq 0 n).

(** A profile for the financial metrics, with its whole retirement
    balance in the RRSP. *)
Definition metrics_profile (age : Z) (income expenses retirement : Q)
  : UtilsCalculationFunctions.ProfileData :=
  {| UtilsCalculationFunctions.pd_monthly_income := Some income;
     UtilsCalculationFunctions.pd_monthly_expenses := Some expenses;
     UtilsCalculationFunctions.pd_cash_balance := Some 10000;
     UtilsCalculationFunctions.pd_investments := Some 20000;
     UtilsCalculationFunctions.pd_debt := Some 5000;
     UtilsCalculationFunctions.pd_age := Some age;
     UtilsCalculationFunctions.pd_rrsp_savings := Some retirement;
     UtilsCalculationFunctions.pd_tfsa_savings := None;
     UtilsCalculationFunctions.pd_other_retirement_accounts := None |}.

(** * Properties *)

(** ** Runtime lemmas *)

Lemma dec_div_ok (a b : Q) : ~ b == 0 -> dec_div a b = Ok (a / b).
Proof.
  intros Hb. unfold dec_div. destruct (Qeq_dec b 0); [contradiction | reflexivity].
Qed.

Lemma dec_div_by_zero (a b : Q) :
  b == 0 -> ~ a == 0 -> dec_div a b = Raise DivisionByZero.
Proof.
  intros Hb Ha. unfold dec_div.
  destruct (Qeq_dec b 0); [| contradiction].
  destruct (Qeq_dec a 0); [contradiction | reflexivity].
Qed.

Lemma dec_pow_ok (a : Q) (n : Z) : ~ a == 0 -> dec_pow a n = Ok (a ^ n).
Proof.
  intros Ha. unfold dec_pow. destruct (Qeq_dec a 0); [contradiction | reflexivity].
Qed.

Lemma float_div_ok (a b : Q) : ~ b == 0 -> float_div a b = Ok (a / b).
Proof.
  intros Hb. unfold float_div.
  destruct (Qeq_dec b 0); [contradiction | reflexivity].
Qed.

Lemma ge_true_iff (a b : Q) : Py.ge a b = true <-> b <= a.
Proof.
  unfold Py.ge. destruct (Qlt_le_dec a b); split; intros; try discriminate;
    try reflexivity; try assumption. lra.
Qed.

Lemma ge_false_iff (a b : Q) : Py.ge a b = false <-> a < b.
Proof.
  unfold Py.ge. destruct (Qlt_le_dec a b); split; intros; try discriminate;
    try reflexivity; try assumption. lra.
Qed.

Lemma gt_true_iff (a b : Q) : Py.gt a b = true <-> b < a.
Proof.
  unfold Py.gt. destruct (Qlt_le_dec b a); split; intros; try discriminate;
    try reflexivity; try assumption. lra.
Qed.

Lemma gt_false_iff (a b : Q) : Py.gt a b = false <-> a <= b.
Proof.
  unfold Py.gt. destruct (Qlt_le_dec b a); split; intros; try discriminate;
    try reflexivity; try assumption. lra.
Qed.

Lemma max_zero_nonneg (x : Q) : 0 <= Py.max 0 x.
Proof. unfold Py.max. destruct (Qlt_le_dec 0 x); lra. Qed.

Lemma max_zero_of_nonpos (x : Q) : x <= 0 -> Py.max 0 x == 0.
Proof. intros H. unfold Py.max. destruct (Qlt_le_dec 0 x); lra. Qed.

Lemma Qdiv_le_compat_r (a b c : Q) : 0 < c -> a <= b -> a / c <= b / c.
Proof.
  intros Hc Hab. unfold Qdiv. apply Qmult_le_compat_r; [exact Hab |].
  apply Qlt_le_weak, Qinv_lt_0_compat, Hc.
Qed.

Lemma range_length (n : Z) : List.length (Py.range n) = Z.to_nat n.
Proof. unfold Py.range. rewrite List.length_map, List.length_seq. reflexivity. Qed.

(** ** The tax model *)

Section TaxModel.






End TaxModel.

(** ** The feasibility search of [calculate_current_retirement_plan] *)

Module PlanProperties.

Import RetirementFunctions.

Section Search.

Variable i : PlanInputs.
Hypothesis inflation_ok : ~ 1 + inflation_rate i == 0.
Hypothesis withdrawal_ok : ~ withdrawal_rate i == 0.

(** With sane settings a pass of the loop body never raises. *)
Lemma evaluate_candidate_eq (y : Z) :
  evaluate_candidate i y =
  Ok {| total_projected_assets :=
          future_value (current_cash i) (inflation_rate i) y
          + calculate_future_savings (current_investments i)
              (annual_savings i) (expected_return i) y;
        total_government_benefits :=
          future_value (cpp_income i) (inflation_rate i) y
          + future_value (oas_income i) (inflation_rate i) y;
        required_savings :=
          (monthly_expenses i * 12) * (1 + inflation_rate i) ^ y
          * lifestyle_factor i / withdrawal_rate i |}.
Proof.
  unfold evaluate_candidate.
  rewrite (dec_pow_ok _ _ inflation_ok). cbn [Py.bind].
  rewrite (dec_div_ok _ _ withdrawal_ok). reflexivity.
Qed.

Lemma evaluate_candidate_ok (y : Z) : exists c, evaluate_candidate i y = Ok c.
Proof. rewrite evaluate_candidate_eq. eexists. reflexivity. Qed.

(** The three ways the loop can end: it never ran, it ran through all
    the ages up to 90 without a feasible one, or it stopped at the first
    feasible age.  The bound on the passes is not larger than the number of
    ages left, so a pass that starts finds the loop test true. *)
Lemma search_cases (n : nat) :
  forall st : SearchState,
    (current_age i <= st_retirement_age st)%Z ->
    (st_retirement_age st + Z.of_nat n <= 91)%Z ->
    exists st', search i n st = Ok st' /\
      ((n = O /\ st' = st)
       \/ ((0 < n)%nat
           /\ (forall a, (st_retirement_age st <= a
                          < st_retirement_age st + Z.of_nat n)%Z ->
                         feasible i a = false)
           /\ exists c,
               evaluate_candidate i
                 (st_retirement_age st + Z.of_nat n - 1 - current_age i)
                 = Ok c
               /\ st' =
                  {| st_retirement_age :=
                       (st_retirement_age st + Z.of_nat n)%Z;
                     st_found_retirement_age := st_found_retirement_age st;
                     st_feasible_projected_savings :=
                       st_feasible_projected_savings st;
                     st_feasible_required_savings :=
                       st_feasible_required_savings st;
                     st_years_until_retirement :=
                       Some (st_retirement_age st + Z.of_nat n - 1
                             - current_age i)%Z;
                     st_total_government_benefits :=
                       Some (total_government_benefits c) |})
       \/ (exists a c,
             (st_retirement_age st <= a
              < st_retirement_age st + Z.of_nat n)%Z
             /\ (forall b, (st_retirement_age st <= b < a)%Z ->
                           feasible i b = false)
             /\ evaluate_candidate i (a - current_age i) = Ok c
             /\ required_savings c <= total_projected_assets c
             /\ st' =
                {| st_retirement_age := a;
                   st_found_retirement_age := true;
                   st_feasible_projected_savings := total_projected_assets c;
                   st_feasible_required_savings := required_savings c;
                   st_years_until_retirement := Some (a - current_age i)%Z;
                   st_total_government_benefits :=
                     Some (total_government_benefits c) |})).
Proof.
  induction n as [|n IH]; intros st Hage Hbound.
  - exists st. split; [reflexivity | left; split; reflexivity].
  - cbn [search].
    assert (Htest : ((st_retirement_age st <=? 90) = true)%Z)
      by (apply Z.leb_le; lia).
    rewrite Htest.
    assert (Hy : ((st_retirement_age st - current_age i <? 0) = false)%Z)
      by (apply Z.ltb_ge; lia).
    rewrite Hy.
    destruct (evaluate_candidate_ok (st_retirement_age st - current_age i))
      as [c Hc].
    rewrite Hc. cbn [Py.bind].
    assert (Hhere : feasible i (st_retirement_age st)
                    = Py.ge (total_projected_assets c) (required_savings c))
      by (unfold feasible; rewrite Hc; reflexivity).
    destruct (Py.ge (total_projected_assets c) (required_savings c)) eqn:Hge.
    + eexists. split; [reflexivity |].
      right; right. exists (st_retirement_age st), c.
      repeat split; try lia; try assumption.
      apply ge_true_iff, Hge.
    + match goal with
      | |- context [search i n ?s] => destruct (IH s) as [st' [Hs Hcases]]
      end; [cbn; lia | cbn; lia |].
      cbn [st_retirement_age st_found_retirement_age
           st_feasible_projected_savings st_feasible_required_savings]
        in Hcases.
      exists st'. split; [exact Hs |].
      destruct Hcases as [[Hn Hst] | [[Hn [Hall [c' [Hc' Hst]]]]
                                      | [a [c' [Ha [Hmin [Hc' [Hle Hst]]]]]]]].
      * right; left. subst n. split; [lia |]. split.
        { intros a Ha. replace a with (st_retirement_age st) by lia.
          exact Hhere. }
        exists c. split.
        { rewrite <- Hc. f_equal. lia. }
        rewrite Hst. f_equal. f_equal. lia.
      * right; left. split; [lia |]. split.
        { intros a Ha.
          destruct (Z.eq_dec a (st_retirement_age st)) as [-> | Hne];
            [exact Hhere | apply Hall; lia]. }
        exists c'. split.
        { rewrite <- Hc'. f_equal. lia. }
        rewrite Hst. f_equal; try lia. f_equal. lia.
      * right; right. exists a, c'. split; [lia |]. split.
        { intros b Hb.
          destruct (Z.eq_dec b (st_retirement_age st)) as [-> | Hne];
            [exact Hhere | apply Hmin; lia]. }
        repeat split; assumption.
Qed.

End Search.

(** What [calculate_current_retirement_plan] does, by the way its loop
    ended. *)
Lemma plan_cases (s : Settings) (u : UserData.t) :
  sane_settings s ->
  let i := plan_inputs s u in
  ((90 < UserData.age u)%Z
   /\ calculate_current_retirement_plan s u
      = Raise (UnboundLocalError "total_government_benefits"))
  \/ ((UserData.age u <= 90)%Z
      /\ (forall a, (UserData.age u <= a <= 90)%Z -> feasible i a = false)
      /\ exists r,
          calculate_current_retirement_plan s u = Ok r
          /\ RetirementPlanResponse.retirement_age r = 90%Z
          /\ RetirementPlanResponse.projected_savings r
             = current_cash i + current_investments i
          /\ RetirementPlanResponse.required_savings r = 0
          /\ RetirementPlanResponse.savings_gap r
             = Py.max 0 (0 - (current_cash i + current_investments i)))
  \/ (exists a c r,
        (UserData.age u <= a <= 90)%Z
        /\ (forall b, (UserData.age u <= b < a)%Z -> feasible i b = false)
        /\ evaluate_candidate i (a - UserData.age u) = Ok c
        /\ required_savings c <= total_projected_assets c
        /\ calculate_current_retirement_plan s u = Ok r
        /\ RetirementPlanResponse.retirement_age r = a
        /\ RetirementPlanResponse.projected_savings r = total_projected_assets c
        /\ RetirementPlanResponse.required_savings r = required_savings c
        /\ RetirementPlanResponse.savings_gap r
           = Py.max 0 (required_savings c - total_projected_assets c)).
Proof.
  intros [Hinf Hwd] i.
  assert (Hinf' : ~ 1 + inflation_rate i == 0) by exact Hinf.
  assert (Hwd' : ~ withdrawal_rate i == 0) by exact Hwd.
  assert (Hcur : current_age i = UserData.age u) by reflexivity.
  destruct (Z_le_gt_dec (UserData.age u) 90) as [Hyoung | Hold].
  2: { left. split; [lia |].
       unfold calculate_current_retirement_plan. fold i. rewrite Hcur.
       replace (Z.to_nat (91 - UserData.age u)) with O by lia.
       reflexivity. }
  destruct (search_cases i Hinf' Hwd' (Z.to_nat (91 - current_age i))
              (initial_state i)) as [st' [Hs Hcases]];
    [ cbn; lia
    | unfold initial_state; cbn [st_retirement_age]; rewrite Hcur; lia |].
  unfold calculate_current_retirement_plan. fold i. rewrite Hs.
  cbn [Py.bind].
  change (st_retirement_age (initial_state i)) with (current_age i) in Hcases.
  change (st_found_retirement_age (initial_state i)) with false in Hcases.
  change (st_feasible_projected_savings (initial_state i))
    with (current_cash i + current_investments i) in Hcases.
  change (st_feasible_required_savings (initial_state i)) with 0 in Hcases.
  rewrite Hcur in Hcases.
  destruct Hcases as [[Hn Hst] | [[Hn [Hall [c [Hc Hst]]]]
                                  | [a [c [Ha [Hmin [Hc [Hle Hst]]]]]]]].
  - left. split; [lia |]. subst st'. reflexivity.
  - right; left. split; [lia |]. split; [intros a Ha; apply Hall; lia |].
    subst st'.
    cbn [st_found_retirement_age st_total_government_benefits
         st_years_until_retirement st_feasible_projected_savings
         st_feasible_required_savings st_retirement_age negb
         Py.read_local Py.bind].
    rewrite (dec_pow_ok _ _ Hinf'). cbn [Py.bind].
    eexists. split; [reflexivity |].
    cbn. repeat split; reflexivity.
  - right; right. exists a, c. subst st'.
    cbn [st_found_retirement_age st_total_government_benefits
         st_years_until_retirement st_feasible_projected_savings
         st_feasible_required_savings st_retirement_age negb
         Py.read_local Py.bind].
    rewrite (dec_pow_ok _ _ Hinf'). cbn [Py.bind].
    eexists. split; [lia |]. split; [exact Hmin |]. split; [exact Hc |].
    split; [exact Hle |]. split; [reflexivity |].
    cbn. repeat split; reflexivity.
Qed.

Lemma default_settings_sane : sane_settings default_settings.
Proof. split; intros H; discriminate H. Qed.

Lemma infeasible_on_ages (i : PlanInputs) (lo : Z) (n : nat) :
  forallb (fun a => negb (feasible i a)) (ages_from lo n) = true ->
  forall a, (lo <= a < lo + Z.of_nat n)%Z -> feasible i a = false.
Proof.
  intros Hall a Ha. unfold ages_from in Hall.
  rewrite forallb_forall in Hall.
  apply negb_true_iff, Hall, in_map_iff.
  exists (Z.to_nat (a - lo)). split; [lia |].
  apply in_seq. lia.
Qed.

(** C4.  When some candidate age from the current age to 90 is feasible,
    the plan returns the smallest feasible age, and its projected and
    required savings are the ones computed by the loop body at that age. *)
Theorem plan_returns_earliest_feasible_age (s : Settings) (u : UserData.t) :
  sane_settings s ->
  (exists a0, (UserData.age u <= a0 <= 90)%Z
              /\ feasible (plan_inputs s u) a0 = true) ->
  exists a c r,
    calculate_current_retirement_plan s u = Ok r
    /\ (UserData.age u <= a <= 90)%Z
    /\ feasible (plan_inputs s u) a = true
    /\ (forall b, (UserData.age u <= b < a)%Z ->
                  feasible (plan_inputs s u) b = false)
    /\ RetirementPlanResponse.retirement_age r = a
    /\ evaluate_candidate (plan_inputs s u) (a - UserData.age u) = Ok c
    /\ RetirementPlanResponse.projected_savings r = total_projected_assets c
    /\ RetirementPlanResponse.required_savings r = required_savings c.
Proof.
  intros Hsane [a0 [Ha0 Hf0]].
  destruct (plan_cases s u Hsane)
    as [[Hold _] | [[_ [Hall _]] | [a [c [r H]]]]].
  - lia.
  - rewrite (Hall a0 Ha0) in Hf0. discriminate Hf0.
  - destruct H as [Ha [Hmin [Hc [Hle [Hr [Hage [Hp [Hq _]]]]]]]].
    exists a, c, r. repeat split; try assumption; try lia.
    unfold feasible.
    change (current_age (plan_inputs s u)) with (UserData.age u).
    rewrite Hc. apply ge_true_iff, Hle.
Qed.

Lemma plan_returns_earliest_feasible_age_witness :
  exists a c r,
    calculate_current_retirement_plan default_settings example_profile = Ok r
    /\ (30 <= a <= 90)%Z
    /\ feasible (plan_inputs default_settings example_profile) a = true
    /\ (forall b, (30 <= b < a)%Z ->
                  feasible (plan_inputs default_settings example_profile) b
                  = false)
    /\ RetirementPlanResponse.retirement_age r = a
    /\ evaluate_candidate (plan_inputs default_settings example_profile)
         (a - 30) = Ok c
    /\ RetirementPlanResponse.projected_savings r = total_projected_assets c
    /\ RetirementPlanResponse.required_savings r = required_savings c.
Proof.
  apply (plan_returns_earliest_feasible_age default_settings example_profile).
  - split; intros H; discriminate H.
  - exists 59%Z. split; [simpl; lia | vm_compute; reflexivity].
Defined.

(** C1.  The code at a profile with no feasible age up to 90: the plan
    returns age 90, but with [required_savings] and [savings_gap] zero,
    although the shortfall computed at age 90 is positive. *)
Theorem plan_without_feasible_age_reports_no_gap
    (s : Settings) (u : UserData.t) :
  sane_settings s ->
  (UserData.age u <= 90)%Z ->
  0 <= UserData.cash_holdings u
       + (UserData.rrsp_savings u + UserData.tfsa_savings u
          + UserData.investment_holdings u) ->
  (forall a, (UserData.age u <= a <= 90)%Z ->
             feasible (plan_inputs s u) a = false) ->
  exists r c,
    calculate_current_retirement_plan s u = Ok r
    /\ RetirementPlanResponse.retirement_age r = 90%Z
    /\ evaluate_candidate (plan_inputs s u) (90 - UserData.age u) = Ok c
    /\ 0 < required_savings c - total_projected_assets c
    /\ RetirementPlanResponse.required_savings r == 0
    /\ RetirementPlanResponse.savings_gap r == 0.
Proof.
  intros Hsane Hage Hpos Hnone.
  destruct (plan_cases s u Hsane)
    as [[Hold _] | [[_ [_ [r H]]] | [a [c [r H]]]]].
  - lia.
  - destruct H as [Hr [Hret [Hp [Hq Hg]]]].
    destruct Hsane as [Hinf Hwd].
    destruct (evaluate_candidate_ok (plan_inputs s u) Hinf Hwd
                (90 - UserData.age u)) as [c Hc].
    exists r, c. repeat split; try assumption.
    + assert (Hf := Hnone 90%Z ltac:(lia)).
      unfold feasible in Hf.
      change (current_age (plan_inputs s u)) with (UserData.age u) in Hf.
      rewrite Hc in Hf. apply ge_false_iff in Hf. lra.
    + rewrite Hq. reflexivity.
    + rewrite Hg. apply max_zero_of_nonpos.
      change (current_cash (plan_inputs s u)) with (UserData.cash_holdings u).
      change (current_investments (plan_inputs s u))
        with (UserData.rrsp_savings u + UserData.tfsa_savings u
              + UserData.investment_holdings u).
      lra.
  - destruct H as [Ha [_ [Hc [Hle _]]]].
    assert (Hf := Hnone a Ha). unfold feasible in Hf.
    change (current_age (plan_inputs s u)) with (UserData.age u) in Hf.
    rewrite Hc in Hf. apply ge_false_iff in Hf. lra.
Qed.

Lemma plan_without_feasible_age_reports_no_gap_witness :
  exists r c,
    calculate_current_retirement_plan default_settings
      (profile_without_savings 30) = Ok r
    /\ RetirementPlanResponse.retirement_age r = 90%Z
    /\ evaluate_candidate
         (plan_inputs default_settings (profile_without_savings 30))
         (90 - 30) = Ok c
    /\ 0 < required_savings c - total_projected_assets c
    /\ RetirementPlanResponse.required_savings r == 0
    /\ RetirementPlanResponse.savings_gap r == 0.
Proof.
  apply (plan_without_feasible_age_reports_no_gap default_settings
           (profile_without_savings 30)).
  - split; intros H; discriminate H.
  - simpl. lia.
  - vm_compute. intros H; discriminate H.
  - intros a Ha.
    apply (infeasible_on_ages _ 30%Z 61%nat); [vm_compute; reflexivity |].
    simpl in Ha. lia.
Defined.

(** C2.  The code at an age above the ceiling: the loop body never runs,
    [total_government_benefits] is read unbound, and the call raises.  At
    every age up to 90 the call returns. *)
Theorem plan_raises_above_ceiling (s : Settings) (u : UserData.t) :
  ((90 < UserData.age u)%Z ->
   calculate_current_retirement_plan s u
   = Raise (UnboundLocalError "total_government_benefits"))
  /\ (sane_settings s -> (UserData.age u <= 90)%Z ->
      exists r, calculate_current_retirement_plan s u = Ok r
                /\ (RetirementPlanResponse.retirement_age r <= 90)%Z).
Proof.
  split.
  - intros Hold. unfold calculate_current_retirement_plan.
    change (current_age (plan_inputs s u)) with (UserData.age u).
    replace (Z.to_nat (91 - UserData.age u)) with O by lia.
    reflexivity.
  - intros Hsane Hage.
    destruct (plan_cases s u Hsane)
      as [[Hold _] | [[_ [_ [r H]]] | [a [c [r H]]]]].
    + lia.
    + destruct H as [Hr [Hret _]]. exists r. split; [exact Hr | lia].
    + destruct H as [Ha [_ [_ [_ [Hr [Hret _]]]]]].
      exists r. split; [exact Hr | lia].
Qed.

Lemma plan_raises_above_ceiling_witness :
  calculate_current_retirement_plan default_settings
    (profile_without_savings 91)
  = Raise (UnboundLocalError "total_government_benefits")
  /\ exists r,
       calculate_current_retirement_plan default_settings
         (profile_without_savings 90) = Ok r
       /\ (RetirementPlanResponse.retirement_age r <= 90)%Z.
Proof.
  split.
  - apply (proj1 (plan_raises_above_ceiling default_settings
                    (profile_without_savings 91))).
    simpl. lia.
  - apply (proj2 (plan_raises_above_ceiling default_settings
                    (profile_without_savings 90))).
    + split; intros H; discriminate H.
    + simpl. lia.
Defined.

(** At every age up to 90 the plan returns. *)
Lemma plan_returns_up_to_ceiling (s : Settings) (u : UserData.t) :
  sane_settings s -> (UserData.age u <= 90)%Z ->
  exists r, calculate_current_retirement_plan s u = Ok r.
Proof.
  intros Hsane Hage.
  destruct (plan_cases s u Hsane)
    as [[Hold _] | [[_ [_ [r H]]] | [a [c [r H]]]]].
  - lia.
  - destruct H as [Hr _]. exists r. exact Hr.
  - destruct H as [_ [_ [_ [_ [Hr _]]]]]. exists r. exact Hr.
Qed.

(** *** Monotonicity in the monthly savings *)

Lemma future_savings_mono (r a1 a2 : Q) (years : Z) :
  0 <= 1 + r -> a1 <= a2 ->
  forall p1 p2, p1 <= p2 ->
    calculate_future_savings p1 a1 r years
      <= calculate_future_savings p2 a2 r years.
Proof.
  intros Hr Ha. unfold calculate_future_savings.
  induction (Py.range years) as [|y l IH]; intros p1 p2 Hp; cbn [fold_left].
  - exact Hp.
  - apply IH.
    assert (H : p1 * (1 + r) <= p2 * (1 + r))
      by (apply Qmult_le_compat_r; assumption).
    lra.
Qed.




End PlanProperties.

(** ** The what-if calculation *)

Module WhatIfProperties.

Import RetirementFunctions.

Lemma div_12 (x : Q) : x / 12 == x * (1 # 12).
Proof. field. Qed.

Lemma div_100 (x : Q) : x / 100 == x * (1 # 100).
Proof. field. Qed.

Lemma div_withdrawal_rate (x : Q) : x / withdrawal_rate_4pct == x * 25.
Proof. unfold withdrawal_rate_4pct. field. Qed.

Lemma inject_Z_pos (n : Z) : (0 < n)%Z -> 0 < inject_Z n.
Proof. intros H. rewrite Zlt_Qlt in H. exact H. Qed.

(** *** The projection loops record one entry per pass *)

Lemma project_year_length (cy : Z) (rr ac : Q) (l : list Z) :
  forall acc,
    List.length (snd (fold_left (project_year cy rr ac) l acc))
    = (List.length (snd acc) + List.length l)%nat.
Proof.
  induction l as [|y l IH]; intros [p sby]; cbn [fold_left].
  - cbn. lia.
  - rewrite IH. cbn [project_year snd]. rewrite List.length_app. cbn. lia.
Qed.

Lemma utils_project_year_length (ca : Z) (er mc : Q) (l : list Z) :
  forall acc,
    List.length
      (snd (fold_left (UtilsCalculationFunctions.project_year ca er mc) l acc))
    = (List.length (snd acc) + List.length l)%nat.
Proof.
  induction l as [|y l IH]; intros [p sby]; cbn [fold_left].
  - cbn. lia.
  - rewrite IH. cbn [UtilsCalculationFunctions.project_year snd].
    rewrite List.length_app. cbn. lia.
Qed.

(** The projection raises only on the division by [1 + inflation_rate]. *)
Lemma project_savings_ok (er ir : Q) (sc : RetirementWhatIfRequest.t) :
  ~ 1 + ir == 0 ->
  exists p,
    project_savings er ir sc = Ok p
    /\ real_return_rate p = (1 + er) / (1 + ir) - 1.
Proof.
  intros Hir. unfold project_savings.
  rewrite (dec_div_ok _ _ Hir). cbn [Py.bind].
  destruct (fold_left _ _ _) as [ps sby].
  eexists. split; reflexivity.
Qed.

Lemma project_savings_length (er ir : Q) (sc : RetirementWhatIfRequest.t)
    (p : Projection) :
  project_savings er ir sc = Ok p ->
  List.length (savings_by_year p)
  = (Z.to_nat (RetirementWhatIfRequest.retirement_age sc
               - RetirementWhatIfRequest.current_age sc) + 1)%nat.
Proof.
  unfold project_savings. intros H.
  destruct (dec_div (1 + er) (1 + ir)) as [ratio|e]; [| discriminate H].
  cbn [Py.bind] in H.
  match type of H with
  | context [fold_left ?f ?l ?a] =>
      pose proof (project_year_length 2023 (ratio - 1)
                    (RetirementWhatIfRequest.monthly_contribution sc * 12)
                    l a) as Hlen;
      destruct (fold_left f l a) as [ps sby]
  end.
  injection H as <-. cbn [savings_by_year snd] in *.
  rewrite List.length_app, Hlen, range_length. cbn. lia.
Qed.

(** With no year to go the projection is the current savings. *)
Lemma project_savings_no_years (er ir : Q) (sc : RetirementWhatIfRequest.t) :
  RetirementWhatIfRequest.retirement_age sc
  = RetirementWhatIfRequest.current_age sc ->
  ~ 1 + ir == 0 ->
  exists p,
    project_savings er ir sc = Ok p
    /\ real_return_rate p = (1 + er) / (1 + ir) - 1
    /\ projected_savings p = RetirementWhatIfRequest.current_savings sc.
Proof.
  intros Hage Hir. unfold project_savings.
  rewrite (dec_div_ok _ _ Hir). cbn [Py.bind].
  rewrite Hage, Z.sub_diag. cbn [Py.range Z.to_nat seq map fold_left].
  eexists. repeat split.
Qed.

(** A result of the what-if function comes from a projection. *)
Lemma what_if_with_rates_inv (er ir : Q) (sc : RetirementWhatIfRequest.t)
    (r : RetirementWhatIfResponse.t) :
  what_if_with_rates er ir sc = Ok r ->
  exists p,
    project_savings er ir sc = Ok p
    /\ RetirementWhatIfResponse.savings_by_year r = savings_by_year p
    /\ RetirementWhatIfResponse.monthly_income_breakdown r
       = retirement_income (projected_savings p) sc
    /\ RetirementWhatIfResponse.monthly_retirement_income r
       = breakdown_savings_income (retirement_income (projected_savings p) sc)
         + breakdown_government_benefits
             (retirement_income (projected_savings p) sc)
    /\ RetirementWhatIfResponse.savings_gap r
       = RetirementWhatIfRequest.desired_retirement_income sc / 12
         - RetirementWhatIfResponse.monthly_retirement_income r.
Proof.
  unfold what_if_with_rates. intros H.
  destruct (project_savings er ir sc) as [p|e]; [| discriminate H].
  cbn [Py.bind] in H.
  match type of H with
  | Py.bind ?c _ = _ => destruct c as [needed|e]; [| discriminate H]
  end.
  cbn [Py.bind] in H. injection H as <-.
  exists p. repeat split.
Qed.

Lemma calculate_retirement_what_if_inv (sc : RetirementWhatIfRequest.t)
    (r : RetirementWhatIfResponse.t) :
  calculate_retirement_what_if sc = Ok r ->
  what_if_with_rates (fst (processed_rates sc)) (snd (processed_rates sc)) sc
  = Ok r.
Proof.
  unfold calculate_retirement_what_if, try_except.
  destruct (processed_rates sc) as [er ir]. cbn [fst snd].
  destruct (what_if_with_rates er ir sc); [| discriminate].
  intros H. exact H.
Qed.

Lemma processed_inflation_ok (sc : RetirementWhatIfRequest.t) :
  ~ RetirementWhatIfRequest.inflation_rate sc == -1 ->
  ~ 1 + snd (processed_rates sc) == 0.
Proof.
  intros H. unfold processed_rates. cbn [snd]. unfold Py.gt.
  destruct (Qlt_le_dec 1 (RetirementWhatIfRequest.inflation_rate sc)).
  - rewrite div_100. lra.
  - lra.
Qed.

Lemma calculate_retirement_what_if_eq (sc : RetirementWhatIfRequest.t) :
  calculate_retirement_what_if sc
  = try_except
      (what_if_with_rates (fst (processed_rates sc)) (snd (processed_rates sc))
         sc)
      (HTTPException 400).
Proof.
  unfold calculate_retirement_what_if.
  destruct (processed_rates sc) as [er ir]. reflexivity.
Qed.

(** With at least one year to go the body returns. *)
Lemma what_if_with_rates_ok (er ir : Q) (sc : RetirementWhatIfRequest.t) :
  ~ 1 + ir == 0 ->
  (RetirementWhatIfRequest.current_age sc
   < RetirementWhatIfRequest.retirement_age sc)%Z ->
  exists r, what_if_with_rates er ir sc = Ok r.
Proof.
  intros Hir Hyears.
  destruct (project_savings_ok er ir sc Hir) as [p [Hp _]].
  unfold what_if_with_rates. rewrite Hp. cbn [Py.bind]. cbv zeta.
  match goal with
  | |- context [Py.gt ?g 0] => destruct (Py.gt g 0)
  end; [| eexists; reflexivity].
  destruct (Py.gt (real_return_rate p) 0) eqn:Hgt.
  - apply gt_true_iff in Hgt.
    rewrite (dec_div_ok _ (real_return_rate p)) by lra.
    cbn [Py.bind].
    rewrite dec_div_ok; [eexists; reflexivity |].
    assert (Hpow : 1 < (1 + real_return_rate p)
                       ^ (RetirementWhatIfRequest.retirement_age sc
                          - RetirementWhatIfRequest.current_age sc))
      by (apply Qpower_1_lt; [lra | lia]).
    match goal with
    | |- ~ 12 * (?a / ?b) == 0 =>
        assert (Hf : 0 < a / b) by (apply Qlt_shift_div_l; lra)
    end.
    lra.
  - rewrite dec_div_ok; [eexists; reflexivity |].
    assert (Hy := inject_Z_pos
                    (RetirementWhatIfRequest.retirement_age sc
                     - RetirementWhatIfRequest.current_age sc)
                    ltac:(lia)).
    lra.
Qed.

(** With no income gap the body returns, whatever the number of years. *)
Lemma what_if_with_rates_no_gap (er ir : Q) (sc : RetirementWhatIfRequest.t)
    (p : Projection) :
  project_savings er ir sc = Ok p ->
  RetirementWhatIfRequest.desired_retirement_income sc / 12
  - (breakdown_savings_income (retirement_income (projected_savings p) sc)
     + breakdown_government_benefits
         (retirement_income (projected_savings p) sc)) <= 0 ->
  exists r, what_if_with_rates er ir sc = Ok r.
Proof.
  intros Hp Hgap. unfold what_if_with_rates. rewrite Hp. cbn [Py.bind]. cbv zeta.
  apply gt_false_iff in Hgap. rewrite Hgap. cbn [Py.bind].
  eexists. reflexivity.
Qed.

(** With no year to go and a positive income gap the body divides by
    zero. *)
Lemma what_if_with_rates_no_years (er ir : Q) (sc : RetirementWhatIfRequest.t) :
  RetirementWhatIfRequest.retirement_age sc
  = RetirementWhatIfRequest.current_age sc ->
  ~ 1 + ir == 0 ->
  0 < RetirementWhatIfRequest.desired_retirement_income sc / 12
      - (breakdown_savings_income
           (retirement_income (RetirementWhatIfRequest.current_savings sc) sc)
         + breakdown_government_benefits
             (retirement_income (RetirementWhatIfRequest.current_savings sc)
                sc)) ->
  what_if_with_rates er ir sc = Raise DivisionByZero.
Proof.
  intros Hage Hir Hgap.
  destruct (project_savings_no_years er ir sc Hage Hir) as [p [Hp [_ Hps]]].
  unfold what_if_with_rates. rewrite Hp. cbn [Py.bind]. cbv zeta.
  rewrite Hps. apply gt_true_iff in Hgap. rewrite Hgap.
  apply gt_true_iff in Hgap.
  rewrite Hage, Z.sub_diag.
  match goal with
  | |- context [dec_div ?a (12 * inject_Z 0)] =>
      assert (Hadd : ~ a == 0) by (rewrite div_withdrawal_rate; lra)
  end.
  destruct (Py.gt (real_return_rate p) 0) eqn:Hgt.
  - apply gt_true_iff in Hgt.
    rewrite (dec_div_ok _ (real_return_rate p)) by lra.
    cbn [Py.bind].
    rewrite dec_div_by_zero; [reflexivity | | exact Hadd].
    change ((1 + real_return_rate p) ^ 0) with 1.
    unfold Qdiv. ring.
  - rewrite dec_div_by_zero; [reflexivity | | exact Hadd].
    reflexivity.
Qed.

(** *** The second implementation *)

Lemma utils_what_if_length (sc : RetirementWhatIfRequest.t)
    (r : RetirementWhatIfResponse.t) :
  UtilsCalculationFunctions.calculate_retirement_what_if sc = Ok r ->
  List.length (RetirementWhatIfResponse.savings_by_year r)
  = Z.to_nat (RetirementWhatIfRequest.retirement_age sc
              - RetirementWhatIfRequest.current_age sc + 1).
Proof.
  unfold UtilsCalculationFunctions.calculate_retirement_what_if. intros H.
  match type of H with
  | context [fold_left ?f ?l ?a] =>
      pose proof (utils_project_year_length
                    (RetirementWhatIfRequest.current_age sc)
                    (RetirementWhatIfRequest.expected_return_rate sc)
                    (RetirementWhatIfRequest.monthly_contribution sc)
                    l a) as Hlen;
      destruct (fold_left f l a) as [ps sby]
  end.
  cbv zeta in H.
  match type of H with
  | Py.bind ?c _ = _ => destruct c as [additional|e]; [| discriminate H]
  end.
  cbn [Py.bind] in H.
  match type of H with
  | Py.bind ?c _ = _ => destruct c as [needed|e]; [| discriminate H]
  end.
  cbn [Py.bind] in H. injection H as <-.
  cbn [RetirementWhatIfResponse.savings_by_year snd] in *.
  rewrite Hlen, range_length. cbn. lia.
Qed.

Lemma utils_what_if_ok (sc : RetirementWhatIfRequest.t) :
  ~ RetirementWhatIfRequest.inflation_rate sc == 0.04 ->
  return_rate_not_absorbed sc ->
  exists r, UtilsCalculationFunctions.calculate_retirement_what_if sc = Ok r
            /\ ((RetirementWhatIfRequest.retirement_age sc
                 - RetirementWhatIfRequest.current_age sc <= 0)%Z ->
                RetirementWhatIfResponse.monthly_contribution_needed r
                = RetirementWhatIfRequest.monthly_contribution sc + 0).
Proof.
  intros Hinf _.
  unfold UtilsCalculationFunctions.calculate_retirement_what_if.
  destruct (fold_left _ _ _) as [ps sby]. cbv zeta.
  rewrite dec_div_ok by lra. cbn [Py.bind].
  destruct (_ >? 0)%Z eqn:Hy.
  - apply Z.gtb_lt in Hy.
    destruct (Py.gt (RetirementWhatIfRequest.expected_return_rate sc) 0)
      eqn:Hgt.
    + apply gt_true_iff in Hgt.
      assert (Hpow := Qpower_1_lt
                        (1 + RetirementWhatIfRequest.expected_return_rate sc)
                        _ ltac:(lra) Hy).
      rewrite dec_div_ok by lra. cbn [Py.bind].
      eexists. split; [reflexivity | intros; lia].
    + assert (Hm := inject_Z_pos
                      ((RetirementWhatIfRequest.retirement_age sc
                        - RetirementWhatIfRequest.current_age sc) * 12)
                      ltac:(lia)).
      rewrite dec_div_ok by lra. cbn [Py.bind].
      eexists. split; [reflexivity | intros; lia].
  - cbn [Py.bind]. eexists. split; [reflexivity | intros; reflexivity].
Qed.

(** *** The claims *)

(** C8.  For a retirement age not below the current age, the
    [savings_by_year] list of a what-if result has one entry per year from
    the current to the retirement year, both included, in both
    implementations; and the results exist: for the function behind the
    endpoint when there is a year to go and inflation is not -100 %, for
    the second implementation when inflation is not 4 % and the expected
    return is not a positive rate below [10^-27]. *)
Theorem savings_by_year_covers_both_endpoints (sc : RetirementWhatIfRequest.t) :
  (RetirementWhatIfRequest.current_age sc
   <= RetirementWhatIfRequest.retirement_age sc)%Z ->
  (forall r,
     calculate_retirement_what_if sc = Ok r ->
     Z.of_nat (List.length (RetirementWhatIfResponse.savings_by_year r))
     = (RetirementWhatIfRequest.retirement_age sc
        - RetirementWhatIfRequest.current_age sc + 1)%Z)
  /\ (forall r,
        UtilsCalculationFunctions.calculate_retirement_what_if sc = Ok r ->
        Z.of_nat (List.length (RetirementWhatIfResponse.savings_by_year r))
        = (RetirementWhatIfRequest.retirement_age sc
           - RetirementWhatIfRequest.current_age sc + 1)%Z)
  /\ ((RetirementWhatIfRequest.current_age sc
       < RetirementWhatIfRequest.retirement_age sc)%Z ->
      ~ RetirementWhatIfRequest.inflation_rate sc == -1 ->
      exists r, calculate_retirement_what_if sc = Ok r)
  /\ (~ RetirementWhatIfRequest.inflation_rate sc == 0.04 ->
      return_rate_not_absorbed sc ->
      exists r, UtilsCalculationFunctions.calculate_retirement_what_if sc
                = Ok r).
Proof.
  intros Hage. repeat split.
  - intros r Hr. apply calculate_retirement_what_if_inv in Hr.
    apply what_if_with_rates_inv in Hr. destruct Hr as [p [Hp [Hsby _]]].
    rewrite Hsby, (project_savings_length _ _ _ _ Hp). lia.
  - intros r Hr. rewrite (utils_what_if_length _ _ Hr). lia.
  - intros Hlt Hinf. rewrite calculate_retirement_what_if_eq.
    destruct (what_if_with_rates_ok (fst (processed_rates sc))
                (snd (processed_rates sc)) sc
                (processed_inflation_ok sc Hinf) Hlt) as [r Hr].
    rewrite Hr. exists r. reflexivity.
  - intros Hinf Hrate. destruct (utils_what_if_ok sc Hinf Hrate) as [r [Hr _]].
    exists r. exact Hr.
Qed.

Lemma savings_by_year_covers_both_endpoints_witness :
  (exists r,
     calculate_retirement_what_if example_scenario = Ok r
     /\ List.length (RetirementWhatIfResponse.savings_by_year r) = 26%nat)
  /\ (exists r,
        UtilsCalculationFunctions.calculate_retirement_what_if example_scenario
        = Ok r
        /\ List.length (RetirementWhatIfResponse.savings_by_year r) = 26%nat).
Proof.
  assert (Hage : (RetirementWhatIfRequest.current_age example_scenario
                  <= RetirementWhatIfRequest.retirement_age example_scenario)%Z)
    by (simpl; lia).
  destruct (savings_by_year_covers_both_endpoints example_scenario Hage)
    as [H1 [H2 [H3 H4]]].
  split.
  - destruct H3 as [r Hr]; [simpl; lia | intros H; discriminate H |].
    exists r. split; [exact Hr |]. apply H1 in Hr. simpl in Hr. lia.
  - destruct H4 as [r Hr];
      [intros H; discriminate H | right; right; vm_compute; discriminate |].
    exists r. split; [exact Hr |]. apply H2 in Hr. simpl in Hr. lia.
Defined.

(** C3.  The code with no year to go and a positive income gap: the
    function behind the endpoint divides by zero and raises
    [HTTPException(400)]; the second implementation returns the original
    monthly contribution. *)
Theorem what_if_without_years_divides_by_zero (sc : RetirementWhatIfRequest.t) :
  RetirementWhatIfRequest.retirement_age sc
  = RetirementWhatIfRequest.current_age sc ->
  ~ RetirementWhatIfRequest.inflation_rate sc == -1 ->
  0 < RetirementWhatIfRequest.desired_retirement_income sc / 12
      - (breakdown_savings_income
           (retirement_income (RetirementWhatIfRequest.current_savings sc) sc)
         + breakdown_government_benefits
             (retirement_income (RetirementWhatIfRequest.current_savings sc)
                sc)) ->
  calculate_retirement_what_if sc = Raise (HTTPException 400 DivisionByZero)
  /\ (~ RetirementWhatIfRequest.inflation_rate sc == 0.04 ->
      exists r,
        UtilsCalculationFunctions.calculate_retirement_what_if sc = Ok r
        /\ RetirementWhatIfResponse.monthly_contribution_needed r
           == RetirementWhatIfRequest.monthly_contribution sc).
Proof.
  intros Hage Hinf Hgap. split.
  - rewrite calculate_retirement_what_if_eq.
    rewrite (what_if_with_rates_no_years _ _ sc Hage
               (processed_inflation_ok sc Hinf) Hgap).
    reflexivity.
  - intros Hsafe.
    assert (Hrate : return_rate_not_absorbed sc) by (left; lia).
    destruct (utils_what_if_ok sc Hsafe Hrate) as [r [Hr Hneeded]].
    exists r. split; [exact Hr |]. rewrite Hneeded by lia. ring.
Qed.

Lemma what_if_without_years_divides_by_zero_witness :
  calculate_retirement_what_if (scenario_retiring_now 100000)
  = Raise (HTTPException 400 DivisionByZero)
  /\ (~ 0.02 == 0.04 ->
      exists r,
        UtilsCalculationFunctions.calculate_retirement_what_if
          (scenario_retiring_now 100000) = Ok r
        /\ RetirementWhatIfResponse.monthly_contribution_needed r == 500).
Proof.
  apply (what_if_without_years_divides_by_zero (scenario_retiring_now 100000)).
  - reflexivity.
  - intros H; discriminate H.
  - vm_compute. reflexivity.
Defined.

(** The body does not read the two raw rates of the scenario. *)
Lemma what_if_with_rates_ignores_raw_rates (er ir r : Q)
    (sc : RetirementWhatIfRequest.t) :
  what_if_with_rates er ir (with_expected_return_rate r sc)
  = what_if_with_rates er ir sc
  /\ what_if_with_rates er ir (with_inflation_rate r sc)
     = what_if_with_rates er ir sc.
Proof. split; reflexivity. Qed.

Lemma processed_rates_percent (sc : RetirementWhatIfRequest.t) (r : Q) :
  1 < r -> r <= 100 ->
  processed_rates (with_expected_return_rate r sc)
  = processed_rates (with_expected_return_rate (r / 100) sc)
  /\ processed_rates (with_inflation_rate r sc)
     = processed_rates (with_inflation_rate (r / 100) sc).
Proof.
  intros H1 H100.
  assert (Hgt : Py.gt r 1 = true) by (apply gt_true_iff; exact H1).
  assert (Hle : Py.gt (r / 100) 1 = false)
    by (apply gt_false_iff; rewrite div_100; lra).
  unfold processed_rates.
  cbn [with_expected_return_rate with_inflation_rate
       RetirementWhatIfRequest.expected_return_rate
       RetirementWhatIfRequest.inflation_rate].
  rewrite Hgt, Hle. split; reflexivity.
Qed.

(** C7.  The what-if function divides a raw expected return rate, and a
    raw inflation rate, by 100 exactly when it exceeds 1, and uses it
    unchanged otherwise; a rate given as a percentage between 1 and 100
    gives the result of the same rate given as a fraction, and so 6 and
    0.06 give the same result. *)
Theorem what_if_reads_rates_above_one_as_percentages
    (sc : RetirementWhatIfRequest.t) :
  (1 < RetirementWhatIfRequest.expected_return_rate sc ->
   fst (processed_rates sc)
   = RetirementWhatIfRequest.expected_return_rate sc / 100)
  /\ (RetirementWhatIfRequest.expected_return_rate sc <= 1 ->
      fst (processed_rates sc) = RetirementWhatIfRequest.expected_return_rate sc)
  /\ (1 < RetirementWhatIfRequest.inflation_rate sc ->
      snd (processed_rates sc) = RetirementWhatIfRequest.inflation_rate sc / 100)
  /\ (RetirementWhatIfRequest.inflation_rate sc <= 1 ->
      snd (processed_rates sc) = RetirementWhatIfRequest.inflation_rate sc)
  /\ calculate_retirement_what_if sc
     = try_except
         (what_if_with_rates (fst (processed_rates sc))
            (snd (processed_rates sc)) sc)
         (HTTPException 400)
  /\ (forall r, 1 < r -> r <= 100 ->
        calculate_retirement_what_if (with_expected_return_rate r sc)
        = calculate_retirement_what_if (with_expected_return_rate (r / 100) sc))
  /\ (forall r, 1 < r -> r <= 100 ->
        calculate_retirement_what_if (with_inflation_rate r sc)
        = calculate_retirement_what_if (with_inflation_rate (r / 100) sc))
  /\ calculate_retirement_what_if (with_expected_return_rate 6 sc)
     = calculate_retirement_what_if (with_expected_return_rate 0.06 sc).
Proof.
  assert (Hpct : forall r, 1 < r -> r <= 100 ->
            calculate_retirement_what_if (with_expected_return_rate r sc)
            = calculate_retirement_what_if
                (with_expected_return_rate (r / 100) sc)).
  { intros r H1 H100. rewrite !calculate_retirement_what_if_eq.
    rewrite (proj1 (processed_rates_percent sc r H1 H100)).
    rewrite !(proj1 (what_if_with_rates_ignores_raw_rates _ _ _ sc)).
    reflexivity. }
  refine (conj _ (conj _ (conj _ (conj _ (conj _ (conj _ (conj _ _))))))).
  - intros H. apply gt_true_iff in H. unfold processed_rates. cbn [fst].
    rewrite H. reflexivity.
  - intros H. apply gt_false_iff in H. unfold processed_rates. cbn [fst].
    rewrite H. reflexivity.
  - intros H. apply gt_true_iff in H. unfold processed_rates. cbn [snd].
    rewrite H. reflexivity.
  - intros H. apply gt_false_iff in H. unfold processed_rates. cbn [snd].
    rewrite H. reflexivity.
  - apply calculate_retirement_what_if_eq.
  - exact Hpct.
  - intros r H1 H100. rewrite !calculate_retirement_what_if_eq.
    rewrite (proj2 (processed_rates_percent sc r H1 H100)).
    rewrite !(proj2 (what_if_with_rates_ignores_raw_rates _ _ _ sc)).
    reflexivity.
  - apply (Hpct 6); [reflexivity | discriminate].
Qed.

Lemma what_if_reads_rates_above_one_as_percentages_witness :
  calculate_retirement_what_if (with_expected_return_rate 7 example_scenario)
  = calculate_retirement_what_if
      (with_expected_return_rate (7 / 100) example_scenario)
  /\ fst (processed_rates (with_expected_return_rate 7 example_scenario))
     = 7 / 100
  /\ snd (processed_rates (with_expected_return_rate 7 example_scenario))
     = 0.02.
Proof.
  destruct (what_if_reads_rates_above_one_as_percentages
              (with_expected_return_rate 7 example_scenario))
    as [Hfst [_ [_ [Hsnd _]]]].
  destruct (what_if_reads_rates_above_one_as_percentages example_scenario)
    as [_ [_ [_ [_ [_ [Hpct _]]]]]].
  split; [| split].
  - apply (Hpct 7); [reflexivity | discriminate].
  - apply Hfst. reflexivity.
  - apply Hsnd. discriminate.
Defined.

(** The savings gap of a plan is a maximum with zero. *)
Lemma plan_gap_nonneg (s : Settings) (u : UserData.t)
    (r : RetirementPlanResponse.t) :
  calculate_current_retirement_plan s u = Ok r ->
  0 <= RetirementPlanResponse.savings_gap r.
Proof.
  unfold calculate_current_retirement_plan. intros H.
  destruct (search _ _ _) as [st|e]; [| discriminate H].
  cbn [Py.bind] in H.
  destruct (read_local _ (st_total_government_benefits st)) as [g|e];
    [| discriminate H].
  cbn [Py.bind] in H.
  match type of H with
  | Py.bind ?c _ = _ => destruct c as [y|e]; [| discriminate H]
  end.
  cbn [Py.bind] in H.
  destruct (dec_pow _ y) as [growth|e]; [| discriminate H].
  cbn [Py.bind] in H. injection H as <-.
  cbn [RetirementPlanResponse.savings_gap]. apply max_zero_nonneg.
Qed.

(** C10.  The [savings_gap] of a what-if result is the desired monthly
    income minus the projected monthly income, unclamped: when the
    projected income exceeds the desired one the function returns and the
    gap is negative; the gap of a plan is never negative. *)
Theorem what_if_gap_is_not_clamped (sc : RetirementWhatIfRequest.t) :
  (forall r,
     calculate_retirement_what_if sc = Ok r ->
     RetirementWhatIfResponse.savings_gap r
     = RetirementWhatIfRequest.desired_retirement_income sc / 12
       - RetirementWhatIfResponse.monthly_retirement_income r)
  /\ (~ RetirementWhatIfRequest.inflation_rate sc == -1 ->
      exists p,
        project_savings (fst (processed_rates sc)) (snd (processed_rates sc))
          sc = Ok p
        /\ (RetirementWhatIfRequest.desired_retirement_income sc / 12
            < breakdown_savings_income
                (retirement_income (projected_savings p) sc)
              + breakdown_government_benefits
                  (retirement_income (projected_savings p) sc) ->
            exists r,
              calculate_retirement_what_if sc = Ok r
              /\ RetirementWhatIfResponse.monthly_retirement_income r
                 = breakdown_savings_income
                     (retirement_income (projected_savings p) sc)
                   + breakdown_government_benefits
                       (retirement_income (projected_savings p) sc)
              /\ RetirementWhatIfResponse.savings_gap r < 0))
  /\ (forall s u r,
        calculate_current_retirement_plan s u = Ok r ->
        0 <= RetirementPlanResponse.savings_gap r).
Proof.
  split; [| split].
  - intros r Hr. apply calculate_retirement_what_if_inv in Hr.
    apply what_if_with_rates_inv in Hr.
    destruct Hr as [p [_ [_ [_ [_ Hgap]]]]]. exact Hgap.
  - intros Hinf.
    destruct (project_savings_ok (fst (processed_rates sc))
                (snd (processed_rates sc)) sc (processed_inflation_ok sc Hinf))
      as [p [Hp _]].
    exists p. split; [exact Hp |]. intros Hsurplus.
    destruct (what_if_with_rates_no_gap _ _ sc p Hp ltac:(lra)) as [r Hr].
    exists r.
    assert (Hcalc : calculate_retirement_what_if sc = Ok r)
      by (rewrite calculate_retirement_what_if_eq, Hr; reflexivity).
    destruct (what_if_with_rates_inv _ _ _ _ Hr)
      as [p' [Hp' [_ [_ [Hinc Hgap]]]]].
    rewrite Hp in Hp'. injection Hp' as <-.
    split; [exact Hcalc |]. split; [exact Hinc |].
    rewrite Hgap, Hinc. lra.
  - intros s u r. apply plan_gap_nonneg.
Qed.

Lemma what_if_gap_is_not_clamped_witness :
  exists r,
    calculate_retirement_what_if scenario_with_surplus = Ok r
    /\ RetirementWhatIfResponse.savings_gap r < 0.
Proof.
  destruct (what_if_gap_is_not_clamped scenario_with_surplus)
    as [_ [Hsurplus _]].
  destruct Hsurplus as [p [Hp Hr]]; [intros H; discriminate H |].
  destruct Hr as [r [Hr [_ Hgap]]].
  - vm_compute in Hp. injection Hp as <-. vm_compute. reflexivity.
  - exists r. split; assumption.
Defined.

End WhatIfProperties.

(** ** The financial metrics *)

Module MetricsProperties.

Import UtilsCalculationFunctions.

Lemma truthy_true (x : Q) : Py.truthy x = true -> ~ x == 0.
Proof.
  unfold Py.truthy.
  destruct (Qeq_dec x 0); [discriminate | intros _; assumption].
Qed.

Lemma truthy_false (x : Q) : Py.truthy x = false -> x == 0.
Proof.
  unfold Py.truthy.
  destruct (Qeq_dec x 0); [intros _; assumption | discriminate].
Qed.

Lemma truthy_zero : Py.truthy 0 = false.
Proof. reflexivity. Qed.

(** The denominator of the assumed amortization (5 %, 60 months). *)
Lemma amortization_denominator_nonzero : ~ 1 - (1 + 0.05 / 12) ^ (-60) == 0.
Proof. intros H. vm_compute in H. discriminate H. Qed.

(** Runs the guarded divisions of the function: each one sits under a test
    that its denominator is not zero. *)
Ltac run_guarded_divisions :=
  repeat first
    [ rewrite float_div_ok
        by first [ assumption | exact amortization_denominator_nonzero | lra ]
    | progress cbn [Py.bind andb]
    | rewrite truthy_zero
    | match goal with
      | |- context [Py.bind (if ?b then _ else _) _] => destruct b eqn:?
      | |- context [Py.bind (match ?o with Some _ => _ | None => _ end) _] =>
          destruct o eqn:?
      | |- context [float_div _ (if ?b then _ else _)] => destruct b eqn:?
      end ].

(** C9.  [calculate_financial_metrics] returns for every profile: no
    division raises.  With zero expenses the emergency-fund ratio is [None]
    and its status "Not Available"; so is every ratio over the income when
    the income is zero, and the savings rate in both cases. *)
Theorem ratios_over_zero_are_not_available (pd : ProfileData) :
  exists m,
    calculate_financial_metrics pd = Ok m
    /\ (Py.or_zero (pd_monthly_expenses pd) == 0 ->
        emergency_fund_ratio m = None
        /\ emergency_fund_status m = "Not Available"%string
        /\ savings_rate m = None
        /\ savings_status m = "Not Available"%string)
    /\ (Py.or_zero (pd_monthly_income pd) == 0 ->
        debt_to_income_ratio m = None
        /\ debt_status m = "Not Available"%string
        /\ savings_rate m = None
        /\ savings_status m = "Not Available"%string
        /\ retirement_savings_ratio m = None
        /\ retirement_status m = "Not Available"%string
        /\ retirement_readiness_score m = None
        /\ net_worth_status m = "Not Available"%string).
Proof.
  unfold calculate_financial_metrics.
  set (mi := Py.or_zero (pd_monthly_income pd)).
  set (me := Py.or_zero (pd_monthly_expenses pd)).
  destruct (Py.truthy mi) eqn:Hmi; destruct (Py.truthy me) eqn:Hme;
    try (assert (Hmi' := truthy_true _ Hmi));
    try (assert (Hme' := truthy_true _ Hme));
    try (assert (Hmi0 := truthy_false _ Hmi));
    try (assert (Hme0 := truthy_false _ Hme));
    try (assert (Hann : Py.truthy (mi * 12) = true)
          by (apply not_false_iff_true; intros F; apply truthy_false in F; lra);
         rewrite Hann);
    run_guarded_divisions.
  all: eexists; split; [reflexivity |].
  all: split; intros Hz; try contradiction.
  all: destruct (pd_age pd); repeat split; reflexivity.
Qed.

Lemma ratios_over_zero_are_not_available_witness :
  exists m,
    calculate_financial_metrics profile_without_expenses = Ok m
    /\ emergency_fund_ratio m = None
    /\ emergency_fund_status m = "Not Available"%string.
Proof.
  destruct (ratios_over_zero_are_not_available profile_without_expenses)
    as [m [Hm [Hexp _]]].
  exists m. split; [exact Hm |].
  destruct Hexp as [Hr [Hs _]]; [reflexivity |].
  split; assumption.
Defined.

End MetricsProperties.

(** ** More on the tax model *)

Module TaxProperties.







End TaxProperties.

(** ** The compound growth primitives *)

Module GrowthProperties.

Import RetirementFunctions.

(** A loop that ignores its index runs its body once per element. *)
Lemma fold_left_ignoring_index {A B : Type} (step : A -> A) (l : list B)
    (x : A) :
  fold_left (fun acc _ => step acc) l x = Nat.iter (List.length l) step x.
Proof.
  revert x. induction l as [|b l IH]; intros x; cbn [fold_left List.length].
  - reflexivity.
  - rewrite IH. symmetry. apply Nat.iter_succ_r.
Qed.

Lemma future_savings_as_iteration (p a r : Q) (years : Z) :
  calculate_future_savings p a r years
  = Nat.iter (Z.to_nat years) (fun projected => projected * (1 + r) + a) p.
Proof.
  unfold calculate_future_savings.
  rewrite (fold_left_ignoring_index (fun projected => projected * (1 + r) + a)).
  rewrite range_length. reflexivity.
Qed.

Lemma Qpower_succ (q : Q) (k : nat) :
  q ^ Z.of_nat (S k) == q ^ Z.of_nat k * q.
Proof.
  rewrite Nat2Z.inj_succ. unfold Z.succ.
  rewrite Qpower_plus' by lia. rewrite Qpower_1_r. reflexivity.
Qed.

(** The recurrence in closed form, without a division. *)
Lemma iteration_closed_form (p a r : Q) (k : nat) :
  r * Nat.iter k (fun projected => projected * (1 + r) + a) p
  == r * (p * (1 + r) ^ Z.of_nat k) + a * ((1 + r) ^ Z.of_nat k - 1).
Proof.
  induction k as [|k IH].
  - cbn. ring.
  - rewrite Qpower_succ, Nat.iter_succ.
    set (v := Nat.iter k (fun projected => projected * (1 + r) + a) p) in *.
    set (g := (1 + r) ^ Z.of_nat k) in *.
    assert (H : r * (v * (1 + r) + a) == (r * v) * (1 + r) + r * a) by ring.
    rewrite H, IH. ring.
Qed.

(** X3.  [future_value] composes over the years: growing an amount for
    [a] years and the result for [b] more years is growing it for [a + b]
    years. *)
Theorem future_value_composes (p r : Q) (a b : Z) :
  (0 <= a)%Z -> (0 <= b)%Z ->
  future_value (future_value p r a) r b == future_value p r (a + b).
Proof.
  intros Ha Hb. unfold future_value.
  destruct (Z.leb_spec a 0) as [Ha0 | Ha0];
    destruct (Z.leb_spec b 0) as [Hb0 | Hb0];
    destruct (Z.leb_spec (a + b) 0) as [Hab | Hab]; try lia.
  - reflexivity.
  - replace (a + b)%Z with b by lia. reflexivity.
  - replace (a + b)%Z with a by lia. reflexivity.
  - rewrite Qpower_plus' by lia. ring.
Qed.

Lemma future_value_composes_witness :
  future_value (future_value 100 0.03 2) 0.03 3 == future_value 100 0.03 (2 + 3).
Proof.
  apply (future_value_composes 100 0.03 2 3); lia.
Defined.

(** X4.  [calculate_future_savings] composes over the years, and a number
    of years that is not positive leaves the savings unchanged. *)
Theorem future_savings_composes (p a r : Q) (m n : Z) :
  ((0 <= m)%Z -> (0 <= n)%Z ->
   calculate_future_savings (calculate_future_savings p a r m) a r n
   = calculate_future_savings p a r (m + n))
  /\ ((m <= 0)%Z -> calculate_future_savings p a r m = p).
Proof.
  split.
  - intros Hm Hn. rewrite !future_savings_as_iteration.
    rewrite Z2Nat.inj_add by lia.
    rewrite Nat.add_comm. rewrite Nat.iter_add. reflexivity.
  - intros Hm. rewrite future_savings_as_iteration.
    replace (Z.to_nat m) with O by lia. reflexivity.
Qed.

Lemma future_savings_composes_witness :
  calculate_future_savings (calculate_future_savings 100 10 0.07 2) 10 0.07 3
  = calculate_future_savings 100 10 0.07 (2 + 3)
  /\ calculate_future_savings 100 10 0.07 (-4) = 100.
Proof.
  split.
  - apply (proj1 (future_savings_composes 100 10 0.07 2 3)); lia.
  - apply (proj2 (future_savings_composes 100 10 0.07 (-4) 0)); lia.
Defined.

(** X5.  The year-by-year recurrence agrees with the closed form: after
    [n >= 0] years the savings are the future value of the starting amount
    plus the annual contribution times the annuity factor
    [((1 + r) ^ n - 1) / r], the factor by which the what-if calculation
    divides; with a zero rate they are the starting amount plus [n]
    contributions. *)
Theorem future_savings_closed_form (p a r : Q) (n : Z) :
  (0 <= n)%Z ->
  (~ r == 0 ->
   calculate_future_savings p a r n
   == future_value p r n + a * (((1 + r) ^ n - 1) / r))
  /\ (r == 0 -> calculate_future_savings p a r n == p + inject_Z n * a).
Proof.
  intros Hn.
  assert (Hfv : future_value p r n == p * (1 + r) ^ n).
  { unfold future_value. destruct (Z.leb_spec n 0) as [H0 | H0].
    - replace n with 0%Z by lia. cbn. ring.
    - reflexivity. }
  assert (Hcf := iteration_closed_form p a r (Z.to_nat n)).
  rewrite Z2Nat.id in Hcf by lia.
  rewrite <- future_savings_as_iteration in Hcf.
  split.
  - intros Hr. rewrite Hfv.
    apply (Qmult_inj_l _ _ r Hr). rewrite Hcf. field. exact Hr.
  - intros Hr. rewrite future_savings_as_iteration.
    rewrite <- (Z2Nat.id n) at 2 by lia.
    induction (Z.to_nat n) as [|k IH].
    + cbn. ring.
    + rewrite Nat.iter_succ, IH, Hr, Nat2Z.inj_succ. unfold Z.succ.
      rewrite inject_Z_plus. ring.
Qed.

Lemma future_savings_closed_form_witness :
  calculate_future_savings 100 10 0.07 5
  == future_value 100 0.07 5 + 10 * (((1 + 0.07) ^ 5 - 1) / 0.07).
Proof.
  apply (proj1 (future_savings_closed_form 100 10 0.07 5 ltac:(lia))).
  intros H; discriminate H.
Defined.

End GrowthProperties.

(** ** More on the plan *)

Module PlanShape.

Import RetirementFunctions.

Lemma Qmult_le_l_nonneg (c x y : Q) : 0 <= c -> x <= y -> c * x <= c * y.
Proof.
  intros Hc Hxy. rewrite (Qmult_comm c x), (Qmult_comm c y).
  apply Qmult_le_compat_r; assumption.
Qed.

(** The response built from the state in which the loop ended, when both
    locals of the loop body are bound. *)
Lemma plan_of_search (s : Settings) (u : UserData.t) (st : SearchState)
    (y : Z) (g : Q) :
  ~ 1 + inflation_rate (plan_inputs s u) == 0 ->
  search (plan_inputs s u) (Z.to_nat (91 - UserData.age u))
    (initial_state (plan_inputs s u)) = Ok st ->
  st_years_until_retirement st = Some y ->
  st_total_government_benefits st = Some g ->
  exists r,
    calculate_current_retirement_plan s u = Ok r
    /\ RetirementPlanResponse.retirement_age r
       = (if negb (st_found_retirement_age st) then 90%Z
          else st_retirement_age st)
    /\ RetirementPlanResponse.current_age r = UserData.age u
    /\ RetirementPlanResponse.years_until_retirement r
       = (if negb (st_found_retirement_age st)
          then (90 - UserData.age u)%Z else y)
    /\ RetirementPlanResponse.years_in_retirement r
       = Z.max 0 (LIFE_EXPECTANCY s - RetirementPlanResponse.retirement_age r)
    /\ RetirementPlanResponse.retirement_income r
       == RetirementPlanResponse.government_benefits r
          + RetirementPlanResponse.savings_income r
    /\ RetirementPlanResponse.government_benefits r = g / 12
    /\ RetirementPlanResponse.savings_income r
       = st_feasible_projected_savings st * WITHDRAWAL_RATE s / 12
    /\ RetirementPlanResponse.monthly_contribution r
       = calculate_after_tax_income (UserData.monthly_savings u).
Proof.
  intros Hinf Hs Hy Hg.
  unfold calculate_current_retirement_plan.
  change (current_age (plan_inputs s u)) with (UserData.age u).
  rewrite Hs. cbn [Py.bind]. rewrite Hg, Hy. cbn [Py.read_local Py.bind].
  destruct (st_found_retirement_age st); cbn [negb Py.read_local Py.bind];
    rewrite (dec_pow_ok _ _ Hinf); cbn [Py.bind];
    (eexists; split; [reflexivity |]);
    cbn [RetirementPlanResponse.retirement_age
         RetirementPlanResponse.current_age
         RetirementPlanResponse.years_until_retirement
         RetirementPlanResponse.years_in_retirement
         RetirementPlanResponse.retirement_income
         RetirementPlanResponse.government_benefits
         RetirementPlanResponse.savings_income
         RetirementPlanResponse.monthly_contribution];
    (split; [reflexivity |]); (split; [reflexivity |]);
    (split; [reflexivity |]); (split; [reflexivity |]);
    (split; [field |]); (split; [reflexivity |]);
    (split; reflexivity).
Qed.

(** X6.  Every plan that is returned is coherent: the retirement age lies
    between the current age and 90, [years_until_retirement] is their
    difference, [years_in_retirement] is the life expectancy minus the
    retirement age and never negative, the monthly retirement income is
    the sum of its two parts, and the monthly contribution is the
    after-tax value of the monthly savings. *)
Theorem plan_result_is_coherent (s : Settings) (u : UserData.t)
    (r : RetirementPlanResponse.t) :
  sane_settings s ->
  calculate_current_retirement_plan s u = Ok r ->
  (UserData.age u <= RetirementPlanResponse.retirement_age r <= 90)%Z
  /\ RetirementPlanResponse.current_age r = UserData.age u
  /\ RetirementPlanResponse.years_until_retirement r
     = (RetirementPlanResponse.retirement_age r - UserData.age u)%Z
  /\ RetirementPlanResponse.years_in_retirement r
     = Z.max 0 (LIFE_EXPECTANCY s - RetirementPlanResponse.retirement_age r)
  /\ (0 <= RetirementPlanResponse.years_in_retirement r)%Z
  /\ RetirementPlanResponse.retirement_income r
     == RetirementPlanResponse.government_benefits r
        + RetirementPlanResponse.savings_income r
  /\ RetirementPlanResponse.monthly_contribution r
     = calculate_after_tax_income (UserData.monthly_savings u).
Proof.
  intros [Hinf Hwd] Hr.
  destruct (Z_le_gt_dec (UserData.age u) 90) as [Hyoung | Hold].
  2: { unfold calculate_current_retirement_plan in Hr.
       change (current_age (plan_inputs s u)) with (UserData.age u) in Hr.
       replace (Z.to_nat (91 - UserData.age u)) with O in Hr by lia.
       discriminate Hr. }
  destruct (PlanProperties.search_cases (plan_inputs s u) Hinf Hwd
              (Z.to_nat (91 - UserData.age u))
              (initial_state (plan_inputs s u)))
    as [st [Hs Hcases]];
    [ cbn; lia | unfold initial_state; cbn [st_retirement_age current_age plan_inputs]; lia |].
  change (st_retirement_age (initial_state (plan_inputs s u)))
    with (UserData.age u) in Hcases.
  change (current_age (plan_inputs s u)) with (UserData.age u) in Hcases.
  destruct Hcases as [[Hn _] | [[Hn [_ [c [_ Hst]]]]
                                | [a [c [Ha [_ [_ [_ Hst]]]]]]]].
  - lia.
  - destruct (plan_of_search s u st _ _ Hinf Hs
                ltac:(rewrite Hst; reflexivity) ltac:(rewrite Hst; reflexivity))
      as [r' [Hr' H]].
    rewrite Hr' in Hr. injection Hr as <-.
    rewrite Hst in H. cbn [st_found_retirement_age negb initial_state] in H.
    destruct H as [Hage [Hcur [Hyears [Hin [Hsum [_ [_ Hcontrib]]]]]]].
    rewrite Hage, Hcur, Hyears, Hin.
    repeat split; try lia; try assumption.
  - destruct (plan_of_search s u st _ _ Hinf Hs
                ltac:(rewrite Hst; reflexivity) ltac:(rewrite Hst; reflexivity))
      as [r' [Hr' H]].
    rewrite Hr' in Hr. injection Hr as <-.
    rewrite Hst in H.
    cbn [st_found_retirement_age st_retirement_age negb] in H.
    destruct H as [Hage [Hcur [Hyears [Hin [Hsum [_ [_ Hcontrib]]]]]]].
    rewrite Hage, Hcur, Hyears, Hin.
    repeat split; try lia; try assumption.
Qed.


Lemma plan_result_is_coherent_witness :
  exists r,
    calculate_current_retirement_plan default_settings example_profile = Ok r
    /\ (30 <= RetirementPlanResponse.retirement_age r <= 90)%Z
    /\ RetirementPlanResponse.years_until_retirement r
       = (RetirementPlanResponse.retirement_age r - 30)%Z
    /\ RetirementPlanResponse.retirement_income r
       == RetirementPlanResponse.government_benefits r
          + RetirementPlanResponse.savings_income r.
Proof.
  destruct (PlanProperties.plan_returns_up_to_ceiling default_settings
              example_profile PlanProperties.default_settings_sane
              ltac:(simpl; lia)) as [r Hr].
  exists r. split; [exact Hr |].
  destruct (plan_result_is_coherent default_settings example_profile r
              PlanProperties.default_settings_sane Hr)
    as [Hage [_ [Hyears [_ [_ [Hsum _]]]]]].
  split; [exact Hage |]. split; [exact Hyears | exact Hsum].
Defined.

(** X7.  As the code stands, the savings gap of a returned plan is zero
    for every profile whose cash and investments are not negative, whether
    a feasible age was found or not. *)
Theorem plan_gap_is_zero (s : Settings) (u : UserData.t)
    (r : RetirementPlanResponse.t) :
  sane_settings s ->
  0 <= UserData.cash_holdings u
       + (UserData.rrsp_savings u + UserData.tfsa_savings u
          + UserData.investment_holdings u) ->
  calculate_current_retirement_plan s u = Ok r ->
  RetirementPlanResponse.savings_gap r == 0.
Proof.
  intros Hsane Hpos Hr.
  destruct (PlanProperties.plan_cases s u Hsane)
    as [[_ E] | [[_ [_ [r' K]]] | [a [c [r' K]]]]].
  - rewrite E in Hr. discriminate Hr.
  - destruct K as [E [_ [_ [_ Hgap]]]].
    rewrite E in Hr. injection Hr as <-.
    rewrite Hgap. apply max_zero_of_nonpos.
    change (current_cash (plan_inputs s u)) with (UserData.cash_holdings u).
    change (current_investments (plan_inputs s u))
      with (UserData.rrsp_savings u + UserData.tfsa_savings u
            + UserData.investment_holdings u).
    lra.
  - destruct K as [_ [_ [_ [Hle [E [_ [_ [_ Hgap]]]]]]]].
    rewrite E in Hr. injection Hr as <-.
    rewrite Hgap. apply max_zero_of_nonpos. lra.
Qed.

Lemma plan_gap_is_zero_witness :
  exists r,
    calculate_current_retirement_plan default_settings example_profile = Ok r
    /\ RetirementPlanResponse.savings_gap r == 0.
Proof.
  destruct (PlanProperties.plan_returns_up_to_ceiling default_settings
              example_profile PlanProperties.default_settings_sane
              ltac:(simpl; lia)) as [r Hr].
  exists r. split; [exact Hr |].
  apply (plan_gap_is_zero default_settings example_profile r).
  - split; intros H; discriminate H.
  - vm_compute. intros H; discriminate H.
  - exact Hr.
Defined.

(** *** Comparing two profiles *)

(** When every age that is feasible for one profile is feasible for
    another of the same age, the other does not retire later. *)
Lemma not_later_when_feasibility_carries (s : Settings) (u1 u2 : UserData.t)
    (r1 r2 : RetirementPlanResponse.t) :
  sane_settings s ->
  UserData.age u1 = UserData.age u2 ->
  (forall a, feasible (plan_inputs s u1) a = true ->
             feasible (plan_inputs s u2) a = true) ->
  calculate_current_retirement_plan s u1 = Ok r1 ->
  calculate_current_retirement_plan s u2 = Ok r2 ->
  (RetirementPlanResponse.retirement_age r2
   <= RetirementPlanResponse.retirement_age r1)%Z.
Proof.
  intros Hsane Hage Hcarry H1 H2.
  destruct (PlanProperties.plan_cases s u1 Hsane)
    as [[_ E1] | [[_ [_ [r1' K1]]] | [a1 [c1 [r1' K1]]]]].
  - rewrite E1 in H1. discriminate H1.
  - destruct K1 as [E1 [Hage1 _]].
    rewrite E1 in H1. injection H1 as <-.
    destruct (PlanProperties.plan_cases s u2 Hsane)
      as [[_ E2] | [[_ [_ [r2' K2]]] | [a2 [c2 [r2' K2]]]]].
    + rewrite E2 in H2. discriminate H2.
    + destruct K2 as [E2 [Hage2 _]].
      rewrite E2 in H2. injection H2 as <-. lia.
    + destruct K2 as [Ha2 [_ [_ [_ [E2 [Hage2 _]]]]]].
      rewrite E2 in H2. injection H2 as <-. lia.
  - destruct K1 as [Ha1 [_ [Hc1 [Hle1 [E1 [Hage1 _]]]]]].
    rewrite E1 in H1. injection H1 as <-.
    assert (Hf1 : feasible (plan_inputs s u1) a1 = true).
    { unfold feasible.
      change (current_age (plan_inputs s u1)) with (UserData.age u1).
      rewrite Hc1. apply ge_true_iff, Hle1. }
    assert (Hf2 := Hcarry a1 Hf1).
    destruct (PlanProperties.plan_cases s u2 Hsane)
      as [[_ E2] | [[_ [Hall2 _]] | [a2 [c2 [r2' K2]]]]].
    + rewrite E2 in H2. discriminate H2.
    + rewrite (Hall2 a1 ltac:(lia)) in Hf2. discriminate Hf2.
    + destruct K2 as [Ha2 [Hmin2 [_ [_ [E2 [Hage2 _]]]]]].
      rewrite E2 in H2. injection H2 as <-.
      destruct (Z_le_gt_dec a2 a1) as [Hle | Hgt]; [lia |].
      rewrite (Hmin2 a1 ltac:(lia)) in Hf2. discriminate Hf2.
Qed.

Lemma future_value_mono (c1 c2 r : Q) (y : Z) :
  0 <= 1 + r -> c1 <= c2 -> future_value c1 r y <= future_value c2 r y.
Proof.
  intros Hr Hc. unfold future_value. destruct (y <=? 0)%Z; [exact Hc |].
  apply Qmult_le_compat_r; [exact Hc |]. apply Qpower_0_le, Hr.
Qed.

(** X8.  A more modest desired lifestyle never delays retirement: if the
    lifestyle factor of one choice is not larger than that of another, and
    expenses are not negative, the plan with the first choice does not
    retire later. *)
Theorem modest_lifestyle_never_later (s : Settings) (u : UserData.t)
    (l1 l2 : option (option string)) (r1 r2 : RetirementPlanResponse.t) :
  sane_settings s ->
  0 < WITHDRAWAL_RATE s ->
  0 <= 1 + ANNUAL_INFLATION_RATE s / 100 ->
  0 <= UserData.monthly_expenses u ->
  lifestyle_factor (plan_inputs s (with_lifestyle l1 u))
    <= lifestyle_factor (plan_inputs s (with_lifestyle l2 u)) ->
  calculate_current_retirement_plan s (with_lifestyle l1 u) = Ok r1 ->
  calculate_current_retirement_plan s (with_lifestyle l2 u) = Ok r2 ->
  (RetirementPlanResponse.retirement_age r1
   <= RetirementPlanResponse.retirement_age r2)%Z.
Proof.
  intros Hsane Hwr Hinfl Hexp Hfac H1 H2.
  apply (not_later_when_feasibility_carries s (with_lifestyle l2 u)
           (with_lifestyle l1 u) r2 r1 Hsane); try assumption; [reflexivity |].
  intros a. unfold feasible.
  destruct Hsane as [Hinf Hwd].
  rewrite (PlanProperties.evaluate_candidate_eq
             (plan_inputs s (with_lifestyle l2 u)) Hinf Hwd).
  rewrite (PlanProperties.evaluate_candidate_eq
             (plan_inputs s (with_lifestyle l1 u)) Hinf Hwd).
  cbn [total_projected_assets required_savings].
  rewrite !ge_true_iff. intros H.
  eapply Qle_trans; [| exact H].
  apply Qdiv_le_compat_r; [exact Hwr |].
  apply Qmult_le_l_nonneg; [| exact Hfac].
  assert (Hp := Qpower_0_le (1 + ANNUAL_INFLATION_RATE s / 100)
                  (a - UserData.age u) Hinfl).
  apply Qmult_le_0_compat; [| exact Hp].
  apply Qmult_le_0_compat; [exact Hexp | discriminate].
Qed.


Lemma modest_lifestyle_never_later_witness :
  exists r1 r2,
    calculate_current_retirement_plan default_settings
      (with_lifestyle (Some (Some "frugal"%string)) example_profile) = Ok r1
    /\ calculate_current_retirement_plan default_settings
         (with_lifestyle (Some (Some "lavish"%string)) example_profile) = Ok r2
    /\ (RetirementPlanResponse.retirement_age r1
        <= RetirementPlanResponse.retirement_age r2)%Z.
Proof.
  destruct (PlanProperties.plan_returns_up_to_ceiling default_settings
              (with_lifestyle (Some (Some "frugal"%string)) example_profile)
              PlanProperties.default_settings_sane ltac:(simpl; lia))
    as [r1 Hr1].
  destruct (PlanProperties.plan_returns_up_to_ceiling default_settings
              (with_lifestyle (Some (Some "lavish"%string)) example_profile)
              PlanProperties.default_settings_sane ltac:(simpl; lia))
    as [r2 Hr2].
  exists r1, r2. split; [exact Hr1 |]. split; [exact Hr2 |].
  apply (modest_lifestyle_never_later default_settings example_profile
           (Some (Some "frugal"%string)) (Some (Some "lavish"%string)) r1 r2).
  - split; intros H; discriminate H.
  - reflexivity.
  - vm_compute. intros H; discriminate H.
  - vm_compute. intros H; discriminate H.
  - vm_compute. intros H; discriminate H.
  - exact Hr1.
  - exact Hr2.
Defined.

(** X9.  Larger holdings never delay retirement: with more cash and a
    larger sum of RRSP, TFSA and investment holdings, everything else
    equal, the plan does not retire later. *)
Theorem more_assets_never_later (s : Settings) (u : UserData.t)
    (cash investments rrsp tfsa : Q) (r1 r2 : RetirementPlanResponse.t) :
  sane_settings s ->
  0 <= 1 + ANNUAL_INFLATION_RATE s / 100 ->
  0 <= 1 + EXPECTED_ANNUAL_INVESTMENT_RETURN s / 100 ->
  UserData.cash_holdings u <= cash ->
  UserData.rrsp_savings u + UserData.tfsa_savings u
  + UserData.investment_holdings u <= rrsp + tfsa + investments ->
  calculate_current_retirement_plan s u = Ok r1 ->
  calculate_current_retirement_plan s (with_assets cash investments rrsp tfsa u)
  = Ok r2 ->
  (RetirementPlanResponse.retirement_age r2
   <= RetirementPlanResponse.retirement_age r1)%Z.
Proof.
  intros Hsane Hinfl Hret Hcash Hinv H1 H2.
  apply (not_later_when_feasibility_carries s u
           (with_assets cash investments rrsp tfsa u) r1 r2 Hsane);
    try assumption; [reflexivity |].
  intros a. unfold feasible.
  destruct Hsane as [Hinf Hwd].
  rewrite (PlanProperties.evaluate_candidate_eq (plan_inputs s u) Hinf Hwd).
  rewrite (PlanProperties.evaluate_candidate_eq
             (plan_inputs s (with_assets cash investments rrsp tfsa u))
             Hinf Hwd).
  cbn [total_projected_assets required_savings].
  rewrite !ge_true_iff. intros H.
  eapply Qle_trans; [exact H |].
  apply Qplus_le_compat.
  - apply future_value_mono; [exact Hinfl | exact Hcash].
  - apply PlanProperties.future_savings_mono;
      [exact Hret | apply Qle_refl | exact Hinv].
Qed.

Lemma more_assets_never_later_witness :
  exists r1 r2,
    calculate_current_retirement_plan default_settings example_profile = Ok r1
    /\ calculate_current_retirement_plan default_settings
         (with_assets 50000 20000 5000 5000 example_profile) = Ok r2
    /\ (RetirementPlanResponse.retirement_age r2
        <= RetirementPlanResponse.retirement_age r1)%Z.
Proof.
  destruct (PlanProperties.plan_returns_up_to_ceiling default_settings
              example_profile
              PlanProperties.default_settings_sane ltac:(simpl; lia))
    as [r1 Hr1].
  destruct (PlanProperties.plan_returns_up_to_ceiling default_settings
              (with_assets 50000 20000 5000 5000 example_profile)
              PlanProperties.default_settings_sane ltac:(simpl; lia))
    as [r2 Hr2].
  exists r1, r2. split; [exact Hr1 |]. split; [exact Hr2 |].
  apply (more_assets_never_later default_settings example_profile
           50000 20000 5000 5000 r1 r2).
  - split; intros H; discriminate H.
  - vm_compute. intros H; discriminate H.
  - vm_compute. intros H; discriminate H.
  - vm_compute. intros H; discriminate H.
  - vm_compute. intros H; discriminate H.
  - exact Hr1.
  - exact Hr2.
Defined.

(** *** The plan endpoint *)




End PlanShape.

(** ** More on the what-if calculation *)

Module WhatIfShape.

Import RetirementFunctions.

(** The balance after [k] passes of the projection loop. *)
Lemma projection_fold (cy : Z) (rr ac : Q) (n : nat) :
  forall (s : nat) (p : Q) (acc : list YearAmount),
    fold_left (project_year cy rr ac) (map Z.of_nat (seq s n)) (p, acc)
    = (Nat.iter n (fun v => v + v * rr + ac) p,
       acc ++ map (fun k =>
                     {| year := (cy + Z.of_nat (s + k))%Z;
                        amount := Nat.iter k (fun v => v + v * rr + ac) p |})
                (seq 0 n)).
Proof.
  set (step := fun v => v + v * rr + ac).
  induction n as [|n IH]; intros s p acc.
  - cbn. rewrite app_nil_r. reflexivity.
  - cbn [seq map fold_left project_year]. rewrite IH.
    change (p + p * rr + ac) with (step p).
    rewrite <- Nat.iter_succ_r. f_equal.
    rewrite <- app_assoc. f_equal. cbn [app]. f_equal.
    + f_equal. lia.
    + rewrite <- seq_shift, map_map. apply map_ext. intros k.
      rewrite Nat.iter_succ_r. f_equal. lia.
Qed.

(** The projection, entry by entry. *)
Lemma project_savings_shape (er ir : Q) (sc : RetirementWhatIfRequest.t)
    (p : Projection) :
  project_savings er ir sc = Ok p ->
  let years := (RetirementWhatIfRequest.retirement_age sc
                - RetirementWhatIfRequest.current_age sc)%Z in
  let step := fun v =>
    v + v * real_return_rate p
    + RetirementWhatIfRequest.monthly_contribution sc * 12 in
  real_return_rate p = (1 + er) / (1 + ir) - 1
  /\ projected_savings p
     = Nat.iter (Z.to_nat years) step
         (RetirementWhatIfRequest.current_savings sc)
  /\ savings_by_year p
     = map (fun k =>
              {| year := (2023 + Z.of_nat k)%Z;
                 amount := Nat.iter k step
                             (RetirementWhatIfRequest.current_savings sc) |})
         (seq 0 (Z.to_nat years))
       ++ [ {| year := (2023 + years)%Z;
               amount := projected_savings p |} ].
Proof.
  unfold project_savings. intros H.
  destruct (dec_div (1 + er) (1 + ir)) as [ratio|e] eqn:Hd; [| discriminate H].
  cbn [Py.bind] in H. unfold Py.range in H. rewrite projection_fold in H.
  injection H as <-. cbn [real_return_rate projected_savings savings_by_year].
  unfold dec_div in Hd.
  destruct (Qeq_dec (1 + ir) 0); [destruct (Qeq_dec (1 + er) 0); discriminate |].
  injection Hd as <-.
  repeat split.
Qed.


Lemma dec_div_inv (a b q : Q) : dec_div a b = Ok q -> ~ b == 0 /\ q = a / b.
Proof.
  unfold dec_div. destruct (Qeq_dec b 0) as [Hb | Hb].
  - destruct (Qeq_dec a 0); discriminate.
  - intros H. injection H as <-. split; [exact Hb | reflexivity].
Qed.

(** What a returned result is made of. *)
Lemma what_if_with_rates_parts (er ir : Q) (sc : RetirementWhatIfRequest.t)
    (r : RetirementWhatIfResponse.t) :
  what_if_with_rates er ir sc = Ok r ->
  exists p extra,
    project_savings er ir sc = Ok p
    /\ RetirementWhatIfResponse.total_savings_at_retirement r
       = projected_savings p
    /\ RetirementWhatIfResponse.savings_by_year r = savings_by_year p
    /\ RetirementWhatIfResponse.monthly_contribution_needed r
       = RetirementWhatIfRequest.monthly_contribution sc + extra
    /\ (let years := (RetirementWhatIfRequest.retirement_age sc
                      - RetirementWhatIfRequest.current_age sc)%Z in
        let gap :=
          RetirementWhatIfRequest.desired_retirement_income sc / 12
          - (breakdown_savings_income
               (retirement_income (projected_savings p) sc)
             + breakdown_government_benefits
                 (retirement_income (projected_savings p) sc)) in
        (if Py.gt gap 0 then
           if Py.gt (real_return_rate p) 0 then
             factor <-
               dec_div ((1 + real_return_rate p) ^ years - 1)
                 (real_return_rate p) ;;
             dec_div (gap * 12 / withdrawal_rate_4pct) (12 * factor)
           else
             dec_div (gap * 12 / withdrawal_rate_4pct) (12 * inject_Z years)
         else Ok 0) = Ok extra).
Proof.
  unfold what_if_with_rates. intros H.
  destruct (project_savings er ir sc) as [p|e]; [| discriminate H].
  cbn [Py.bind] in H. cbv zeta in H.
  match type of H with
  | Py.bind ?c _ = _ => destruct c as [extra|e] eqn:Hextra; [| discriminate H]
  end.
  cbn [Py.bind] in H. injection H as <-.
  exists p, extra. repeat split. exact Hextra.
Qed.

(** The extra contribution is never negative when the retirement age is
    not below the current age. *)
Lemma extra_contribution_nonneg (gap rr extra : Q) (years : Z) :
  (0 <= years)%Z ->
  (if Py.gt gap 0 then
     if Py.gt rr 0 then
       factor <- dec_div ((1 + rr) ^ years - 1) rr ;;
       dec_div (gap * 12 / withdrawal_rate_4pct) (12 * factor)
     else dec_div (gap * 12 / withdrawal_rate_4pct) (12 * inject_Z years)
   else Ok 0) = Ok extra ->
  0 <= extra /\ (gap <= 0 -> extra = 0) /\ (0 < gap -> 0 < extra).
Proof.
  intros Hyears H.
  destruct (Py.gt gap 0) eqn:Hgap.
  2: { injection H as <-. apply gt_false_iff in Hgap.
       split; [lra |]. split; [reflexivity | lra]. }
  apply gt_true_iff in Hgap.
  assert (Hadd : 0 < gap * 12 / withdrawal_rate_4pct)
    by (rewrite WhatIfProperties.div_withdrawal_rate; lra).
  assert (Hpos : 0 < extra).
  { destruct (Py.gt rr 0) eqn:Hrr.
    - apply gt_true_iff in Hrr.
      rewrite (dec_div_ok _ rr) in H by lra. cbn [Py.bind] in H.
      apply dec_div_inv in H. destruct H as [Hden ->].
      destruct (Z.eq_dec years 0) as [-> | Hne].
      + exfalso. apply Hden. change ((1 + rr) ^ 0) with 1.
        unfold Qdiv. ring.
      + assert (Hpow : 1 < (1 + rr) ^ years)
          by (apply Qpower_1_lt; [lra | lia]).
        assert (Hf : 0 < ((1 + rr) ^ years - 1) / rr)
          by (apply Qlt_shift_div_l; lra).
        apply Qlt_shift_div_l; lra.
    - apply dec_div_inv in H. destruct H as [Hden ->].
      assert (Hy : 0 < inject_Z years).
      { apply WhatIfProperties.inject_Z_pos.
        destruct (Z.eq_dec years 0) as [-> | Hne]; [| lia].
        exfalso. apply Hden. reflexivity. }
      apply Qlt_shift_div_l; lra. }
  split; [lra |]. split; [lra | intros _; exact Hpos].
Qed.

(** X12.  When the retirement age is not below the current age, the
    monthly contribution that a returned result asks for is never below
    the current one: it is larger when there is an income gap and equal
    when there is none. *)
Theorem contribution_needed_not_below_current
    (sc : RetirementWhatIfRequest.t) (r : RetirementWhatIfResponse.t) :
  (RetirementWhatIfRequest.current_age sc
   <= RetirementWhatIfRequest.retirement_age sc)%Z ->
  calculate_retirement_what_if sc = Ok r ->
  RetirementWhatIfRequest.monthly_contribution sc
    <= RetirementWhatIfResponse.monthly_contribution_needed r
  /\ (0 < RetirementWhatIfResponse.savings_gap r ->
      RetirementWhatIfRequest.monthly_contribution sc
      < RetirementWhatIfResponse.monthly_contribution_needed r)
  /\ (RetirementWhatIfResponse.savings_gap r <= 0 ->
      RetirementWhatIfResponse.monthly_contribution_needed r
      == RetirementWhatIfRequest.monthly_contribution sc).
Proof.
  intros Hage Hr.
  apply WhatIfProperties.calculate_retirement_what_if_inv in Hr.
  destruct (WhatIfProperties.what_if_with_rates_inv _ _ _ _ Hr)
    as [p0 [Hp0 [_ [_ [Hinc Hgap]]]]].
  destruct (what_if_with_rates_parts _ _ _ _ Hr)
    as [p [extra [Hp [_ [_ [Hneeded Hextra]]]]]].
  rewrite Hp0 in Hp. injection Hp as <-.
  cbv zeta in Hextra.
  destruct (extra_contribution_nonneg _ _ _
              (RetirementWhatIfRequest.retirement_age sc
               - RetirementWhatIfRequest.current_age sc)
              ltac:(lia) Hextra)
    as [Hnn [Hzero Hpos]].
  rewrite Hgap, Hinc, Hneeded.
  split; [lra |]. split.
  - intros H. assert (H' := Hpos H). lra.
  - intros H. rewrite (Hzero H). ring.
Qed.

Lemma contribution_needed_not_below_current_witness :
  exists r,
    calculate_retirement_what_if scenario_with_surplus = Ok r
    /\ 500 <= RetirementWhatIfResponse.monthly_contribution_needed r.
Proof.
  destruct (WhatIfProperties.what_if_with_rates_ok
              (fst (processed_rates scenario_with_surplus))
              (snd (processed_rates scenario_with_surplus))
              scenario_with_surplus
              ltac:(intros H; discriminate H) ltac:(simpl; lia)) as [r Hr].
  assert (Hcalc : calculate_retirement_what_if scenario_with_surplus = Ok r)
    by (rewrite WhatIfProperties.calculate_retirement_what_if_eq, Hr;
        reflexivity).
  exists r. split; [exact Hcalc |].
  apply (contribution_needed_not_below_current scenario_with_surplus r);
    [simpl; lia | exact Hcalc].
Defined.


(** With a retirement age below or above the current age the body
    returns. *)
Lemma what_if_with_rates_ok_nonzero (er ir : Q)
    (sc : RetirementWhatIfRequest.t) :
  ~ 1 + ir == 0 ->
  RetirementWhatIfRequest.retirement_age sc
  <> RetirementWhatIfRequest.current_age sc ->
  exists r, what_if_with_rates er ir sc = Ok r.
Proof.
  intros Hir Hne.
  destruct (Z_lt_ge_dec (RetirementWhatIfRequest.current_age sc)
              (RetirementWhatIfRequest.retirement_age sc)) as [Hlt | Hge].
  { apply WhatIfProperties.what_if_with_rates_ok; assumption. }
  destruct (WhatIfProperties.project_savings_ok er ir sc Hir) as [p [Hp _]].
  unfold what_if_with_rates. rewrite Hp. cbn [Py.bind]. cbv zeta.
  match goal with
  | |- context [Py.gt ?g 0] => destruct (Py.gt g 0)
  end; [| eexists; reflexivity].
  set (years := (RetirementWhatIfRequest.retirement_age sc
                 - RetirementWhatIfRequest.current_age sc)%Z).
  assert (Hyears : (years < 0)%Z) by (unfold years; lia).
  destruct (Py.gt (real_return_rate p) 0) eqn:Hgt.
  - apply gt_true_iff in Hgt.
    rewrite (dec_div_ok _ (real_return_rate p)) by lra.
    cbn [Py.bind].
    rewrite dec_div_ok; [eexists; reflexivity |].
    assert (Hpow : 1 < (1 + real_return_rate p) ^ (- years))
      by (apply Qpower_1_lt; [lra | lia]).
    assert (Hinv : (1 + real_return_rate p) ^ years
                   == / (1 + real_return_rate p) ^ (- years)).
    { rewrite <- Qpower_opp. rewrite Z.opp_involutive. reflexivity. }
    assert (Hlt1 : (1 + real_return_rate p) ^ years < 1).
    { rewrite Hinv.
      apply Qlt_shift_inv_r; lra. }
    assert (Hi : 0 < / real_return_rate p)
      by (apply Qinv_lt_0_compat; exact Hgt).
    assert (Hf := Qmult_lt_compat_r
                    ((1 + real_return_rate p) ^ years - 1) 0
                    (/ real_return_rate p) Hi ltac:(lra)).
    unfold Qdiv. lra.
  - rewrite dec_div_ok; [eexists; reflexivity |].
    assert (Hy : inject_Z years < 0).
    { change 0 with (inject_Z 0). rewrite <- Zlt_Qlt. exact Hyears. }
    lra.
Qed.

(** X11.  The what-if function returns exactly when the raw inflation
    rate is not -1 and either the retirement age differs from the current
    age or the current savings already cover the desired income; in every
    other case it raises [HTTPException(400)], and it raises nothing
    else. *)
Theorem what_if_returns_exactly_when (sc : RetirementWhatIfRequest.t) :
  ((exists r, calculate_retirement_what_if sc = Ok r)
   <-> (~ RetirementWhatIfRequest.inflation_rate sc == -1
        /\ (RetirementWhatIfRequest.retirement_age sc
            <> RetirementWhatIfRequest.current_age sc
            \/ RetirementWhatIfRequest.desired_retirement_income sc / 12
               - (breakdown_savings_income
                    (retirement_income
                       (RetirementWhatIfRequest.current_savings sc) sc)
                  + breakdown_government_benefits
                      (retirement_income
                         (RetirementWhatIfRequest.current_savings sc) sc))
               <= 0)))
  /\ (forall e, calculate_retirement_what_if sc = Raise e ->
                exists cause, e = HTTPException 400 cause).
Proof.
  split.
  2: { intros e. rewrite WhatIfProperties.calculate_retirement_what_if_eq.
       unfold try_except.
       destruct (what_if_with_rates _ _ sc) as [r|cause]; [discriminate |].
       intros H. injection H as <-. exists cause. reflexivity. }
  split.
  - intros [r Hr].
    destruct (Qeq_dec (RetirementWhatIfRequest.inflation_rate sc) (-1))
      as [Hinf | Hinf].
    + exfalso.
      apply WhatIfProperties.calculate_retirement_what_if_inv in Hr.
      apply WhatIfProperties.what_if_with_rates_inv in Hr.
      destruct Hr as [p [Hp _]].
      unfold project_savings in Hp.
      assert (Hsnd : snd (processed_rates sc)
                     = RetirementWhatIfRequest.inflation_rate sc).
      { unfold processed_rates. cbn [snd].
        assert (Hle : Py.gt (RetirementWhatIfRequest.inflation_rate sc) 1
                      = false) by (apply gt_false_iff; lra).
        rewrite Hle. reflexivity. }
      rewrite Hsnd in Hp. unfold dec_div in Hp.
      destruct (Qeq_dec (1 + RetirementWhatIfRequest.inflation_rate sc) 0)
        as [_ | Hne]; [| apply Hne; lra].
      destruct (Qeq_dec (1 + fst (processed_rates sc)) 0); discriminate Hp.
    + split; [exact Hinf |].
      destruct (Z.eq_dec (RetirementWhatIfRequest.retirement_age sc)
                  (RetirementWhatIfRequest.current_age sc)) as [Heq | Hne];
        [| left; exact Hne].
      right.
      match goal with
      | |- ?g <= 0 => destruct (Qlt_le_dec 0 g) as [Hgap | Hgap]
      end; [| exact Hgap].
      exfalso.
      rewrite WhatIfProperties.calculate_retirement_what_if_eq in Hr.
      rewrite (WhatIfProperties.what_if_with_rates_no_years _ _ sc Heq
                 (WhatIfProperties.processed_inflation_ok sc Hinf) Hgap) in Hr.
      discriminate Hr.
  - intros [Hinf Hcase].
    assert (Hir := WhatIfProperties.processed_inflation_ok sc Hinf).
    rewrite WhatIfProperties.calculate_retirement_what_if_eq.
    assert (Hbody : exists r,
               what_if_with_rates (fst (processed_rates sc))
                 (snd (processed_rates sc)) sc = Ok r).
    { destruct (Z.eq_dec (RetirementWhatIfRequest.retirement_age sc)
                  (RetirementWhatIfRequest.current_age sc)) as [Heq | Hne].
      - destruct Hcase as [Hne | Hgap]; [contradiction |].
        destruct (WhatIfProperties.project_savings_no_years
                    (fst (processed_rates sc)) (snd (processed_rates sc))
                    sc Heq Hir) as [p [Hp [_ Hps]]].
        apply (WhatIfProperties.what_if_with_rates_no_gap _ _ sc p Hp).
        rewrite Hps. exact Hgap.
      - apply what_if_with_rates_ok_nonzero; assumption. }
    destruct Hbody as [r Hr]. rewrite Hr. exists r. reflexivity.
Qed.

Lemma what_if_returns_exactly_when_witness :
  (exists r, calculate_retirement_what_if example_scenario = Ok r)
  /\ ~ (exists r,
          calculate_retirement_what_if (scenario_retiring_now 100000) = Ok r).
Proof.
  split.
  - apply (proj1 (what_if_returns_exactly_when example_scenario)).
    split; [intros H; discriminate H | left; discriminate].
  - intros Hex.
    apply (proj1 (what_if_returns_exactly_when (scenario_retiring_now 100000)))
      in Hex.
    destruct Hex as [_ [Hne | Hgap]].
    + apply Hne. reflexivity.
    + vm_compute in Hgap. apply Hgap. reflexivity.
Defined.


(** The projection loop computes the recurrence of
    [calculate_future_savings]. *)
Lemma projection_is_future_savings (p ac rr : Q) (k : nat) :
  Nat.iter k (fun v => v + v * rr + ac) p
  == Nat.iter k (fun projected => projected * (1 + rr) + ac) p.
Proof.
  induction k as [|k IH].
  - reflexivity.
  - rewrite !Nat.iter_succ. rewrite IH. ring.
Qed.

Lemma projection_without_growth (p ac rr : Q) (k : nat) :
  rr == 0 ->
  Nat.iter k (fun v => v + v * rr + ac) p == p + inject_Z (Z.of_nat k) * ac.
Proof.
  intros Hrr. induction k as [|k IH].
  - cbn. ring.
  - rewrite Nat.iter_succ, IH, Hrr, Nat2Z.inj_succ. unfold Z.succ.
    rewrite inject_Z_plus. ring.
Qed.

(** X13.  For a retirement age not below the current age, the
    [savings_by_year] list of a result runs over the consecutive years from
    2023; its first entry holds the current savings, its last entry holds
    [total_savings_at_retirement], and that total is what
    [calculate_future_savings] gives for the annual contribution at the
    real return rate. *)
Theorem savings_by_year_trajectory (sc : RetirementWhatIfRequest.t)
    (r : RetirementWhatIfResponse.t) :
  (RetirementWhatIfRequest.current_age sc
   <= RetirementWhatIfRequest.retirement_age sc)%Z ->
  calculate_retirement_what_if sc = Ok r ->
  let years := (RetirementWhatIfRequest.retirement_age sc
                - RetirementWhatIfRequest.current_age sc)%Z in
  map year (RetirementWhatIfResponse.savings_by_year r)
  = map (fun k => (2023 + Z.of_nat k)%Z) (seq 0 (Z.to_nat years + 1))
  /\ option_map amount
       (nth_error (RetirementWhatIfResponse.savings_by_year r) 0)
     = Some (RetirementWhatIfRequest.current_savings sc)
  /\ nth_error (RetirementWhatIfResponse.savings_by_year r) (Z.to_nat years)
     = Some {| year := (2023 + years)%Z;
               amount :=
                 RetirementWhatIfResponse.total_savings_at_retirement r |}
  /\ RetirementWhatIfResponse.total_savings_at_retirement r
     == calculate_future_savings
          (RetirementWhatIfRequest.current_savings sc)
          (RetirementWhatIfRequest.monthly_contribution sc * 12)
          ((1 + fst (processed_rates sc)) / (1 + snd (processed_rates sc)) - 1)
          years.
Proof.
  intros Hage Hr years.
  apply WhatIfProperties.calculate_retirement_what_if_inv in Hr.
  destruct (what_if_with_rates_parts _ _ _ _ Hr)
    as [p [extra [Hp [Htotal [Hsby _]]]]].
  destruct (project_savings_shape _ _ _ _ Hp) as [Hrr [Hproj Hlist]].
  fold years in Hproj, Hlist.
  rewrite Hsby, Htotal, Hlist.
  split; [| split; [| split]].
  - rewrite map_app, map_map. cbn [map year].
    rewrite Nat.add_1_r, seq_S, map_app. cbn [map Nat.add].
    f_equal. f_equal. f_equal. lia.
  - destruct (Z.to_nat years) as [|n] eqn:Hn.
    + rewrite Hproj. reflexivity.
    + reflexivity.
  - rewrite nth_error_app2 by (rewrite length_map, length_seq; lia).
    rewrite length_map, length_seq, Nat.sub_diag. reflexivity.
  - rewrite Hproj, projection_is_future_savings, Hrr.
    rewrite GrowthProperties.future_savings_as_iteration. reflexivity.
Qed.

Lemma savings_by_year_trajectory_witness :
  exists r,
    calculate_retirement_what_if scenario_with_surplus = Ok r
    /\ map year (RetirementWhatIfResponse.savings_by_year r)
       = [2023%Z; 2024%Z]
    /\ option_map amount
         (nth_error (RetirementWhatIfResponse.savings_by_year r) 0)
       = Some 3000000.
Proof.
  destruct (WhatIfProperties.what_if_with_rates_ok
              (fst (processed_rates scenario_with_surplus))
              (snd (processed_rates scenario_with_surplus))
              scenario_with_surplus
              ltac:(intros H; discriminate H) ltac:(simpl; lia)) as [r Hr].
  assert (Hcalc : calculate_retirement_what_if scenario_with_surplus = Ok r)
    by (rewrite WhatIfProperties.calculate_retirement_what_if_eq, Hr;
        reflexivity).
  exists r. split; [exact Hcalc |].
  destruct (savings_by_year_trajectory scenario_with_surplus r
              ltac:(simpl; lia) Hcalc) as [Hyears [Hfirst _]].
  split; [exact Hyears | exact Hfirst].
Defined.

(** X14.  When the expected return equals the inflation rate there is no
    real growth: the total at retirement is the current savings plus the
    contributions of the years, twelve a year. *)
Theorem equal_rates_give_no_growth (sc : RetirementWhatIfRequest.t)
    (r : RetirementWhatIfResponse.t) :
  (RetirementWhatIfRequest.current_age sc
   <= RetirementWhatIfRequest.retirement_age sc)%Z ->
  RetirementWhatIfRequest.expected_return_rate sc
  == RetirementWhatIfRequest.inflation_rate sc ->
  calculate_retirement_what_if sc = Ok r ->
  RetirementWhatIfResponse.total_savings_at_retirement r
  == RetirementWhatIfRequest.current_savings sc
     + inject_Z (RetirementWhatIfRequest.retirement_age sc
                 - RetirementWhatIfRequest.current_age sc)
       * (RetirementWhatIfRequest.monthly_contribution sc * 12).
Proof.
  intros Hage Hrates Hr.
  apply WhatIfProperties.calculate_retirement_what_if_inv in Hr.
  destruct (what_if_with_rates_parts _ _ _ _ Hr)
    as [p [extra [Hp [Htotal _]]]].
  destruct (project_savings_shape _ _ _ _ Hp) as [Hrr [Hproj _]].
  assert (Hden : ~ 1 + snd (processed_rates sc) == 0).
  { unfold project_savings in Hp.
    destruct (dec_div (1 + fst (processed_rates sc))
                (1 + snd (processed_rates sc))) as [q|e] eqn:Hd;
      [| discriminate Hp].
    apply dec_div_inv in Hd. exact (proj1 Hd). }
  assert (Hsame : fst (processed_rates sc) == snd (processed_rates sc)).
  { unfold processed_rates, Py.gt. cbn [fst snd].
    destruct (Qlt_le_dec 1 (RetirementWhatIfRequest.expected_return_rate sc));
      destruct (Qlt_le_dec 1 (RetirementWhatIfRequest.inflation_rate sc));
      try (exfalso; lra).
    - rewrite !WhatIfProperties.div_100. lra.
    - exact Hrates. }
  assert (Hzero : real_return_rate p == 0).
  { rewrite Hrr, Hsame. field. exact Hden. }
  rewrite Htotal, Hproj, (projection_without_growth _ _ _ _ Hzero).
  rewrite Z2Nat.id by lia. reflexivity.
Qed.

Lemma equal_rates_give_no_growth_witness :
  exists r,
    calculate_retirement_what_if
      (with_expected_return_rate 0.02 example_scenario) = Ok r
    /\ RetirementWhatIfResponse.total_savings_at_retirement r
       == 100000 + inject_Z (65 - 40) * (500 * 12).
Proof.
  destruct (WhatIfProperties.what_if_with_rates_ok
              (fst (processed_rates
                      (with_expected_return_rate 0.02 example_scenario)))
              (snd (processed_rates
                      (with_expected_return_rate 0.02 example_scenario)))
              (with_expected_return_rate 0.02 example_scenario)
              ltac:(intros H; discriminate H) ltac:(simpl; lia)) as [r Hr].
  assert (Hcalc : calculate_retirement_what_if
                    (with_expected_return_rate 0.02 example_scenario) = Ok r)
    by (rewrite WhatIfProperties.calculate_retirement_what_if_eq, Hr;
        reflexivity).
  exists r. split; [exact Hcalc |].
  apply (equal_rates_give_no_growth
           (with_expected_return_rate 0.02 example_scenario) r).
  - simpl. lia.
  - reflexivity.
  - exact Hcalc.
Defined.


(** *** The second implementation *)

Lemma utils_projection_fold (ca : Z) (er mc : Q) (n : nat) :
  forall (s : nat) (p : Q) (acc : list YearAmount),
    fold_left (UtilsCalculationFunctions.project_year ca er mc)
      (map Z.of_nat (seq s n)) (p, acc)
    = (Nat.iter n (fun v => v * (1 + er) + mc * 12) p,
       acc ++ map (fun k =>
                     {| year := (ca + Z.of_nat (s + k))%Z;
                        amount :=
                          Nat.iter k (fun v => v * (1 + er) + mc * 12) p |})
                (seq 0 n)).
Proof.
  set (step := fun v => v * (1 + er) + mc * 12).
  induction n as [|n IH]; intros s p acc.
  - cbn. rewrite app_nil_r. reflexivity.
  - cbn [seq map fold_left UtilsCalculationFunctions.project_year].
    rewrite IH.
    change (p * (1 + er) + mc * 12) with (step p).
    rewrite <- Nat.iter_succ_r. f_equal.
    rewrite <- app_assoc. f_equal. cbn [app]. f_equal.
    + f_equal. lia.
    + rewrite <- seq_shift, map_map. apply map_ext. intros k.
      rewrite Nat.iter_succ_r. f_equal. lia.
Qed.

Lemma utils_what_if_parts (sc : RetirementWhatIfRequest.t)
    (r : RetirementWhatIfResponse.t) :
  UtilsCalculationFunctions.calculate_retirement_what_if sc = Ok r ->
  let n := Z.to_nat (RetirementWhatIfRequest.retirement_age sc
                     - RetirementWhatIfRequest.current_age sc + 1) in
  let step := fun v =>
    v * (1 + RetirementWhatIfRequest.expected_return_rate sc)
    + RetirementWhatIfRequest.monthly_contribution sc * 12 in
  RetirementWhatIfResponse.total_savings_at_retirement r
  = Nat.iter n step (RetirementWhatIfRequest.current_savings sc)
  /\ RetirementWhatIfResponse.savings_by_year r
     = map (fun k =>
              {| year := (RetirementWhatIfRequest.current_age sc
                          + Z.of_nat k)%Z;
                 amount :=
                   Nat.iter k step
                     (RetirementWhatIfRequest.current_savings sc) |})
         (seq 0 n).
Proof.
  unfold UtilsCalculationFunctions.calculate_retirement_what_if. intros H.
  unfold Py.range in H. rewrite utils_projection_fold in H.
  cbv zeta in H.
  match type of H with
  | Py.bind ?c _ = _ => destruct c as [additional|e]; [| discriminate H]
  end.
  cbn [Py.bind] in H.
  match type of H with
  | Py.bind ?c _ = _ => destruct c as [needed|e]; [| discriminate H]
  end.
  cbn [Py.bind] in H. injection H as <-.
  split; reflexivity.
Qed.

(** X15.  In the second implementation the reported total runs one year
    past the retirement year: the last entry of [savings_by_year] is the
    retirement age with the savings after [years_until_retirement] years,
    and [total_savings_at_retirement] is that balance grown and topped up
    once more. *)
Theorem utils_total_is_one_year_past_the_last_entry
    (sc : RetirementWhatIfRequest.t) (r : RetirementWhatIfResponse.t) :
  (RetirementWhatIfRequest.current_age sc
   <= RetirementWhatIfRequest.retirement_age sc)%Z ->
  UtilsCalculationFunctions.calculate_retirement_what_if sc = Ok r ->
  let years := (RetirementWhatIfRequest.retirement_age sc
                - RetirementWhatIfRequest.current_age sc)%Z in
  let balance :=
    UtilsCalculationFunctions.calculate_future_savings_dec
      (RetirementWhatIfRequest.current_savings sc)
      (RetirementWhatIfRequest.monthly_contribution sc * 12)
      (RetirementWhatIfRequest.expected_return_rate sc) in
  nth_error (RetirementWhatIfResponse.savings_by_year r) (Z.to_nat years)
  = Some {| year := RetirementWhatIfRequest.retirement_age sc;
            amount := balance years |}
  /\ nth_error (RetirementWhatIfResponse.savings_by_year r)
       (Z.to_nat years + 1) = None
  /\ RetirementWhatIfResponse.total_savings_at_retirement r
     = balance (years + 1)%Z
  /\ RetirementWhatIfResponse.total_savings_at_retirement r
     = balance years
       * (1 + RetirementWhatIfRequest.expected_return_rate sc)
       + RetirementWhatIfRequest.monthly_contribution sc * 12.
Proof.
  intros Hage Hr years balance.
  destruct (utils_what_if_parts sc r Hr) as [Htotal Hsby].
  fold years in Htotal, Hsby.
  assert (Hbal : forall y,
            balance y
            = Nat.iter (Z.to_nat y)
                (fun v =>
                   v * (1 + RetirementWhatIfRequest.expected_return_rate sc)
                   + RetirementWhatIfRequest.monthly_contribution sc * 12)
                (RetirementWhatIfRequest.current_savings sc)).
  { intros y. unfold balance,
      UtilsCalculationFunctions.calculate_future_savings_dec.
    rewrite (GrowthProperties.fold_left_ignoring_index
               (fun v =>
                  v * (1 + RetirementWhatIfRequest.expected_return_rate sc)
                  + RetirementWhatIfRequest.monthly_contribution sc * 12)).
    rewrite range_length. reflexivity. }
  assert (Hn : Z.to_nat (years + 1) = S (Z.to_nat years)) by lia.
  rewrite Hsby, Htotal, !Hbal, Hn.
  split; [| split; [| split]].
  - rewrite seq_S, map_app, nth_error_app2
      by (rewrite length_map, length_seq; lia).
    rewrite length_map, length_seq, Nat.sub_diag. cbn [map nth_error Nat.add].
    f_equal. f_equal. unfold years. lia.
  - apply nth_error_None. rewrite length_map, length_seq. lia.
  - reflexivity.
  - rewrite Nat.iter_succ. reflexivity.
Qed.

Lemma utils_total_is_one_year_past_the_last_entry_witness :
  exists r,
    UtilsCalculationFunctions.calculate_retirement_what_if example_scenario
    = Ok r
    /\ RetirementWhatIfResponse.total_savings_at_retirement r
       = UtilsCalculationFunctions.calculate_future_savings_dec
           100000 (500 * 12) 0.06 (65 - 40 + 1).
Proof.
  destruct (WhatIfProperties.utils_what_if_ok example_scenario
              ltac:(intros H; discriminate H)
              ltac:(right; right; vm_compute; discriminate)) as [r [Hr _]].
  exists r. split; [exact Hr |].
  destruct (utils_total_is_one_year_past_the_last_entry example_scenario r
              ltac:(simpl; lia) Hr) as [_ [_ [Htotal _]]].
  exact Htotal.
Defined.




End WhatIfShape.

(** ** The other calculators of [utils_calculation_functions.py] *)

Module CalculatorProperties.

Import UtilsCalculationFunctions.

(** *** [calculate_retirement_age] *)

(** Where the accumulation loop stops: at the first year whose balance
    reaches the target, or at year 50. *)
Lemma accumulate_until_target_spec (annual r target : Q) (fuel : nat) :
  forall (p : Q) (y : Z),
    (0 <= y)%Z -> (y + Z.of_nat fuel = 50)%Z ->
    exists k : nat,
      accumulate_until_target annual r target fuel p y
      = (Nat.iter k (fun v => v * (1 + r) + annual) p, (y + Z.of_nat k)%Z)
      /\ (k <= fuel)%nat
      /\ (forall j, (j < k)%nat ->
                    Nat.iter j (fun v => v * (1 + r) + annual) p < target)
      /\ ((k < fuel)%nat ->
          target <= Nat.iter k (fun v => v * (1 + r) + annual) p).
Proof.
  set (step := fun v => v * (1 + r) + annual).
  induction fuel as [|fuel IH]; intros p y Hy Hsum.
  - exists O. cbn. rewrite Z.add_0_r.
    split; [reflexivity |]. split; [lia |]. split; intros; lia.
  - cbn [accumulate_until_target].
    assert (Hlt50 : ((y <? 50) = true)%Z) by (apply Z.ltb_lt; lia).
    rewrite Hlt50, andb_true_r.
    unfold Py.lt. destruct (Qlt_le_dec p target) as [Hlow | Hreached].
    + destruct (IH (p * (1 + r) + annual) (y + 1)%Z ltac:(lia) ltac:(lia))
        as [k [Hk [Hle [Hbelow Hdone]]]].
      exists (S k). rewrite Hk.
      change (p * (1 + r) + annual) with (step p) in *.
      rewrite <- Nat.iter_succ_r.
      split; [f_equal; lia |]. split; [lia |]. split.
      * intros j Hj. destruct j as [|j]; [exact Hlow |].
        rewrite Nat.iter_succ_r. apply Hbelow. lia.
      * intros Hlt. rewrite Nat.iter_succ_r. apply Hdone. lia.
    + exists O. rewrite Z.add_0_r.
      split; [reflexivity |]. split; [lia |]. split.
      * intros j Hj. lia.
      * intros _. exact Hreached.
Qed.

Lemma future_savings_float_as_iteration (p a r : Q) (years : Z) :
  calculate_future_savings_float p a r years
  = Nat.iter (Z.to_nat years) (fun v => v * (1 + r) + a) p.
Proof.
  unfold calculate_future_savings_float.
  rewrite (GrowthProperties.fold_left_ignoring_index
             (fun v => v * (1 + r) + a)).
  rewrite range_length. reflexivity.
Qed.

(** X17.  [calculate_retirement_age] adds to the current age the first
    number of years, up to 50, after which the savings reach 25 times the
    annual expenses under the recurrence of
    [calculate_future_savings_float], and caps the sum at 90. *)
Theorem retirement_age_is_first_year_at_target (current_age : Z)
    (current_savings monthly_income monthly_expenses expected_return : Q) :
  let balance :=
    calculate_future_savings_float current_savings
      ((monthly_income - monthly_expenses) * 12) expected_return in
  let target := monthly_expenses * 12 * 25 in
  exists k : Z,
    (0 <= k <= 50)%Z
    /\ calculate_retirement_age current_age current_savings monthly_income
         monthly_expenses expected_return
       = Z.min (current_age + k) 90
    /\ (forall j, (0 <= j < k)%Z -> balance j < target)
    /\ ((k < 50)%Z -> target <= balance k).
Proof.
  intros balance target.
  destruct (accumulate_until_target_spec
              ((monthly_income - monthly_expenses) * 12) expected_return
              target 50 current_savings 0 ltac:(lia) ltac:(lia))
    as [k [Hk [Hle [Hbelow Hdone]]]].
  exists (Z.of_nat k). split; [lia |]. split.
  - unfold calculate_retirement_age. fold target. rewrite Hk. reflexivity.
  - split.
    + intros j Hj. unfold balance.
      rewrite future_savings_float_as_iteration. apply Hbelow. lia.
    + intros Hlt. unfold balance.
      rewrite future_savings_float_as_iteration, Nat2Z.id. apply Hdone. lia.
Qed.

Lemma retirement_age_is_first_year_at_target_witness :
  exists k : Z,
    (0 <= k <= 50)%Z
    /\ calculate_retirement_age 40 200000 6000 4000 0.05
       = Z.min (40 + k) 90
    /\ ((k < 50)%Z ->
        4000 * 12 * 25
        <= calculate_future_savings_float 200000 ((6000 - 4000) * 12) 0.05 k).
Proof.
  destruct (retirement_age_is_first_year_at_target 40 200000 6000 4000 0.05)
    as [k [Hk [Hage [_ Hdone]]]].
  exists k. split; [exact Hk |]. split; [exact Hage | exact Hdone].
Defined.

(** X18.  The age returned by [calculate_retirement_age] never exceeds 90
    nor the current age plus 50; for a current age up to 90 it is not below
    the current age, and it is the current age itself when the savings
    already reach the target. *)
Theorem retirement_age_bounds (current_age : Z)
    (current_savings monthly_income monthly_expenses expected_return : Q) :
  let age :=
    calculate_retirement_age current_age current_savings monthly_income
      monthly_expenses expected_return in
  (age <= 90)%Z
  /\ (age <= current_age + 50)%Z
  /\ ((current_age <= 90)%Z -> (current_age <= age)%Z)
  /\ ((current_age <= 90)%Z ->
      monthly_expenses * 12 * 25 <= current_savings ->
      age = current_age).
Proof.
  intros age.
  destruct (accumulate_until_target_spec
              ((monthly_income - monthly_expenses) * 12) expected_return
              (monthly_expenses * 12 * 25) 50 current_savings 0
              ltac:(lia) ltac:(lia))
    as [k [Hk [Hle [Hbelow _]]]].
  assert (Hage : age = Z.min (current_age + Z.of_nat k) 90).
  { unfold age, calculate_retirement_age. rewrite Hk. reflexivity. }
  rewrite Hage.
  split; [lia |]. split; [lia |]. split; [lia |].
  intros Hyoung Hthere.
  destruct k as [|k]; [lia |].
  assert (H := Hbelow O ltac:(lia)). cbn in H. lra.
Qed.

Lemma retirement_age_bounds_witness :
  calculate_retirement_age 30 1200000 6000 4000 0.07 = 30%Z.
Proof.
  apply (proj2 (proj2 (proj2
           (retirement_age_bounds 30 1200000 6000 4000 0.07)))).
  - lia.
  - vm_compute. intros H; discriminate H.
Defined.

(** *** [calculate_retirement_income] *)

(** X19.  In [calculate_retirement_income] the projected savings follow
    the recurrence of [calculate_future_savings_float], the required
    savings are 600 times the monthly contribution whatever the savings,
    and the gap is the shortfall, or zero when the projection reaches the
    requirement; so it is zero for someone who contributes nothing, whose
    savings are not negative, and whose expected return is not below
    -100 % (a return below -100 % can turn the projection negative and
    leave a gap). *)
Theorem retirement_income_gap (current_savings monthly_contribution : Q)
    (years_until_retirement : Z) (expected_return : Q) :
  let result :=
    calculate_retirement_income current_savings monthly_contribution
      years_until_retirement expected_return in
  ri_projected_savings result
  = calculate_future_savings_float current_savings (monthly_contribution * 12)
      expected_return years_until_retirement
  /\ ri_required_savings result == 600 * monthly_contribution
  /\ 0 <= ri_savings_gap result
  /\ (ri_projected_savings result < ri_required_savings result ->
      ri_savings_gap result
      == ri_required_savings result - ri_projected_savings result)
  /\ (ri_required_savings result <= ri_projected_savings result ->
      ri_savings_gap result == 0)
  /\ (monthly_contribution == 0 -> 0 <= current_savings ->
      0 <= 1 + expected_return ->
      ri_savings_gap result == 0).
Proof.
  intros result.
  assert (Hproj : ri_projected_savings result
                  = calculate_future_savings_float current_savings
                      (monthly_contribution * 12) expected_return
                      years_until_retirement) by reflexivity.
  assert (Hreq : ri_required_savings result == 600 * monthly_contribution)
    by (cbn; ring).
  assert (Hgap : ri_savings_gap result
                 = Py.max 0 (ri_required_savings result
                             - ri_projected_savings result)) by reflexivity.
  split; [exact Hproj |]. split; [exact Hreq |].
  split; [rewrite Hgap; apply max_zero_nonneg |].
  split; [| split].
  - intros Hlt. rewrite Hgap. unfold Py.max.
    destruct (Qlt_le_dec 0 _); lra.
  - intros Hle. rewrite Hgap. apply max_zero_of_nonpos. lra.
  - intros Hmc Hs Hr. rewrite Hgap. apply max_zero_of_nonpos.
    rewrite Hreq, Hmc, Hproj, future_savings_float_as_iteration.
    assert (Hnn : 0 <= Nat.iter (Z.to_nat years_until_retirement)
                         (fun v => v * (1 + expected_return)
                                   + monthly_contribution * 12)
                         current_savings).
    { induction (Z.to_nat years_until_retirement) as [|k IH].
      - exact Hs.
      - rewrite Nat.iter_succ.
        assert (H := Qmult_le_0_compat _ _ IH Hr). lra. }
    lra.
Qed.

Lemma retirement_income_gap_witness :
  ri_savings_gap (calculate_retirement_income 1000 0 10 0.05) == 0.
Proof.
  apply (proj2 (proj2 (proj2 (proj2 (proj2
           (retirement_income_gap 1000 0 10 0.05)))))).
  - reflexivity.
  - vm_compute. intros H; discriminate H.
  - vm_compute. intros H; discriminate H.
Defined.


(** *** [calculate_success_probability] *)

Lemma risk_adjustment_cases (risk_level : string) :
  (risk_level = "conservative"%string
   /\ risk_get risk_adjustments risk_level 0 = 0.1)
  \/ (risk_level = "aggressive"%string
      /\ risk_get risk_adjustments risk_level 0 = -0.1)
  \/ (risk_level <> "conservative"%string
      /\ risk_level <> "aggressive"%string
      /\ risk_get risk_adjustments risk_level 0 = 0).
Proof.
  unfold risk_adjustments. cbn [risk_get].
  destruct (String.eqb_spec "conservative" risk_level) as [<- | Hc].
  { left. split; reflexivity. }
  destruct (String.eqb_spec "moderate" risk_level) as [<- | Hm].
  { right; right. repeat split; discriminate. }
  destruct (String.eqb_spec "aggressive" risk_level) as [<- | Ha].
  { right; left. split; reflexivity. }
  right; right. repeat split; congruence.
Qed.

Lemma min_cases (x y : Q) :
  (y < x /\ Py.min x y = y) \/ (x <= y /\ Py.min x y = x).
Proof.
  unfold Py.min. destruct (Qlt_le_dec y x); [left | right]; split;
    try assumption; reflexivity.
Qed.

Lemma max_cases (x y : Q) :
  (x < y /\ Py.max x y = y) \/ (y <= x /\ Py.max x y = x).
Proof.
  unfold Py.max. destruct (Qlt_le_dec x y); [left | right]; split;
    try assumption; reflexivity.
Qed.

(** Replaces an innermost [min] or [max] by its value, case by case. *)
Ltac minmax_step :=
  match goal with
  | |- context [Py.min ?x ?y] =>
      lazymatch x with
      | context [Py.min _ _] => fail
      | context [Py.max _ _] => fail
      | _ =>
          let H := fresh "Hcase" in
          let E := fresh "Eval" in
          destruct (min_cases x y) as [[H E] | [H E]]; rewrite E
      end
  | |- context [Py.max ?x ?y] =>
      lazymatch x with
      | context [Py.min _ _] => fail
      | context [Py.max _ _] => fail
      | _ =>
          let H := fresh "Hcase" in
          let E := fresh "Eval" in
          destruct (max_cases x y) as [[H E] | [H E]]; rewrite E
      end
  end.

Lemma div_million (x : Q) : x / 1000000 == x * (1 # 1000000).
Proof. field. Qed.

Lemma div_30 (x : Q) : x / 30 == x * (1 # 30).
Proof. field. Qed.

(** X20.  The success probability is a percentage: it always lies
    between 0 and 100, it is at least 60 when the savings and the years are
    not negative, it reaches 100 for a conservative profile with a million
    saved and thirty years to go, it never decreases when the projected
    savings grow, and an unknown risk level counts as moderate. *)
Theorem success_probability_is_a_percentage
    (projected_savings monthly_income : Q) (risk_level : string)
    (years_to_retirement : Z) :
  let p := calculate_success_probability projected_savings monthly_income
             risk_level years_to_retirement in
  0 <= p /\ p <= 100
  /\ (0 <= projected_savings -> (0 <= years_to_retirement)%Z -> 60 <= p)
  /\ (risk_level = "conservative"%string -> 1000000 <= projected_savings ->
      (30 <= years_to_retirement)%Z -> p == 100)
  /\ (forall more, projected_savings <= more ->
        p <= calculate_success_probability more monthly_income risk_level
               years_to_retirement)
  /\ (risk_level <> "conservative"%string ->
      risk_level <> "aggressive"%string ->
      p = calculate_success_probability projected_savings monthly_income
            "moderate" years_to_retirement).
Proof.
  intros p. unfold p, calculate_success_probability.
  set (adj := risk_get risk_adjustments risk_level 0).
  set (t := inject_Z years_to_retirement / 30).
  set (sv := projected_savings / 1000000).
  assert (Hadj : -0.1 <= adj /\ adj <= 0.1).
  { unfold adj.
    destruct (risk_adjustment_cases risk_level)
      as [[_ ->] | [[_ ->] | [_ [_ ->]]]]; split; lra. }
  assert (Ht : (0 <= years_to_retirement)%Z -> 0 <= t).
  { intros Hy. unfold t. rewrite div_30.
    assert (H : 0 <= inject_Z years_to_retirement)
      by (change 0 with (inject_Z 0); rewrite <- Zle_Qle; exact Hy).
    lra. }
  assert (Ht30 : (30 <= years_to_retirement)%Z -> 1 <= t).
  { intros Hy. unfold t. rewrite div_30.
    assert (H : 30 <= inject_Z years_to_retirement)
      by (change 30 with (inject_Z 30); rewrite <- Zle_Qle; exact Hy).
    lra. }
  split; [| split; [| split; [| split; [| split]]]].
  - repeat minmax_step; lra.
  - repeat minmax_step; lra.
  - intros Hs Hy. assert (Ht' := Ht Hy).
    assert (Hs' : 0 <= sv) by (unfold sv; rewrite div_million; lra).
    repeat minmax_step; lra.
  - intros Hrisk Hs Hy. assert (Ht' := Ht30 Hy).
    assert (Hs' : 1 <= sv) by (unfold sv; rewrite div_million; lra).
    assert (Hc : adj = 0.1) by (unfold adj; rewrite Hrisk; reflexivity).
    rewrite Hc.
    repeat minmax_step; lra.
  - intros more Hmore.
    set (sv' := more / 1000000).
    assert (Hm : sv <= sv') by (unfold sv, sv'; rewrite !div_million; lra).
    repeat minmax_step; lra.
  - intros Hc Ha. unfold adj.
    destruct (risk_adjustment_cases risk_level)
      as [[E _] | [[E _] | [_ [_ ->]]]]; try contradiction.
    reflexivity.
Qed.

Lemma success_probability_is_a_percentage_witness :
  60 <= calculate_success_probability 500000 3000 "moderate" 20
  /\ calculate_success_probability 2000000 3000 "conservative" 35 == 100.
Proof.
  destruct (success_probability_is_a_percentage 500000 3000 "moderate" 20)
    as [_ [_ [Hlow _]]].
  destruct (success_probability_is_a_percentage 2000000 3000 "conservative" 35)
    as [_ [_ [_ [Hcap _]]]].
  split.
  - apply Hlow; [vm_compute; intros H; discriminate H | lia].
  - apply Hcap; [reflexivity | vm_compute; intros H; discriminate H | lia].
Defined.

End CalculatorProperties.

(** ** More on the financial metrics *)

Module MetricsShape.

Import UtilsCalculationFunctions.

(** *** Rounding *)

Lemma round_half_even_comp (x y : Q) :
  x == y -> Py.round_half_even x = Py.round_half_even y.
Proof.
  intros Hxy. unfold Py.round_half_even.
  assert (Hf : Qfloor x = Qfloor y) by (rewrite Hxy; reflexivity).
  rewrite Hf.
  destruct (Qlt_le_dec (x - inject_Z (Qfloor y)) (1 # 2));
    destruct (Qlt_le_dec (y - inject_Z (Qfloor y)) (1 # 2));
    try reflexivity; try (exfalso; lra).
  destruct (Qlt_le_dec (1 # 2) (x - inject_Z (Qfloor y)));
    destruct (Qlt_le_dec (1 # 2) (y - inject_Z (Qfloor y)));
    try reflexivity; exfalso; lra.
Qed.

(** Rounding stays within the integers that bound its argument. *)
Lemma round_half_even_le (y : Q) (hi : Z) :
  y <= inject_Z hi -> (Py.round_half_even y <= hi)%Z.
Proof.
  intros Hhi.
  assert (Hfl := Qfloor_le y).
  assert (Hfhi : (Qfloor y <= hi)%Z).
  { rewrite <- (Qfloor_Z hi). apply Qfloor_resp_le, Hhi. }
  assert (Hup : inject_Z (Qfloor y) < y -> (Qfloor y + 1 <= hi)%Z).
  { intros Hstrict.
    assert (H : inject_Z (Qfloor y) < inject_Z hi) by lra.
    rewrite <- Zlt_Qlt in H. lia. }
  unfold Py.round_half_even.
  destruct (Qlt_le_dec (y - inject_Z (Qfloor y)) (1 # 2)); [lia |].
  assert (Hs : (Qfloor y + 1 <= hi)%Z) by (apply Hup; lra).
  destruct (Qlt_le_dec (1 # 2) (y - inject_Z (Qfloor y))); [lia |].
  destruct (Z.even (Qfloor y)); lia.
Qed.

Lemma round_half_even_ge (y : Q) (lo : Z) :
  inject_Z lo <= y -> (lo <= Py.round_half_even y)%Z.
Proof.
  intros Hlo.
  assert (Hflo : (lo <= Qfloor y)%Z).
  { rewrite <- (Qfloor_Z lo). apply Qfloor_resp_le, Hlo. }
  unfold Py.round_half_even.
  destruct (Qlt_le_dec (y - inject_Z (Qfloor y)) (1 # 2)); [lia |].
  destruct (Qlt_le_dec (1 # 2) (y - inject_Z (Qfloor y))); [lia |].
  destruct (Z.even (Qfloor y)); lia.
Qed.

Lemma round_1_le (x : Q) (hi : Z) :
  x <= inject_Z hi -> Py.round x 1 <= inject_Z hi.
Proof.
  intros Hhi. unfold Py.round. change (10 ^ 1) with 10.
  assert (H := round_half_even_le (x * 10) (hi * 10)).
  rewrite inject_Z_mult in H. change (inject_Z 10) with 10 in H.
  specialize (H ltac:(lra)). rewrite Zle_Qle, inject_Z_mult in H.
  change (inject_Z 10) with 10 in H.
  set (v := inject_Z (Py.round_half_even (x * 10))) in *.
  assert (Hd : v / 10 == v * (1 # 10)) by field.
  rewrite Hd. lra.
Qed.

Lemma round_1_ge (x : Q) (lo : Z) :
  inject_Z lo <= x -> inject_Z lo <= Py.round x 1.
Proof.
  intros Hlo. unfold Py.round. change (10 ^ 1) with 10.
  assert (H := round_half_even_ge (x * 10) (lo * 10)).
  rewrite inject_Z_mult in H. change (inject_Z 10) with 10 in H.
  specialize (H ltac:(lra)). rewrite Zle_Qle, inject_Z_mult in H.
  change (inject_Z 10) with 10 in H.
  set (v := inject_Z (Py.round_half_even (x * 10))) in *.
  assert (Hd : v / 10 == v * (1 # 10)) by field.
  rewrite Hd. lra.
Qed.

Lemma round_comp (x y : Q) (n : Z) : x == y -> Py.round x n == Py.round y n.
Proof.
  intros Hxy. unfold Py.round.
  rewrite (round_half_even_comp (x * 10 ^ n) (y * 10 ^ n))
    by (rewrite Hxy; reflexivity).
  reflexivity.
Qed.

Lemma round_1_of_ten (x : Q) : x == 10 -> Py.round x 1 == 10.
Proof.
  intros Hx. unfold Py.round. change (10 ^ 1) with 10.
  rewrite (round_half_even_comp (x * 10) 100) by lra. reflexivity.
Qed.


(** *** The retirement fields of the metrics *)

(** The metrics of a profile with an income, field by field. *)
Lemma metrics_with_income (pd : ProfileData) :
  let mi := Py.or_zero (pd_monthly_income pd) in
  let me := Py.or_zero (pd_monthly_expenses pd) in
  let total :=
    Py.or_zero (pd_rrsp_savings pd) + Py.or_zero (pd_tfsa_savings pd)
    + Py.or_zero (pd_other_retirement_accounts pd) in
  let ratio := Py.round (total / (mi * 12)) 1 in
  ~ mi == 0 ->
  exists m,
    calculate_financial_metrics pd = Ok m
    /\ retirement_savings_ratio m = Some ratio
    /\ retirement_status m = assess_retirement (Some ratio) (pd_age pd)
    /\ retirement_readiness_score m
       = match age_truthy (pd_age pd) with
         | Some age =>
             Some (Py.round
                     (Py.min
                        (ratio / (if (age <? 30)%Z then 1
                                  else if (age <? 40)%Z then 3
                                  else if (age <? 50)%Z then 6
                                  else 8)) 1 * 10) 1)
         | None => None
         end
    /\ years_until_retirement m
       = match age_truthy (pd_age pd) with
         | Some age => Some (65 - age)%Z
         | None => None
         end
    /\ monthly_savings m
       = (if Py.truthy me then Some (Py.round (mi - me) 2) else None)
    /\ monthly_cash_flow m
       = (if Py.truthy me then Some (Py.round (mi - me) 2) else None)
    /\ savings_rate m
       = (if Py.truthy me && Py.truthy (mi - me)
          then Some (Py.round ((mi - me) / mi * 100) 1) else None)
    /\ savings_status m = assess_savings (savings_rate m).
Proof.
  intros mi me total ratio Hmi.
  unfold calculate_financial_metrics.
  fold mi. fold me.
  assert (Ht : Py.truthy mi = true).
  { apply not_false_iff_true. intros F.
    apply MetricsProperties.truthy_false in F. contradiction. }
  assert (Hann : Py.truthy (mi * 12) = true).
  { apply not_false_iff_true. intros F.
    apply MetricsProperties.truthy_false in F. lra. }
  rewrite Ht, Hann.
  destruct (Py.truthy me) eqn:Hme;
    try (assert (Hme' := MetricsProperties.truthy_true _ Hme));
    MetricsProperties.run_guarded_divisions;
    (eexists; split; [reflexivity |]);
    cbn [retirement_savings_ratio retirement_status
         retirement_readiness_score years_until_retirement
         monthly_savings monthly_cash_flow savings_rate savings_status
         option_map andb];
    repeat match goal with
           | H : age_truthy _ = _ |- _ => rewrite H; clear H
           | H : (_ <? _)%Z = _ |- _ => rewrite H; clear H
           | H : Py.truthy (mi - me) = _ |- _ => rewrite H; clear H
           | H : Py.truthy (mi - me) && true = _ |- _ =>
               rewrite andb_true_r in H; rewrite H; clear H
           end;
    repeat split; reflexivity.
Qed.

(** [round(x, 1)] is a number of tenths. *)
Lemma round_1_tenths (x : Q) :
  Py.round x 1 == inject_Z (Py.round_half_even (x * 10)) * (1 # 10).
Proof. unfold Py.round. change (10 ^ 1) with 10. field. Qed.

(** Below [9.9 + 0.05] the rounding to one decimal stays below 10. *)
Lemma round_1_below_ten (x : Q) : x <= 9.9 -> Py.round x 1 <= 9.9.
Proof.
  intros Hx. rewrite round_1_tenths.
  assert (H := round_half_even_le (x * 10) 99).
  change (inject_Z 99) with 99 in H.
  specialize (H ltac:(lra)). rewrite Zle_Qle in H.
  change (inject_Z 99) with 99 in H. lra.
Qed.

Lemma min_le_l (a b : Q) : Py.min a b <= a.
Proof. unfold Py.min. destruct (Qlt_le_dec b a); lra. Qed.

Lemma min_of_larger (a b : Q) : b <= a -> Py.min a b == b.
Proof. unfold Py.min. destruct (Qlt_le_dec b a); lra. Qed.

(** A ratio counted in tenths against an integral target of at most 8: a
    perfect score is given exactly from the target on. *)
Lemma perfect_score_iff (r t : Q) (k tz : Z) :
  r == inject_Z k * (1 # 10) -> t == inject_Z tz -> (1 <= tz <= 8)%Z ->
  Py.round (Py.min (r / t) 1 * 10) 1 == 10 <-> ~ r < t.
Proof.
  intros Hr Htz Ht.
  assert (Htq : 1 <= t <= 8).
  { rewrite Htz. change 1 with (inject_Z 1). change 8 with (inject_Z 8).
    split; rewrite <- Zle_Qle; lia. }
  assert (Hinv8 : (1 # 8) <= / t).
  { apply Qle_shift_inv_l; [lra |]. lra. }
  assert (Hti : t * / t == 1).
  { apply Qmult_inv_r. lra. }
  split.
  - intros Hscore Hlt.
    assert (Hk : (k <= 10 * tz - 1)%Z).
    { assert (H : inject_Z k < inject_Z (10 * tz)).
      { rewrite inject_Z_mult. change (inject_Z 10) with 10. lra. }
      rewrite <- Zlt_Qlt in H. lia. }
    rewrite Zle_Qle in Hk.
    unfold Zminus in Hk. rewrite inject_Z_plus, inject_Z_mult in Hk.
    change (inject_Z 10) with 10 in Hk.
    change (inject_Z (- (1))) with (-1) in Hk.
    assert (Hq : r / t * 10 <= 9.9).
    { unfold Qdiv.
      assert (H1 : r * 10 <= 10 * t - 1) by lra.
      assert (H2 : r * 10 * / t <= (10 * t - 1) * / t).
      { apply Qmult_le_compat_r; [exact H1 | lra]. }
      assert (H3 : (10 * t - 1) * / t == 10 - / t).
      { transitivity (10 * (t * / t) - / t); [ring | rewrite Hti; ring]. }
      assert (H4 : r * / t * 10 == r * 10 * / t) by ring.
      lra. }
    assert (Hm := min_le_l (r / t) 1).
    assert (Hrd := round_1_below_ten (Py.min (r / t) 1 * 10) ltac:(lra)).
    lra.
  - intros Hge.
    apply round_1_of_ten.
    assert (H1 : 1 <= r / t).
    { apply Qle_shift_div_l; lra. }
    rewrite (min_of_larger _ _ H1). reflexivity.
Qed.

Lemma age_truthy_nonzero (a : Z) : a <> 0%Z -> age_truthy (Some a) = Some a.
Proof.
  intros Ha. unfold age_truthy.
  destruct (Z.eqb_spec a 0); [contradiction | reflexivity].
Qed.

(** The two status tests of a ratio against a target. *)
Lemma below_target_iff (r t : Q) :
  (if Py.lt r t then "Below Target"
   else if Py.le r (t * 1.2) then "On Track" else "Above Target")%string
  <> "Below Target"%string <-> ~ r < t.
Proof.
  unfold Py.lt, Py.le.
  destruct (Qlt_le_dec r t) as [Hlt | Hge].
  - split; [intros H; now contradiction H | intros H; contradiction].
  - split; [intros _; lra |].
    intros _. destruct (Qlt_le_dec (t * 1.2) r); discriminate.
Qed.

(** X21.  For a profile with an income and an age below 60 (and not zero),
    the readiness score and the retirement status agree: the score is 10
    exactly when the status is not "Below Target". *)
Theorem perfect_readiness_matches_status_below_60
    (pd : ProfileData) (a : Z) :
  pd_age pd = Some a -> a <> 0%Z -> (a < 60)%Z ->
  ~ Py.or_zero (pd_monthly_income pd) == 0 ->
  exists m s,
    calculate_financial_metrics pd = Ok m
    /\ retirement_readiness_score m = Some s
    /\ (s == 10 <-> retirement_status m <> "Below Target"%string).
Proof.
  intros Ha Hnz H60 Hmi.
  pose proof (metrics_with_income pd) as H. cbv zeta in H.
  destruct (H Hmi) as (m & Hm & _ & Hstatus & Hready & _). clear H.
  rewrite Ha in Hstatus, Hready.
  rewrite (age_truthy_nonzero a Hnz) in Hready.
  set (x := (Py.or_zero (pd_rrsp_savings pd) + Py.or_zero (pd_tfsa_savings pd)
             + Py.or_zero (pd_other_retirement_accounts pd))
            / (Py.or_zero (pd_monthly_income pd) * 12)) in *.
  assert (Hr := round_1_tenths x).
  exists m. eexists. split; [exact Hm |]. split; [exact Hready |].
  rewrite Hstatus. unfold assess_retirement.
  destruct (a <? 30)%Z eqn:H30;
    [| destruct (a <? 40)%Z eqn:H40;
       [| destruct (a <? 50)%Z eqn:H50;
          [| destruct (Z.ltb_spec a 60) as [_ | F]; [| lia] ] ] ];
    cbv zeta; rewrite below_target_iff.
  - exact (perfect_score_iff _ 1 _ 1%Z Hr (Qeq_refl _) ltac:(lia)).
  - exact (perfect_score_iff _ 3 _ 3%Z Hr (Qeq_refl _) ltac:(lia)).
  - exact (perfect_score_iff _ 6 _ 6%Z Hr (Qeq_refl _) ltac:(lia)).
  - exact (perfect_score_iff _ 8 _ 8%Z Hr (Qeq_refl _) ltac:(lia)).
Qed.

Lemma perfect_readiness_matches_status_below_60_witness :
  exists m s,
    calculate_financial_metrics (metrics_profile 45 6000 4000 300000) = Ok m
    /\ retirement_readiness_score m = Some s
    /\ (s == 10 <-> retirement_status m <> "Below Target"%string).
Proof.
  apply (perfect_readiness_matches_status_below_60
           (metrics_profile 45 6000 4000 300000) 45%Z);
    [reflexivity | lia | lia | cbn; lra].
Defined.

(** X22.  From age 60 on the two disagree: the status compares the ratio
    with 10 times the annual income, the score with 8 times.  A ratio from
    8 up to 10 (not included) is "Below Target" with a readiness score
    of 10. *)
Theorem perfect_readiness_below_target_from_60
    (pd : ProfileData) (a : Z) :
  pd_age pd = Some a -> (60 <= a)%Z ->
  ~ Py.or_zero (pd_monthly_income pd) == 0 ->
  exists m r,
    calculate_financial_metrics pd = Ok m
    /\ retirement_savings_ratio m = Some r
    /\ (8 <= r -> r < 10 ->
        retirement_status m = "Below Target"%string
        /\ exists s, retirement_readiness_score m = Some s /\ s == 10).
Proof.
  intros Ha H60 Hmi.
  pose proof (metrics_with_income pd) as H. cbv zeta in H.
  destruct (H Hmi) as (m & Hm & Hratio & Hstatus & Hready & _). clear H.
  rewrite Ha in Hstatus, Hready.
  rewrite (age_truthy_nonzero a ltac:(lia)) in Hready.
  exists m. eexists. split; [exact Hm |]. split; [exact Hratio |].
  intros H8 H10. split.
  - rewrite Hstatus. unfold assess_retirement.
    destruct (Z.ltb_spec a 30); [lia |].
    destruct (Z.ltb_spec a 40); [lia |].
    destruct (Z.ltb_spec a 50); [lia |].
    destruct (Z.ltb_spec a 60); [lia |].
    cbv zeta. unfold Py.lt.
    destruct (Qlt_le_dec _ 10); [reflexivity | lra].
  - eexists. split; [exact Hready |].
    destruct (Z.ltb_spec a 30); [lia |].
    destruct (Z.ltb_spec a 40); [lia |].
    destruct (Z.ltb_spec a 50); [lia |].
    apply round_1_of_ten.
    match goal with
    | |- Py.min (?r / 8) 1 * 10 == 10 =>
        assert (Hone : 1 <= r / 8) by (apply Qle_shift_div_l; lra);
        rewrite (min_of_larger _ _ Hone)
    end.
    reflexivity.
Qed.

Lemma perfect_readiness_below_target_from_60_witness :
  exists m r,
    calculate_financial_metrics (metrics_profile 62 5000 4000 540000) = Ok m
    /\ retirement_savings_ratio m = Some r
    /\ (8 <= r -> r < 10 ->
        retirement_status m = "Below Target"%string
        /\ exists s, retirement_readiness_score m = Some s /\ s == 10).
Proof.
  apply (perfect_readiness_below_target_from_60
           (metrics_profile 62 5000 4000 540000) 62%Z);
    [reflexivity | lia | cbn; lra].
Defined.

(** X23.  The readiness score of a profile with an income never exceeds
    10, and it is not negative when the income is positive and the
    retirement balances do not sum below zero. *)
Theorem readiness_score_range (pd : ProfileData) :
  ~ Py.or_zero (pd_monthly_income pd) == 0 ->
  exists m,
    calculate_financial_metrics pd = Ok m
    /\ forall s,
         retirement_readiness_score m = Some s ->
         s <= 10
         /\ (0 < Py.or_zero (pd_monthly_income pd) ->
             0 <= Py.or_zero (pd_rrsp_savings pd)
                  + Py.or_zero (pd_tfsa_savings pd)
                  + Py.or_zero (pd_other_retirement_accounts pd) ->
             0 <= s).
Proof.
  intros Hmi.
  pose proof (metrics_with_income pd) as H. cbv zeta in H.
  destruct (H Hmi) as (m & Hm & _ & _ & Hready & _). clear H.
  exists m. split; [exact Hm |].
  intros s Hs. rewrite Hready in Hs.
  destruct (age_truthy (pd_age pd)) as [a |]; [| discriminate Hs].
  injection Hs as Hs. subst s.
  set (mi := Py.or_zero (pd_monthly_income pd)) in *.
  set (total := Py.or_zero (pd_rrsp_savings pd)
                + Py.or_zero (pd_tfsa_savings pd)
                + Py.or_zero (pd_other_retirement_accounts pd)).
  set (t := if (a <? 30)%Z then 1
            else if (a <? 40)%Z then 3 else if (a <? 50)%Z then 6 else 8).
  assert (Ht : 0 < t).
  { unfold t. destruct (a <? 30)%Z; [lra |].
    destruct (a <? 40)%Z; [lra |]. destruct (a <? 50)%Z; lra. }
  set (r := Py.round (total / (mi * 12)) 1).
  split.
  - apply (round_1_le _ 10).
    assert (Hm1 : Py.min (r / t) 1 <= 1).
    { unfold Py.min. destruct (Qlt_le_dec 1 (r / t)); lra. }
    change (inject_Z 10) with 10. lra.
  - intros Hpos Htot.
    assert (Hx : 0 <= total / (mi * 12)).
    { apply Qle_shift_div_l; lra. }
    assert (Hr : 0 <= r) by exact (round_1_ge _ 0 Hx).
    assert (Hq : 0 <= r / t).
    { apply Qle_shift_div_l; lra. }
    apply (round_1_ge _ 0). change (inject_Z 0) with 0.
    unfold Py.min. destruct (Qlt_le_dec 1 (r / t)); lra.
Qed.

Lemma readiness_score_range_witness :
  exists m,
    calculate_financial_metrics (metrics_profile 45 6000 4000 300000) = Ok m
    /\ forall s,
         retirement_readiness_score m = Some s ->
         s <= 10
         /\ (0 < Py.or_zero (Some 6000) ->
             0 <= Py.or_zero (Some 300000) + Py.or_zero None + Py.or_zero None ->
             0 <= s).
Proof.
  apply (readiness_score_range (metrics_profile 45 6000 4000 300000)).
  cbn; lra.
Defined.

(** X24.  With an income and expenses on record, the savings rate is
    missing exactly when the two are equal: breaking even is reported as
    "Not Available", not as a rate of zero, while the monthly savings are
    reported as zero. *)
Theorem savings_rate_missing_exactly_at_break_even (pd : ProfileData) :
  ~ Py.or_zero (pd_monthly_income pd) == 0 ->
  ~ Py.or_zero (pd_monthly_expenses pd) == 0 ->
  exists m,
    calculate_financial_metrics pd = Ok m
    /\ (savings_rate m = None
        <-> Py.or_zero (pd_monthly_income pd)
            == Py.or_zero (pd_monthly_expenses pd))
    /\ (Py.or_zero (pd_monthly_income pd)
        == Py.or_zero (pd_monthly_expenses pd) ->
        savings_status m = "Not Available"%string
        /\ exists ms, monthly_savings m = Some ms /\ ms == 0).
Proof.
  intros Hmi Hme.
  pose proof (metrics_with_income pd) as H. cbv zeta in H.
  destruct (H Hmi) as (m & Hm & _ & _ & _ & _ & Hms & _ & Hrate & Hstatus).
  clear H.
  set (mi := Py.or_zero (pd_monthly_income pd)) in *.
  set (me := Py.or_zero (pd_monthly_expenses pd)) in *.
  assert (Ht : Py.truthy me = true).
  { apply not_false_iff_true. intros F.
    apply MetricsProperties.truthy_false in F. contradiction. }
  rewrite Ht in Hms, Hrate. cbn [andb] in Hrate.
  exists m. split; [exact Hm |].
  destruct (Py.truthy (mi - me)) eqn:Hd.
  - apply MetricsProperties.truthy_true in Hd.
    split.
    + rewrite Hrate. split; [discriminate | intros Heq; lra].
    + intros Heq. lra.
  - apply MetricsProperties.truthy_false in Hd.
    split.
    + rewrite Hrate. split; [intros _; lra | reflexivity].
    + intros _. split.
      * rewrite Hstatus, Hrate. reflexivity.
      * eexists. split; [exact Hms |].
        rewrite (round_comp _ 0 2 Hd). reflexivity.
Qed.

Lemma savings_rate_missing_exactly_at_break_even_witness :
  exists m,
    calculate_financial_metrics (metrics_profile 45 5000 5000 300000) = Ok m
    /\ (savings_rate m = None
        <-> Py.or_zero (Some 5000) == Py.or_zero (Some 5000))
    /\ (Py.or_zero (Some 5000) == Py.or_zero (Some 5000) ->
        savings_status m = "Not Available"%string
        /\ exists ms, monthly_savings m = Some ms /\ ms == 0).
Proof.
  apply (savings_rate_missing_exactly_at_break_even
           (metrics_profile 45 5000 5000 300000)); cbn; lra.
Defined.

End MetricsShape.

(** ** The diversity score and the retirement health check *)

Module ChecklistProperties.

Import RetirementFunctions UtilsCalculationFunctions.

Lemma nodup_length_le (l : list string) :
  (List.length (nodup string_dec l) <= List.length l)%nat.
Proof.
  induction l as [| x l IH]; [apply Nat.le_refl |].
  cbn [nodup]. destruct (in_dec string_dec x l); cbn [List.length]; lia.
Qed.

Lemma nodup_length_pos (x : string) (l : list string) :
  (1 <= List.length (nodup string_dec (x :: l)))%nat.
Proof.
  assert (Hin : In x (nodup string_dec (x :: l))).
  { apply nodup_In. left. reflexivity. }
  destruct (nodup string_dec (x :: l)); [contradiction | cbn; lia].
Qed.

(** X25.  A portfolio with at least one holding always gets a diversity
    score: the number of distinct lowered names, capped at 10.  The score
    lies between 1 and 10 and never exceeds the number of holdings. *)
Theorem diversity_score_of_a_portfolio (lower : string -> string)
    (investment_holdings : list Holding) :
  investment_holdings <> [] ->
  exists score,
    investment_diversity_score lower investment_holdings = Some score
    /\ score = Z.min (unique_holdings lower investment_holdings) 10
    /\ (1 <= score <= 10)%Z
    /\ (score <= Z.of_nat (List.length investment_holdings))%Z.
Proof.
  intros Hne.
  destruct investment_holdings as [| h hs]; [contradiction |].
  assert (Hpos : (1 <= unique_holdings lower (h :: hs))%Z).
  { unfold unique_holdings. cbn [map].
    pose proof (nodup_length_pos (lower (holding_name h))
                  (map (fun holding => lower (holding_name holding)) hs)).
    lia. }
  assert (Hle : (unique_holdings lower (h :: hs)
                 <= Z.of_nat (List.length (h :: hs)))%Z).
  { unfold unique_holdings.
    pose proof (nodup_length_le
                  (map (fun holding => lower (holding_name holding))
                     (h :: hs))) as Hl.
    rewrite List.length_map in Hl. lia. }
  unfold investment_diversity_score.
  set (u := unique_holdings lower (h :: hs)) in *. cbv zeta.
  destruct (Z.geb_spec u 10) as [Hge | Hlt].
  - exists 10%Z. repeat split; lia.
  - destruct (Z.gtb_spec u 0) as [Hgt | Hz]; [| lia].
    exists (Z.min u 10). repeat split; lia.
Qed.

Lemma diversity_score_of_a_portfolio_witness :
  exists score,
    investment_diversity_score (fun name => name)
      [ {| holding_name := "xeqt" |}; {| holding_name := "vfv" |};
        {| holding_name := "xeqt" |} ] = Some score
    /\ score = Z.min (unique_holdings (fun name => name)
                        [ {| holding_name := "xeqt" |};
                          {| holding_name := "vfv" |};
                          {| holding_name := "xeqt" |} ]) 10
    /\ (1 <= score <= 10)%Z
    /\ (score <= Z.of_nat 3)%Z.
Proof.
  apply (diversity_score_of_a_portfolio (fun name => name)
           [ {| holding_name := "xeqt" |}; {| holding_name := "vfv" |};
             {| holding_name := "xeqt" |} ]).
  discriminate.
Defined.

(** X26.  A holding whose lowered name is already in the portfolio does
    not change the diversity score. *)
Theorem repeated_name_does_not_raise_diversity (lower : string -> string)
    (holding : Holding) (investment_holdings : list Holding) :
  In (lower (holding_name holding))
     (map (fun h => lower (holding_name h)) investment_holdings) ->
  investment_diversity_score lower (holding :: investment_holdings)
  = investment_diversity_score lower investment_holdings.
Proof.
  intros Hin.
  destruct investment_holdings as [| h hs]; [contradiction |].
  unfold investment_diversity_score.
  assert (Hu : unique_holdings lower (holding :: h :: hs)
               = unique_holdings lower (h :: hs)).
  { unfold unique_holdings.
    change (map (fun holding0 => lower (holding_name holding0))
              (holding :: h :: hs))
      with (lower (holding_name holding)
            :: map (fun holding0 => lower (holding_name holding0)) (h :: hs)).
    cbn [nodup].
    destruct (in_dec string_dec (lower (holding_name holding))
                (map (fun holding0 => lower (holding_name holding0))
                   (h :: hs))) as [_ | Hout];
      [reflexivity | contradiction]. }
  rewrite Hu. reflexivity.
Qed.

Lemma repeated_name_does_not_raise_diversity_witness :
  investment_diversity_score (fun name => name)
    [ {| holding_name := "xeqt" |}; {| holding_name := "vfv" |};
      {| holding_name := "xeqt" |} ]
  = investment_diversity_score (fun name => name)
      [ {| holding_name := "vfv" |}; {| holding_name := "xeqt" |} ].
Proof.
  apply (repeated_name_does_not_raise_diversity (fun name => name)
           {| holding_name := "xeqt" |}
           [ {| holding_name := "vfv" |}; {| holding_name := "xeqt" |} ]).
  cbn. right. left. reflexivity.
Defined.

(** X27.  [analyze_retirement_health] is complete exactly when both
    balances are on record, a balance of zero included.  A complete
    analysis totals the two balances and scores 50 for each positive one;
    an incomplete one names the missing balances in the order RRSP, TFSA,
    with no checklist, no total and a progress of zero. *)
Theorem health_analysis_by_recorded_balances (profile_data : HealthProfile) :
  let analysis := analyze_retirement_health profile_data in
  (forall rrsp tfsa,
     hp_rrsp_savings profile_data = Some rrsp ->
     hp_tfsa_savings profile_data = Some tfsa ->
     ha_status analysis = "complete"%string
     /\ ha_missing_fields analysis = []
     /\ ha_total_retirement_savings analysis = Some (rrsp + tfsa)
     /\ ha_progress analysis
        == (if Py.gt rrsp 0 then 50 else 0) + (if Py.gt tfsa 0 then 50 else 0))
  /\ (hp_rrsp_savings profile_data = None
      \/ hp_tfsa_savings profile_data = None ->
      ha_status analysis = "incomplete"%string
      /\ ha_missing_fields analysis
         = (match hp_rrsp_savings profile_data with
            | None => ["RRSP balance"%string]
            | Some _ => []
            end)
           ++ (match hp_tfsa_savings profile_data with
               | None => ["TFSA balance"%string]
               | Some _ => []
               end)
      /\ ha_checklist analysis = []
      /\ ha_total_retirement_savings analysis = None
      /\ ha_progress analysis == 0).
Proof.
  destruct profile_data as [[rrsp |] [tfsa |]];
    unfold analyze_retirement_health; cbn [hp_rrsp_savings hp_tfsa_savings];
    split.
  all: try (intros r t Hr Ht; try discriminate Hr; try discriminate Ht).
  all: try (intros [F | F]; try discriminate F).
  all: try (cbn; repeat split; reflexivity).
  injection Hr as <-. injection Ht as <-.
  cbn -[Py.gt Qdiv Qmult inject_Z].
  destruct (Py.gt rrsp 0); destruct (Py.gt tfsa 0);
    cbn; repeat split; reflexivity.
Qed.

Lemma health_analysis_by_recorded_balances_witness :
  ha_status
    (analyze_retirement_health
       {| hp_rrsp_savings := Some 5000; hp_tfsa_savings := Some 0 |})
  = "complete"%string
  /\ ha_progress
       (analyze_retirement_health
          {| hp_rrsp_savings := Some 5000; hp_tfsa_savings := Some 0 |})
     == 50.
Proof.
  destruct (health_analysis_by_recorded_balances
              {| hp_rrsp_savings := Some 5000; hp_tfsa_savings := Some 0 |})
    as [Hcomplete _].
  destruct (Hcomplete 5000 0 eq_refl eq_refl) as (Hs & _ & _ & Hp).
  split; [exact Hs |].
  rewrite Hp. reflexivity.
Defined.

End ChecklistProperties.
